(** * Agent Synapse backend: prompt steering and streaming execution

    A shallow embedding of the Python backend (prompt_engine.py,
    token_tracker.py, models.py, artifact_manager.py, gemini_client.py and
    main.py) together with the properties of its steering engine, usage
    estimator, artifact store and streaming endpoint.

    Conventions of the embedding:
    - a Python [str] is the list of its Unicode code points, so [len] is
      [length] and [encode('utf-8')] is a partial function into bytes;
    - a Python [float] is an IEEE 754 binary64 number, a [spec_float] of
      the Standard Library with precision 53 and maximal exponent 1024, the
      operations rounding to nearest, ties to even;
    - a Python [int] is a [Z];
    - a call that may raise returns a [result];
    - the process-wide dictionaries and the artifact directory are finite
      maps threaded through the calls. *)

From Stdlib Require Import ZArith NArith List Ascii String Floats Lia Bool.
From Stdlib Require DecimalString.
From stdpp Require Import base option list strings gmap.

Set Warnings "-inexact-float".

(* ===================================================================== *)
(** * Python floats *)
(* ===================================================================== *)

Module F64.

Definition add : spec_float -> spec_float -> spec_float := SFadd prec emax.
Definition mul : spec_float -> spec_float -> spec_float := SFmul prec emax.
Definition div : spec_float -> spec_float -> spec_float := SFdiv prec emax.
Definition ltb : spec_float -> spec_float -> bool := SFltb.
Definition leb : spec_float -> spec_float -> bool := SFleb.

(** An integer as mantissa with exponent zero: its exact value, of any
    size, as an operand of a correctly rounded division. *)
Definition exact (z : Z) : spec_float :=
  match z with
  | Z0 => S754_zero false
  | Zpos p => S754_finite false p 0
  | Zneg p => S754_finite true p 0
  end.

(** [float(z)]: the binary64 number nearest to [z]. *)
Definition of_int (z : Z) : spec_float := binary_normalize prec emax z 0 false.

(** The decimal literal [m]e-[k] of the source: the binary64 number
    nearest to m / 10^k, as the parser of Python produces it. *)
Definition dec (m k : Z) : spec_float := div (exact m) (exact (10 ^ k)).

(** Not a NaN and not negative (the zeros of either sign count). *)
Definition nonneg (f : spec_float) : bool :=
  match f with
  | S754_zero _ => true
  | S754_infinity s => negb s
  | S754_nan => false
  | S754_finite s _ _ => negb s
  end.

Definition is_finite (f : spec_float) : bool :=
  match f with
  | S754_zero _ | S754_finite _ _ _ => true
  | _ => false
  end.

End F64.

Abbreviation float := spec_float.

Declare Scope f64_scope.
Delimit Scope f64_scope with f64.
Infix "+" := F64.add : f64_scope.
Infix "*" := F64.mul : f64_scope.
Infix "<?" := F64.ltb : f64_scope.
Infix "<=?" := F64.leb : f64_scope.

(* ===================================================================== *)
(** * Python strings *)
(* ===================================================================== *)

Abbreviation str := (list N).

(** An ASCII literal of the source, as code points. *)
Definition u (s : string) : str := map N_of_ascii (list_ascii_of_string s).
Arguments u : simpl never.

(** The line feed and the double quote, which the literals below splice in. *)
Definition nl : str := [10%N].
Definition dq : str := [34%N].

(** A triple-quoted literal given line by line: the lines joined by line
    feeds, none after the last. *)
Fixpoint lines (ls : list str) : str :=
  match ls with
  | [] => []
  | [l] => l
  | l :: ls' => l ++ nl ++ lines ls'
  end.

(** [blk] occurs in [s] at offset [i]. *)
Definition occurs_at (blk : str) (i : nat) (s : str) : Prop :=
  take (length blk) (drop i s) = blk.

(* ===================================================================== *)
(** * Exceptions *)
(* ===================================================================== *)

Inductive exc_class :=
  | KeyError
  | ZeroDivisionError
  | OverflowError
  | UnicodeEncodeError
  | PydanticSerializationError
  | ValidationError
  | FileNotFoundError
  | OSError
  | Exception.

(** An exception object: its class and the text [str(e)] gives. *)
Record exn := mk_exn { exc_type : exc_class; exc_str : str }.

Inductive result (A : Type) :=
  | Ok (a : A)
  | Raise (e : exn).
Arguments Ok {A} a.
Arguments Raise {A} e.

Definition rbind {A B} (r : result A) (k : A -> result B) : result B :=
  match r with
  | Ok a => k a
  | Raise e => Raise e
  end.

Declare Scope py_scope.
Delimit Scope py_scope with py.
Notation "x <- c ;; k" := (rbind c (fun x => k))
  (at level 100, c at next level, right associativity) : py_scope.

(** [d[k]], which raises [KeyError], and [d.get(k, default)]. *)
Definition getitem {V} (d : gmap str V) (k : str) : result V :=
  match d !! k with
  | Some v => Ok v
  | None => Raise (mk_exn KeyError (u "'" ++ k ++ u "'"))
  end.

Definition dict_get {V} (d : gmap str V) (k : str) (dflt : V) : V :=
  default dflt (d !! k).

(* ===================================================================== *)
(** * prompt_engine.py *)
(* ===================================================================== *)

Module PromptEngine.

Definition BASE_PROMPTS : gmap str str :=
  {[ u "analyst" :=
       u "You are a financial analyst agent specialized in data-driven insights and market analysis.";
     u "writer" :=
       u "You are a creative writer agent focused on compelling narratives and engaging content.";
     u "researcher" :=
       u "You are a research agent that gathers, synthesizes, and analyzes information from multiple sources." ]}.

(** The value of [BASE_PROMPTS["analyst"]], the default of the lookup. *)
Definition ANALYST_PROMPT : str :=
  u "You are a financial analyst agent specialized in data-driven insights and market analysis.".

(** The three density tiers. *)
Definition EXECUTIVE_SUMMARY : str := lines
  [ u "OUTPUT_DENSITY: EXECUTIVE_SUMMARY";
    u "- Provide only key insights and conclusions";
    u "- Maximum 3-5 bullet points or brief paragraphs";
    u "- Avoid technical details unless absolutely critical";
    u "- Focus on actionable recommendations";
    u "- Keep total response under 200 words" ].

Definition DETAILED_REPORT : str := lines
  [ u "OUTPUT_DENSITY: DETAILED_REPORT";
    u "- Provide comprehensive analysis with supporting evidence";
    u "- Include relevant context and methodology";
    u "- Balance depth with readability";
    u "- Use structured formatting (headings, lists, paragraphs)";
    u "- Target 300-500 words with clear organization" ].

Definition RAW_VERBOSE : str := lines
  [ u "OUTPUT_DENSITY: RAW_VERBOSE";
    u "- Include all relevant data points and calculations";
    u "- Show your reasoning process step-by-step";
    u "- Provide extensive context and background information";
    u "- Include data sources, assumptions, and confidence levels";
    u "- Aim for thorough coverage (500+ words if needed)" ].

(** The three creativity tiers. *)
Definition STRICTLY_FACTUAL : str := lines
  [ u "CREATIVITY_LEVEL: STRICTLY_FACTUAL";
    u "- Base all statements on verified data and established facts";
    u "- Avoid speculation or hypothetical scenarios";
    u "- Use conservative, evidence-based language (e.g., " ++ dq ++ u "data shows" ++ dq
      ++ u " rather than " ++ dq ++ u "might indicate" ++ dq ++ u ")";
    u "- Cite sources or note data limitations when appropriate";
    u "- Maintain objectivity and avoid interpretive leaps";
    u "- Recommended Temperature: 0.2" ].

Definition BALANCED_INSIGHT : str := lines
  [ u "CREATIVITY_LEVEL: BALANCED_INSIGHT";
    u "- Blend factual analysis with reasonable inferences";
    u "- Use moderate speculation, clearly labeled as such";
    u "- Consider multiple perspectives and interpretations";
    u "- Balance empirical data with thoughtful extrapolation";
    u "- Acknowledge uncertainty where it exists";
    u "- Recommended Temperature: 0.5" ].

Definition SPECULATIVE_CREATIVE : str := lines
  [ u "CREATIVITY_LEVEL: SPECULATIVE_CREATIVE";
    u "- Generate novel insights and unexpected connections";
    u "- Explore hypothetical scenarios and " ++ dq ++ u "what-if" ++ dq ++ u " thinking";
    u "- Use creative framing, metaphors, and analogies";
    u "- Challenge conventional interpretations";
    u "- Embrace imaginative reasoning while noting speculative elements";
    u "- Recommended Temperature: 0.9" ].

(** [F64.dec 3 1] is the literal 0.3 and [F64.dec 7 1] the literal 0.7. *)
Definition get_density_instruction (x : float) : str :=
  if (x <? F64.dec 3 1)%f64 then EXECUTIVE_SUMMARY
  else if (x <? F64.dec 7 1)%f64 then DETAILED_REPORT
  else RAW_VERBOSE.

Definition get_creativity_instruction (y : float) : str :=
  if (y <? F64.dec 3 1)%f64 then STRICTLY_FACTUAL
  else if (y <? F64.dec 7 1)%f64 then BALANCED_INSIGHT
  else SPECULATIVE_CREATIVE.

(** [0.2 + (y * 0.7)]. *)
Definition get_temperature (y : float) : float := (F64.dec 2 1 + (y * F64.dec 7 1))%f64.

(** The fixed tail of the assembled system prompt, from [CONSTRAINTS:] to
    the final line feed. *)
Definition CONSTRAINTS : str := lines
  [ u "CONSTRAINTS:";
    u "- Respond in Markdown format for readability";
    u "- Be transparent about uncertainty and assumptions";
    u "- Maintain professional tone while matching the creativity level";
    [] ].

(** The dictionary [build_prompt_components] returns. *)
Record components := mk_components {
  base_prompt : str;
  creativity_modifier : str;
  density_modifier : str;
  final_system_prompt : str;
  user_query : str;
  temperature : float
}.

Definition build_prompt_components
    (agent_role : str) (x y : float) (query : str) : result components :=
  (dflt <- getitem BASE_PROMPTS (u "analyst") ;;
   let base := dict_get BASE_PROMPTS agent_role dflt in
   let creativity := get_creativity_instruction y in
   let density := get_density_instruction x in
   let final :=
     base ++ nl ++ nl ++ creativity ++ nl ++ nl ++ density ++ nl ++ nl ++ CONSTRAINTS in
   Ok {| base_prompt := base;
         creativity_modifier := creativity;
         density_modifier := density;
         final_system_prompt := final;
         user_query := query;
         temperature := get_temperature y |})%py.

Definition build_full_prompt
    (agent_role : str) (x y : float) (query : str) : result str :=
  (c <- build_prompt_components agent_role x y query ;;
   Ok (final_system_prompt c ++ lines
         [ []; []; u "---"; u "USER QUERY:"; query; []; u "---"; u "RESPONSE:"; [] ]))%py.

End PromptEngine.


(* ===================================================================== *)
(** * Built-in operations on numbers *)
(* ===================================================================== *)

(** [a / b] on two [int]s: the quotient correctly rounded to binary64;
    [ZeroDivisionError] for a zero divisor, [OverflowError] when the
    quotient is beyond the range of a float. *)
Definition int_truediv (a b : Z) : result float :=
  if (b =? 0)%Z then Raise (mk_exn ZeroDivisionError (u "division by zero"))
  else
    match F64.div (F64.exact a) (F64.exact b) with
    | S754_infinity _ =>
        Raise (mk_exn OverflowError (u "integer division result too large for a float"))
    | q => Ok q
    end.

(** [n / d] to the nearest integer, a tie going to the even one ([d > 0]). *)
Definition round_half_even (n d : Z) : Z :=
  let q := (n / d)%Z in
  match (2 * (n mod d) ?= d)%Z with
  | Lt => q
  | Gt => (q + 1)%Z
  | Eq => if Z.even q then q else (q + 1)%Z
  end.

(** The magnitude [n] with the sign [s], as an exact operand. *)
Definition signed (s : bool) (n : Z) : float :=
  match n with
  | Z0 => S754_zero s
  | Zpos p => S754_finite s p 0
  | Zneg _ => S754_nan
  end.

(** [round(x, ndigits)] on a float, for [ndigits >= 0]: the exact value of
    [x] is rounded to [ndigits] decimal places, ties to even, and the
    decimal obtained is converted back to the nearest binary64 number.
    Infinities, NaN and zeros round to themselves. *)
Definition round (x : float) (ndigits : Z) : float :=
  match x with
  | S754_finite s m e =>
      let p10 := (10 ^ ndigits)%Z in
      let n := round_half_even (Zpos m * p10 * 2 ^ Z.max e 0) (2 ^ Z.max (- e) 0) in
      F64.div (signed s n) (F64.exact p10)
  | _ => x
  end.

(* ===================================================================== *)
(** * token_tracker.py *)
(* ===================================================================== *)

Module TokenTracker.

Definition COST_PER_1K_INPUT : float := F64.dec 75 6.   (* 0.000075 *)
Definition COST_PER_1K_OUTPUT : float := F64.dec 3 4.   (* 0.0003 *)

Definition estimate_tokens (text : str) : Z := (Z.of_nat (length text) / 4)%Z.

Definition calculate_cost (input_tokens output_tokens : Z) : result float :=
  (a <- int_truediv input_tokens 1000 ;;
   let input_cost := (a * COST_PER_1K_INPUT)%f64 in
   b <- int_truediv output_tokens 1000 ;;
   let output_cost := (b * COST_PER_1K_OUTPUT)%f64 in
   Ok (round (input_cost + output_cost)%f64 6))%py.

(** The dictionary [get_usage_summary] returns. *)
Record usage := mk_usage {
  prompt_tokens : Z;
  completion_tokens : Z;
  total_tokens : Z;
  estimated_cost : float
}.

Definition get_usage_summary (input_text output_text : str) : result usage :=
  (let input_tokens := estimate_tokens input_text in
   let output_tokens := estimate_tokens output_text in
   let total := (input_tokens + output_tokens)%Z in
   cost <- calculate_cost input_tokens output_tokens ;;
   Ok {| prompt_tokens := input_tokens;
         completion_tokens := output_tokens;
         total_tokens := total;
         estimated_cost := cost |})%py.

End TokenTracker.

(** The largest length a Python sequence can have ([sys.maxsize]). *)
Definition maxsize : Z := (2 ^ 63 - 1)%Z.

(* ===================================================================== *)
(** * Encoding and time *)
(* ===================================================================== *)

Definition byte_of (n : N) : Byte.byte := default Byte.x00 (Byte.of_N n).

(** A Unicode scalar value: a code point that is not a surrogate. *)
Definition is_scalar (c : N) : bool :=
  (c <? 0xD800)%N || ((0xE000 <=? c)%N && (c <? 0x110000)%N).

Definition encode_cp (c : N) : list Byte.byte :=
  if (c <? 0x80)%N then [byte_of c]
  else if (c <? 0x800)%N then
    [byte_of (0xC0 + c / 0x40); byte_of (0x80 + c mod 0x40)]
  else if (c <? 0x10000)%N then
    [byte_of (0xE0 + c / 0x1000); byte_of (0x80 + (c / 0x40) mod 0x40);
     byte_of (0x80 + c mod 0x40)]
  else
    [byte_of (0xF0 + c / 0x40000); byte_of (0x80 + (c / 0x1000) mod 0x40);
     byte_of (0x80 + (c / 0x40) mod 0x40); byte_of (0x80 + c mod 0x40)].

(** The [k] lower-case hexadecimal digits of [n]. *)
Definition hexdigit (n : N) : N := if (n <? 10)%N then (48 + n)%N else (87 + n)%N.

Fixpoint hex_digits (k : nat) (n : N) : str :=
  match k with
  | O => []
  | S k' => hex_digits k' (n / 16) ++ [hexdigit (n mod 16)]
  end.

(** [str(n)] for an index. *)
Definition decimal (n : nat) : str := u (DecimalString.NilEmpty.string_of_uint (Nat.to_uint n)).

(** The length of the longest prefix of [s] whose code points satisfy [p]. *)
Fixpoint span (p : N -> bool) (s : str) : nat :=
  match s with
  | c :: s' => if p c then S (span p s') else O
  | [] => O
  end.

(** The [UnicodeEncodeError] of the UTF-8 codec: it names the first
    surrogate and its position, or the positions of the first run of
    surrogates when there are several in a row. *)
Definition encode_error (s : str) : exn :=
  let start := span is_scalar s in
  let stop := (start + span (fun c => negb (is_scalar c)) (drop start s))%nat in
  mk_exn UnicodeEncodeError
    (u "'utf-8' codec can't encode character"
     ++ (if (stop =? S start)%nat
         then u " '\u" ++ hex_digits 4 (nth start s 0%N) ++ u "' in position " ++ decimal start
         else u "s in position " ++ decimal start ++ u "-" ++ decimal (stop - 1))
     ++ u ": surrogates not allowed").

(** [s.encode('utf-8')]: a surrogate code point cannot be encoded. *)
Definition encode_utf8 (s : str) : result (list Byte.byte) :=
  if forallb is_scalar s then Ok (flat_map encode_cp s)
  else Raise (encode_error s).

(** [uuid.uuid4().hex]: the 32 lower-case hexadecimal digits of the 128-bit
    value drawn. *)
Definition uuid_hex (uuid : N) : str := hex_digits 32 uuid.

(** A naive [datetime], as [datetime.utcnow()] returns it; its year has
    four digits. *)
Record datetime := mk_datetime {
  year : N; month : N; day : N;
  hour : N; minute : N; second : N; microsecond : N
}.

Definition digit (n : N) : N := (48 + n mod 10)%N.
Definition pad2 (n : N) : str := [digit (n / 10); digit n].
Definition pad4 (n : N) : str := [digit (n / 1000); digit (n / 100); digit (n / 10); digit n].

(** [ts.strftime('%Y%m%d_%H%M%S')]. *)
Definition strftime (ts : datetime) : str :=
  pad4 (year ts) ++ pad2 (month ts) ++ pad2 (day ts) ++ u "_"
  ++ pad2 (hour ts) ++ pad2 (minute ts) ++ pad2 (second ts).

(* ===================================================================== *)
(** * models.py *)
(* ===================================================================== *)

(** A model class is a record of validated fields; [validate] is the
    construction of an instance, which raises [ValidationError] when a
    field constraint fails. *)

Definition validation_error : exn := mk_exn ValidationError (u "validation error").

Module XYPadPosition.
Record t := mk { x : float; y : float }.

(** [Field(ge=0.0, le=1.0)]. *)
Definition in_unit (v : float) : bool :=
  (F64.of_int 0 <=? v)%f64 && (v <=? F64.of_int 1)%f64.

Definition validate (x y : float) : result t :=
  if in_unit x && in_unit y then Ok (mk x y) else Raise validation_error.
End XYPadPosition.

(** [Literal["analyst", "writer", "researcher"]]. *)
Module AgentRole.
Inductive t := analyst | writer | researcher.

Definition to_str (r : t) : str :=
  match r with
  | analyst => u "analyst"
  | writer => u "writer"
  | researcher => u "researcher"
  end.

Definition of_str (s : str) : option t :=
  if decide (s = u "analyst") then Some analyst
  else if decide (s = u "writer") then Some writer
  else if decide (s = u "researcher") then Some researcher
  else None.
End AgentRole.

(** The body of a preview or execute request as it arrives, before
    validation; an absent [agent_role] takes the default. *)
Record raw_request := mk_raw {
  raw_query : str;
  raw_x : float;
  raw_y : float;
  raw_agent_role : option str
}.

(** [AgentExecutionRequest]; [PromptPreviewRequest] has the same fields and
    constraints. *)
Module AgentExecutionRequest.
Record t := mk {
  query : str;
  xy_position : XYPadPosition.t;
  agent_role : AgentRole.t
}.

(** [Field(..., min_length=1, max_length=2000)]: a string with a length
    constraint is validated as text, which one holding a lone surrogate
    is not, and its length is counted in code points. *)
Definition query_ok (s : str) : bool :=
  let n := Z.of_nat (length s) in
  forallb is_scalar s && ((1 <=? n)%Z && (n <=? 2000)%Z).

Definition validate (r : raw_request) : result t :=
  (if negb (query_ok (raw_query r)) then Raise validation_error
   else
     pos <- XYPadPosition.validate (raw_x r) (raw_y r) ;;
     match raw_agent_role r with
     | None => Ok (mk (raw_query r) pos AgentRole.analyst)
     | Some s =>
         match AgentRole.of_str s with
         | Some role => Ok (mk (raw_query r) pos role)
         | None => Raise validation_error
         end
     end)%py.

(** A value of the body that its field refused, as the error list of the
    [ValidationError] reports it under [input]. *)
Inductive input :=
  | InStr (s : str)
  | InFloat (v : float).

(** The values refused, in the order of the fields: every field is
    validated, also when another one has failed. *)
Definition refused (r : raw_request) : list input :=
  (if query_ok (raw_query r) then [] else [InStr (raw_query r)])
  ++ (if XYPadPosition.in_unit (raw_x r) then [] else [InFloat (raw_x r)])
  ++ (if XYPadPosition.in_unit (raw_y r) then [] else [InFloat (raw_y r)])
  ++ match raw_agent_role r with
     | None => []
     | Some s =>
         match AgentRole.of_str s with
         | Some _ => []
         | None => [InStr s]
         end
     end.
End AgentExecutionRequest.

Module PromptComponents.
(** [temperature: float = Field(..., ge=0.0, le=1.0)]. *)
Definition validate (c : PromptEngine.components) : result PromptEngine.components :=
  if XYPadPosition.in_unit (PromptEngine.temperature c) then Ok c
  else Raise validation_error.
End PromptComponents.

Module TokenUsage.
Record t := mk {
  prompt_tokens : Z;
  completion_tokens : Z;
  total_tokens : Z;
  estimated_cost : float
}.

Definition validate (d : TokenTracker.usage) : result t :=
  if (0 <=? TokenTracker.prompt_tokens d)%Z
     && (0 <=? TokenTracker.completion_tokens d)%Z
     && (0 <=? TokenTracker.total_tokens d)%Z
     && (F64.of_int 0 <=? TokenTracker.estimated_cost d)%f64
  then Ok (mk (TokenTracker.prompt_tokens d) (TokenTracker.completion_tokens d)
              (TokenTracker.total_tokens d) (TokenTracker.estimated_cost d))
  else Raise validation_error.
End TokenUsage.

Module ArtifactMetadata.
Record t := mk {
  artifact_id : str;
  filename : str;
  content : str;
  created_at : datetime;
  file_type : str;
  size_bytes : Z;
  agent_role : str
}.

Definition file_types : list str := [u "markdown"; u "json"; u "text"].

Definition validate (m : t) : result t :=
  if bool_decide (file_type m ∈ file_types) && (0 <=? size_bytes m)%Z then Ok m
  else Raise validation_error.

(** [model_dump_json]: every string of the instance is written out as
    UTF-8, which fails on a surrogate. *)
Definition serializable (m : t) : bool :=
  forallb (forallb is_scalar)
    [artifact_id m; filename m; content m; file_type m; agent_role m].
End ArtifactMetadata.

(* ===================================================================== *)
(** * artifact_manager.py *)
(* ===================================================================== *)

Module ArtifactManager.

(** A file of the storage directory. A content file holds the UTF-8
    bytes written to it. A metadata file holds the JSON document of one
    [ArtifactMetadata] instance and is kept as that instance:
    [model_validate_json] gives back what [model_dump_json] wrote. *)
Inductive file :=
  | Text (data : list Byte.byte)
  | Json (m : ArtifactMetadata.t).

(** What the file system can do to one of the two files [save_artifact]
    writes. Opening the file for writing can be refused, which leaves the
    directory as it was. Once opened the file exists and is empty, and the
    write, or the flush when the file is closed, can fail: the file is then
    left with the bytes that [reached] it, none at all when the data was
    still in the buffer, and never the whole of the data. *)
Inductive io_fault :=
  | OpenFails (e : exn)
  | WriteFails (e : exn) (reached : list Byte.byte).

Record io_faults := mk_faults {
  content_write : option io_fault;
  metadata_write : option io_fault
}.

Definition no_faults : io_faults := mk_faults None None.

Definition extensions : gmap str str :=
  {[ u "markdown" := u "md"; u "json" := u "json"; u "text" := u "txt" ]}.

(** [uuid4] is the value [uuid.uuid4()] draws and [now] the value of
    [datetime.utcnow()] at this call. Each file is opened for writing
    before anything is written to it, which creates it empty or empties
    it: a write that fails while encoding, and a serialization that
    fails, leave an empty file, and a write that the file system fails
    leaves what had reached the file. *)
Definition save_artifact
    (uuid4 : N) (now : datetime) (faults : io_faults)
    (content agent_role file_type : str) (dir : gmap str file)
    : result ArtifactMetadata.t * gmap str file :=
  let artifact_id := u "art_" ++ take 12 (uuid_hex uuid4) in
  let timestamp := now in
  let ext := dict_get extensions file_type (u "txt") in
  let filename := artifact_id ++ u "_" ++ strftime timestamp ++ u "." ++ ext in
  match content_write faults with
  | Some (OpenFails e) => (Raise e, dir)
  | content_fault =>
    match encode_utf8 content with
    | Raise e => (Raise e, <[filename := Text []]> dir)
    | Ok data =>
      match content_fault with
      | Some (WriteFails e reached) => (Raise e, <[filename := Text reached]> dir)
      | _ =>
        let dir1 := <[filename := Text data]> dir in
        match ArtifactMetadata.validate
                (ArtifactMetadata.mk artifact_id filename content timestamp file_type
                   (Z.of_nat (length data)) agent_role) with
        | Raise e => (Raise e, dir1)
        | Ok metadata =>
          let metadata_path := artifact_id ++ u "_meta.json" in
          match metadata_write faults with
          | Some (OpenFails e) => (Raise e, dir1)
          | metadata_fault =>
            if ArtifactMetadata.serializable metadata
            then
              match metadata_fault with
              | Some (WriteFails e reached) =>
                  (Raise e, <[metadata_path := Text reached]> dir1)
              | _ => (Ok metadata, <[metadata_path := Json metadata]> dir1)
              end
            else (Raise (mk_exn PydanticSerializationError (u "Error serializing to JSON")),
                  <[metadata_path := Text []]> dir1)
          end
        end
      end
    end
  end.

(** The identifier and the file name [save_artifact] forms from its two
    draws. *)
Definition artifact_id_of (uuid4 : N) : str := u "art_" ++ take 12 (uuid_hex uuid4).

Definition filename_of (uuid4 : N) (now : datetime) (file_type : str) : str :=
  artifact_id_of uuid4 ++ u "_" ++ strftime now ++ u "."
  ++ dict_get extensions file_type (u "txt").

(** A file at the metadata path that is not a metadata document, as a
    failed [save_artifact] can leave one, fails validation. *)
Definition get_artifact (artifact_id : str) (dir : gmap str file)
    : result ArtifactMetadata.t :=
  let metadata_path := artifact_id ++ u "_meta.json" in
  match dir !! metadata_path with
  | None =>
      Raise (mk_exn FileNotFoundError (u "Artifact " ++ artifact_id ++ u " not found"))
  | Some (Json m) => Ok m
  | Some (Text _) => Raise validation_error
  end.

(** [settings.artifact_storage_path] at its default, as [Path] prints it. *)
Definition storage_path : str := u "backend/storage/artifacts".

(** [path.unlink()] on a file of the storage directory. *)
Definition unlink (name : str) (dir : gmap str file) : result unit * gmap str file :=
  match dir !! name with
  | Some _ => (Ok tt, delete name dir)
  | None =>
      (Raise (mk_exn FileNotFoundError
                (u "[Errno 2] No such file or directory: '" ++ storage_path ++ u "/" ++ name
                 ++ u "'")),
       dir)
  end.

(** The metadata is read to learn the name of the content file; the
    content file is removed when it exists, the metadata file in any
    case. *)
Definition delete_artifact (artifact_id : str) (dir : gmap str file)
    : result bool * gmap str file :=
  let metadata_path := artifact_id ++ u "_meta.json" in
  match dir !! metadata_path with
  | None => (Ok false, dir)
  | Some (Text _) => (Raise validation_error, dir)
  | Some (Json metadata) =>
      let content_path := ArtifactMetadata.filename metadata in
      let dir1 :=
        match dir !! content_path with
        | Some _ => delete content_path dir
        | None => dir
        end in
      match unlink metadata_path dir1 with
      | (Ok _, dir2) => (Ok true, dir2)
      | (Raise e, dir2) => (Raise e, dir2)
      end
  end.

End ArtifactManager.

(* ===================================================================== *)
(** * Built-in operations on strings, and JSON values *)
(* ===================================================================== *)

(** The code points [str.isspace] accepts, which [str.strip] removes. *)
Definition is_space (c : N) : bool :=
  ((0x09 <=? c) && (c <=? 0x0D))%N || ((0x1C <=? c) && (c <=? 0x20))%N
  || (c =? 0x85)%N || (c =? 0xA0)%N || (c =? 0x1680)%N
  || ((0x2000 <=? c) && (c <=? 0x200A))%N
  || (c =? 0x2028)%N || (c =? 0x2029)%N || (c =? 0x202F)%N || (c =? 0x205F)%N
  || (c =? 0x3000)%N.

Fixpoint lstrip (s : str) : str :=
  match s with
  | c :: s' => if is_space c then lstrip s' else s
  | [] => []
  end.

Definition rstrip (s : str) : str := reverse (lstrip (reverse s)).

Definition strip (s : str) : str := rstrip (lstrip s).

Definition startswith (s prefix : str) : bool :=
  bool_decide (take (length prefix) s = prefix).

Definition endswith (s suffix : str) : bool :=
  bool_decide (drop (length s - length suffix) s = suffix).

(** What [json.loads] returns and [json.dumps] takes; a [dict] keeps its
    keys in the order of insertion. *)
#[local] Set Warnings "-register-all".
Inductive json :=
  | JNull
  | JBool (b : bool)
  | JInt (n : Z)
  | JFloat (f : float)
  | JStr (s : str)
  | JList (items : list json)
  | JDict (items : list (str * json)).

(** [json.dumps] on a [str], with [ensure_ascii] at its default: the
    quote, the backslash and the five short escapes, every other code
    point outside the printable ASCII range as four hexadecimal digits,
    and a code point beyond the basic plane as a surrogate pair. *)
Definition escape_cp (c : N) : str :=
  if (c =? 34)%N then [92; 34]%N
  else if (c =? 92)%N then [92; 92]%N
  else if (c =? 10)%N then [92; 110]%N
  else if (c =? 13)%N then [92; 114]%N
  else if (c =? 9)%N then [92; 116]%N
  else if (c =? 12)%N then [92; 102]%N
  else if (c =? 8)%N then [92; 98]%N
  else if ((32 <=? c) && (c <=? 126))%N then [c]
  else if (c <? 0x10000)%N then [92; 117]%N ++ hex_digits 4 c
  else
    let v := (c - 0x10000)%N in
    [92; 117]%N ++ hex_digits 4 (0xD800 + (v / 0x400) mod 0x400)
    ++ [92; 117]%N ++ hex_digits 4 (0xDC00 + v mod 0x400).

Definition dumps_str (s : str) : str := dq ++ flat_map escape_cp s ++ dq.

(** [json.dumps({key: value})] for a [str] value. *)
Definition dumps_singleton (key value : str) : str :=
  u "{" ++ dumps_str key ++ u ": " ++ dumps_str value ++ u "}".

(* ===================================================================== *)
(** * gemini_client.py *)
(* ===================================================================== *)

Module GeminiClient.

(** What the SDK's streaming response does, item by item: it delivers a
    chunk with its text, or it raises. A failure of the call itself is a
    response whose first item raises. *)
Inductive item :=
  | Chunk (text : str)
  | Fails (e : exn).

(** The remote model: the response to a prompt, a temperature and a
    maximal output length. *)
Definition backend := str -> float -> Z -> list item.

(** A finished run of an asynchronous generator of fragments: what it
    yielded, in order, and the exception that ended it, if any. *)
Record run := mk_run { yielded : list str; raised : option exn }.

Fixpoint relay_chunks (response : list item) : run :=
  match response with
  | [] => mk_run [] None
  | Chunk text :: rest =>
      let r := relay_chunks rest in
      match text with
      | [] => r
      | _ => mk_run (text :: yielded r) (raised r)
      end
  | Fails e :: _ =>
      mk_run [] (Some (mk_exn Exception (u "Gemini API error: " ++ exc_str e)))
  end.

Definition stream_generate
    (model : backend) (prompt : str) (temperature : float) (max_output_tokens : Z) : run :=
  relay_chunks (model prompt temperature max_output_tokens).

(** The remote model called without streaming: the text of its response,
    or the exception the call raises. *)
Definition completion := str -> float -> Z -> result str.

Definition generate
    (model : completion) (prompt : str) (temperature : float) (max_output_tokens : Z)
    : result str :=
  match model prompt temperature max_output_tokens with
  | Ok text => Ok text
  | Raise e => Raise (mk_exn Exception (u "Gemini API error: " ++ exc_str e))
  end.

Definition system_prompt : str := lines
  [ u "You are an AI architect that designs agent teams.";
    [];
    u "Given a user's goal, output a JSON configuration for a team of AI agents.";
    [];
    u "RULES:";
    u "1. Use 1-3 agents maximum (keep it simple)";
    u "2. Each agent should have:";
    u "   - id: unique identifier (e.g., " ++ dq ++ u "agent-1" ++ dq ++ u ")";
    u "   - role: one of [" ++ dq ++ u "analyst" ++ dq ++ u ", " ++ dq ++ u "writer" ++ dq
      ++ u ", " ++ dq ++ u "researcher" ++ dq ++ u "]";
    u "   - name: descriptive name (e.g., " ++ dq ++ u "Market Analyst" ++ dq ++ u ")";
    u "   - suggested_xy: recommended XY position as {x: 0.0-1.0, y: 0.0-1.0}";
    u "     - x: density (0=summary, 1=verbose)";
    u "     - y: creativity (0=factual, 1=creative)";
    [];
    u "3. Suggest appropriate connections between agents if needed";
    [];
    u "OUTPUT FORMAT (strict JSON):";
    u "{";
    u "  " ++ dq ++ u "agents" ++ dq ++ u ": [";
    u "    {";
    u "      " ++ dq ++ u "id" ++ dq ++ u ": " ++ dq ++ u "agent-1" ++ dq ++ u ",";
    u "      " ++ dq ++ u "role" ++ dq ++ u ": " ++ dq ++ u "researcher" ++ dq ++ u ",";
    u "      " ++ dq ++ u "name" ++ dq ++ u ": " ++ dq ++ u "Data Researcher" ++ dq ++ u ",";
    u "      " ++ dq ++ u "suggested_xy" ++ dq ++ u ": {" ++ dq ++ u "x" ++ dq ++ u ": 0.6, "
      ++ dq ++ u "y" ++ dq ++ u ": 0.2}";
    u "    }";
    u "  ],";
    u "  " ++ dq ++ u "suggested_query" ++ dq ++ u ": " ++ dq
      ++ u "A refined version of the user's goal as a clear task" ++ dq;
    u "}";
    [];
    u "IMPORTANT: Output ONLY valid JSON, no markdown, no explanation." ].

(** The cleaning of the response before it is parsed: the text is
    stripped, an opening and a closing code fence are cut off, and the
    text is stripped again. *)
Definition clean_response (response_text : str) : str :=
  let response_text := strip response_text in
  let response_text :=
    if startswith response_text (u "```json") then drop 7 response_text else response_text in
  let response_text :=
    if startswith response_text (u "```") then drop 3 response_text else response_text in
  let response_text :=
    if endswith response_text (u "```")
    then take (length response_text - 3) response_text else response_text in
  strip response_text.

(** What [json.loads] does with a text: it returns the value parsed, it
    raises [json.JSONDecodeError], or it raises another exception. *)
Inductive loaded :=
  | Parsed (config : json)
  | JSONDecodeError (msg : str)
  | LoadRaises (e : exn).

(** The single agent the method falls back to. *)
Definition fallback_config (user_goal : str) : json :=
  JDict
    [ (u "agents",
       JList
         [ JDict
             [ (u "id", JStr (u "agent-1"));
               (u "role", JStr (u "analyst"));
               (u "name", JStr (u "General Agent"));
               (u "suggested_xy",
                JDict [ (u "x", JFloat (F64.dec 5 1)); (u "y", JFloat (F64.dec 5 1)) ]) ] ]);
      (u "suggested_query", JStr user_goal) ].

(** How a call of [generate_agent_config] ends: it returns a
    configuration, or an exception leaves it. The name [json] is local to
    the method, bound by the import inside the [try] block after the model
    has answered; the first handler names [json.JSONDecodeError], so
    matching an exception raised before the import raises
    [UnboundLocalError] in its place, and the second handler is not
    reached. *)
Inductive outcome :=
  | Returned (config : json)
  | UnboundLocalError (msg : str)
  | Raised (e : exn).

Definition generate_agent_config
    (model : completion) (loads : str -> loaded) (user_goal : str) : outcome :=
  let prompt :=
    system_prompt ++ lines [ []; []; u "USER GOAL:"; user_goal; []; u "JSON OUTPUT:"; [] ] in
  match generate model prompt (F64.dec 3 1) 1024 with
  | Raise _ =>
      UnboundLocalError
        (u "cannot access local variable 'json' where it is not associated with a value")
  | Ok response_text =>
      match loads (clean_response response_text) with
      | Parsed config => Returned config
      | JSONDecodeError _ => Returned (fallback_config user_goal)
      | LoadRaises e =>
          Raised (mk_exn Exception (u "Failed to generate agent config: " ++ exc_str e))
      end
  end.

End GeminiClient.

(* ===================================================================== *)
(** * main.py *)
(* ===================================================================== *)

(** One server-sent event of the streaming endpoint, by its event name and
    the fields of its JSON payload. *)
Module SSE.
Inductive event :=
  | token (content : str)
  | complete (artifact_id : str) (token_usage : TokenUsage.t)
  | error (error : str).

(** The text of a [token] and of an [error] event on the wire. *)
Definition token_frame (token : str) : str :=
  u "event: token" ++ nl ++ u "data: " ++ dumps_singleton (u "content") token ++ nl ++ nl.

Definition error_frame (error : str) : str :=
  u "event: error" ++ nl ++ u "data: " ++ dumps_singleton (u "error") error ++ nl ++ nl.
End SSE.

Module Main.

(** An entry of the [executions] dictionary. The keys [artifact_id] and
    [error] are absent until a stream sets them. *)
Record execution := mk_execution {
  request : AgentExecutionRequest.t;
  prompt_components : PromptEngine.components;
  status : str;
  created_at : datetime;
  artifact_id : option str;
  error : option str
}.

(** The mutable state of the process: the [executions] dictionary and the
    storage directory of the artifact manager. *)
Record world := mk_world {
  executions : gmap str execution;
  storage : gmap str ArtifactManager.file
}.

(** What an endpoint answers: the value its handler returns, an
    [HTTPException], the 422 answer the framework gives to a body that
    fails validation, without calling the handler, or the 500 answer of
    the server when an exception escapes the application. *)
Inductive response (A : Type) :=
  | Returns (body : A)
  | HTTPException (status_code : Z) (detail : str)
  | Unprocessable
  | ServerError.
Arguments Returns {A} body.
Arguments HTTPException {A} status_code detail.
Arguments Unprocessable {A}.
Arguments ServerError {A}.

Definition preview_prompt (request : AgentExecutionRequest.t)
    : response PromptEngine.components :=
  match (components <-
           PromptEngine.build_prompt_components
             (AgentRole.to_str (AgentExecutionRequest.agent_role request))
             (XYPadPosition.x (AgentExecutionRequest.xy_position request))
             (XYPadPosition.y (AgentExecutionRequest.xy_position request))
             (AgentExecutionRequest.query request) ;;
         PromptComponents.validate components)%py with
  | Ok components => Returns components
  | Raise e => HTTPException 500 (u "Failed to generate prompt preview: " ++ exc_str e)
  end.

Record AgentExecutionResponse := mk_response {
  resp_execution_id : str;
  resp_prompt_components : PromptEngine.components;
  stream_url : str
}.

(** [uuid4] is the value [uuid.uuid4()] draws and [now] the value of
    [datetime.utcnow()] at this call. The record is stored before the
    response model is built. *)
Definition execute_agent
    (uuid4 : N) (now : datetime) (request : AgentExecutionRequest.t) (w : world)
    : response AgentExecutionResponse * world :=
  let execution_id := u "exec_" ++ take 12 (uuid_hex uuid4) in
  match PromptEngine.build_prompt_components
          (AgentRole.to_str (AgentExecutionRequest.agent_role request))
          (XYPadPosition.x (AgentExecutionRequest.xy_position request))
          (XYPadPosition.y (AgentExecutionRequest.xy_position request))
          (AgentExecutionRequest.query request) with
  | Raise e => (HTTPException 500 (u "Failed to create execution: " ++ exc_str e), w)
  | Ok components =>
      let w' :=
        mk_world
          (<[execution_id := mk_execution request components (u "pending") now None None]>
             (executions w))
          (storage w) in
      match PromptComponents.validate components with
      | Raise e => (HTTPException 500 (u "Failed to create execution: " ++ exc_str e), w')
      | Ok checked =>
          (Returns (mk_response execution_id checked
                      (u "/api/v1/agent/stream/" ++ execution_id)), w')
      end
  end.

(** The 422 answer carries the error list, the refused values included,
    as a JSON text that admits no NaN and no infinity and is encoded as
    UTF-8. A refused value that is not a finite number, or a refused
    string that holds a lone surrogate, cannot be rendered: the exception
    escapes the handler of the validation error and the server answers
    500. *)
Definition renderable (i : AgentExecutionRequest.input) : bool :=
  match i with
  | AgentExecutionRequest.InStr s => forallb is_scalar s
  | AgentExecutionRequest.InFloat v => F64.is_finite v
  end.

Definition validation_response {A} (body : raw_request) : response A :=
  if forallb renderable (AgentExecutionRequest.refused body) then Unprocessable
  else ServerError.

(** The two POST routes as the framework serves them: the body is
    validated into the request model first. *)
Definition post_preview (body : raw_request) (w : world)
    : response PromptEngine.components * world :=
  match AgentExecutionRequest.validate body with
  | Raise _ => (validation_response body, w)
  | Ok request => (preview_prompt request, w)
  end.

Definition post_execute
    (uuid4 : N) (now : datetime) (body : raw_request) (w : world)
    : response AgentExecutionResponse * world :=
  match AgentExecutionRequest.validate body with
  | Raise _ => (validation_response body, w)
  | Ok request => execute_agent uuid4 now request w
  end.

(** ** The streaming endpoint *)

(** What one run of the event generator takes from outside the process:
    the remote model, the identifier and the time drawn by
    [save_artifact], the behaviour of the file system, and
    [settings.max_output_tokens]. *)
Record stream_env := mk_env {
  model : GeminiClient.backend;
  uuid4 : N;
  utcnow : datetime;
  faults : ArtifactManager.io_faults;
  max_output_tokens : Z
}.

(** A step of the generator: the events it yields, the state it leaves,
    and its value or the exception it raises. *)
Definition gen (A : Type) : Type := world -> list SSE.event * world * result A.

Definition ret {A} (a : A) : gen A := fun w => ([], w, Ok a).

Definition bind {A B} (m : gen A) (k : A -> gen B) : gen B :=
  fun w =>
    match m w with
    | (evs, w', Ok a) =>
        match k a w' with
        | (evs', w'', r) => (evs ++ evs', w'', r)
        end
    | (evs, w', Raise e) => (evs, w', Raise e)
    end.

Definition yield (e : SSE.event) : gen unit := fun w => ([e], w, Ok tt).

Definition lift {A} (r : result A) : gen A := fun w => ([], w, r).

(** [executions[execution_id][key] = value], as an update [f] of the
    record. *)
Definition setitem (execution_id : str) (f : execution -> execution) : gen unit :=
  fun w =>
    match executions w !! execution_id with
    | Some ex =>
        ([], mk_world (<[execution_id := f ex]> (executions w)) (storage w), Ok tt)
    | None => ([], w, Raise (mk_exn KeyError (u "'" ++ execution_id ++ u "'")))
    end.

Definition set_status (v : str) (ex : execution) : execution :=
  mk_execution (request ex) (prompt_components ex) v (created_at ex)
               (artifact_id ex) (error ex).

Definition set_artifact_id (v : str) (ex : execution) : execution :=
  mk_execution (request ex) (prompt_components ex) (status ex) (created_at ex)
               (Some v) (error ex).

Definition set_error (v : str) (ex : execution) : execution :=
  mk_execution (request ex) (prompt_components ex) (status ex) (created_at ex)
               (artifact_id ex) (Some v).

Definition save_artifact (env : stream_env) (content agent_role file_type : str)
    : gen ArtifactMetadata.t :=
  fun w =>
    match ArtifactManager.save_artifact (uuid4 env) (utcnow env) (faults env)
            content agent_role file_type (storage w) with
    | (r, dir) => ([], mk_world (executions w) dir, r)
    end.


Declare Scope gen_scope.
Delimit Scope gen_scope with gen.
Notation "x <- c ;; k" := (bind c (fun x => k))
  (at level 100, c at next level, right associativity) : gen_scope.

(** What [stream_agent_response] reads from the record when it is called
    and the generator keeps: the identifier, the request and the prompt
    components. *)
Record stream := mk_stream {
  execution_id : str;
  captured_request : AgentExecutionRequest.t;
  captured_components : PromptEngine.components
}.

(** The [async for] loop: each fragment is appended to the accumulator
    and relayed as a [token] event. *)
Fixpoint relay (tokens : list str) (accumulated_content : str) : gen str :=
  match tokens with
  | [] => ret accumulated_content
  | token :: rest =>
      (_ <- yield (SSE.token token) ;;
       relay rest (accumulated_content ++ token))%gen
  end.

(** The loop over a run of [stream_generate]: the exception that ends the
    run surfaces after the fragments yielded before it. *)
Definition consume (r : GeminiClient.run) : gen str :=
  (accumulated_content <- relay (GeminiClient.yielded r) [] ;;
   match GeminiClient.raised r with
   | Some e => lift (Raise e)
   | None => ret accumulated_content
   end)%gen.

Definition try_block (s : stream) (env : stream_env) : gen unit :=
  (let request := captured_request s in
   let role := AgentRole.to_str (AgentExecutionRequest.agent_role request) in
   _ <- setitem (execution_id s) (set_status (u "streaming")) ;;
   full_prompt <-
     lift (PromptEngine.build_full_prompt role
             (XYPadPosition.x (AgentExecutionRequest.xy_position request))
             (XYPadPosition.y (AgentExecutionRequest.xy_position request))
             (AgentExecutionRequest.query request)) ;;
   let temperature := PromptEngine.temperature (captured_components s) in
   accumulated_content <-
     consume (GeminiClient.stream_generate (model env) full_prompt temperature
                (max_output_tokens env)) ;;
   artifact <- save_artifact env accumulated_content role (u "markdown") ;;
   usage <- lift (TokenTracker.get_usage_summary full_prompt accumulated_content) ;;
   token_usage <- lift (TokenUsage.validate usage) ;;
   _ <- setitem (execution_id s) (set_status (u "completed")) ;;
   _ <- setitem (execution_id s) (set_artifact_id (ArtifactMetadata.artifact_id artifact)) ;;
   yield (SSE.complete (ArtifactMetadata.artifact_id artifact) token_usage))%gen.

Definition except_block (s : stream) (e : exn) : gen unit :=
  (_ <- setitem (execution_id s) (set_status (u "error")) ;;
   _ <- setitem (execution_id s) (set_error (exc_str e)) ;;
   yield (SSE.error (exc_str e)))%gen.

(** [try: ... except Exception as e: ...]; an exception of the handler
    itself leaves the generator. *)
Definition event_generator (s : stream) (env : stream_env) : gen unit :=
  fun w =>
    match try_block s env w with
    | (evs, w', Ok _) => (evs, w', Ok tt)
    | (evs, w', Raise e) =>
        match except_block s e w' with
        | (evs', w'', r) => (evs ++ evs', w'', r)
        end
    end.

(** The handler of the streaming route: it answers 404 for an identifier
    that is not in [executions] and a streaming response over
    [event_generator] otherwise. *)
Definition stream_agent_response (execution_id : str) (w : world) : response stream :=
  match executions w !! execution_id with
  | None => HTTPException 404 (u "Execution not found")
  | Some execution =>
      Returns (mk_stream execution_id (request execution) (prompt_components execution))
  end.

(** A stream request served to its end: the answer of the handler and,
    when it is a streaming response, the run of its generator. *)
Inductive served :=
  | Refused (status_code : Z) (detail : str)
  | Streamed (events : list SSE.event) (after : world) (escaped : option exn).

Definition serve_stream (execution_id : str) (env : stream_env) (w : world) : served :=
  match stream_agent_response execution_id w with
  | Returns s =>
      match event_generator s env w with
      | (evs, w', Ok _) => Streamed evs w' None
      | (evs, w', Raise e) => Streamed evs w' (Some e)
      end
  | HTTPException code detail => Refused code detail
  | Unprocessable => Refused 422 []
  | ServerError => Refused 500 (u "Internal Server Error")
  end.

(** [artifact_manager.get_artifact] on the state of the process. *)
Definition get_artifact (artifact_id : str) (w : world) : result ArtifactMetadata.t :=
  ArtifactManager.get_artifact artifact_id (storage w).

(** The handler of the artifact route, [get_artifact] of main.py: the
    artifact as its dictionary, 404 for [FileNotFoundError], 500 for any
    other exception. *)
Definition get_artifact_route (artifact_id : str) (w : world) : response ArtifactMetadata.t :=
  match get_artifact artifact_id w with
  | Ok artifact => Returns artifact
  | Raise e =>
      match exc_type e with
      | FileNotFoundError => HTTPException 404 (u "Artifact not found")
      | _ => HTTPException 500 (u "Failed to retrieve artifact: " ++ exc_str e)
      end
  end.

End Main.


(* ===================================================================== *)
(** * A scenario *)
(* ===================================================================== *)

(** One execution of the analyst at position (0.1, 0.1), and three
    backends: one that yields two fragments and ends, one that raises
    after one fragment, and one that yields a single fragment. *)
Module Scenario.

Definition now : datetime := mk_datetime 2024 12 1 10 30 59 123456.

Definition request : AgentExecutionRequest.t :=
  AgentExecutionRequest.mk (u "Analyze Q4 risk")
    (XYPadPosition.mk (F64.dec 1 1) (F64.dec 1 1)) AgentRole.analyst.

Definition components : PromptEngine.components :=
  match PromptEngine.build_prompt_components (u "analyst") (F64.dec 1 1) (F64.dec 1 1)
          (u "Analyze Q4 risk") with
  | Ok c => c
  | Raise _ => PromptEngine.mk_components [] [] [] [] [] (F64.of_int 0)
  end.

Definition execution_id : str := u "exec_0123456789ab".

(** The value [uuid.uuid4()] draws in [save_artifact]. *)
Definition uuid : N := 0x5e8d2b1c9f0a4d7e8b3c6a1f0e9d8c7b%N.

Definition pending : Main.execution :=
  Main.mk_execution request components (u "pending") now None None.

(** The record after a first stream has completed. *)
Definition completed : Main.execution :=
  Main.mk_execution request components (u "completed") now (Some (u "art_1f3a5c7e9b2d")) None.

Definition world_of (ex : Main.execution) : Main.world :=
  Main.mk_world {[ execution_id := ex ]} ∅.

Definition hello_world : GeminiClient.backend :=
  fun _ _ _ => [GeminiClient.Chunk (u "Hello"); GeminiClient.Chunk (u " world")].

Definition breaks_after_one : GeminiClient.backend :=
  fun _ _ _ =>
    [GeminiClient.Chunk (u "Hello"); GeminiClient.Fails (mk_exn Exception (u "quota exceeded"))].

Definition again : GeminiClient.backend :=
  fun _ _ _ => [GeminiClient.Chunk (u "Again")].

Definition env_of (model : GeminiClient.backend) : Main.stream_env :=
  Main.mk_env model uuid now ArtifactManager.no_faults 2048.

(** The same run with a disk that refuses the content file. *)
Definition env_disk_full : Main.stream_env :=
  Main.mk_env hello_world uuid now
    (ArtifactManager.mk_faults
       (Some (ArtifactManager.OpenFails (mk_exn OSError (u "No space left on device")))) None)
    2048.

(** The same run with a disk that fills up once the content file is
    written: the metadata file is opened and its write fails. *)
Definition env_metadata_lost : Main.stream_env :=
  Main.mk_env hello_world uuid now
    (ArtifactManager.mk_faults None
       (Some (ArtifactManager.WriteFails (mk_exn OSError (u "No space left on device")) [])))
    2048.

End Scenario.

(* ===================================================================== *)
(** * Properties of the comparisons on floats *)
(* ===================================================================== *)

Section FloatOrder.

(** Swapping the operands of a comparison reverses its answer. *)
Lemma SFcompare_swap (a b : float) :
  SFcompare b a = CompOpp <$> SFcompare a b.
Proof.
  destruct a as [[]|[]| |[] m1 e1], b as [[]|[]| |[] m2 e2]; simpl; try reflexivity.
  all: rewrite (Z.compare_antisym e1 e2); destruct (e1 ?= e2)%Z; simpl; try reflexivity.
  all: rewrite (Pos.compare_cont_antisym m1 m2 Eq); simpl.
  all: destruct (Pos.compare_cont Eq m1 m2); reflexivity.
Qed.

Lemma leb_not_ltb (a b : float) : (a <=? b)%f64 = true -> (b <? a)%f64 = false.
Proof.
  unfold F64.leb, F64.ltb, SFleb, SFltb. rewrite (SFcompare_swap a b).
  destruct (SFcompare a b) as [[]|]; simpl; congruence.
Qed.

Lemma ltb_not_leb (a b : float) : (a <? b)%f64 = true -> (b <=? a)%f64 = false.
Proof.
  unfold F64.leb, F64.ltb, SFleb, SFltb. rewrite (SFcompare_swap a b).
  destruct (SFcompare a b) as [[]|]; simpl; congruence.
Qed.

(** Two numbers that are not NaN are comparable. *)
Lemma SFcompare_is_Some (a b : float) :
  a <> S754_nan -> b <> S754_nan -> is_Some (SFcompare a b).
Proof.
  destruct a as [[]|[]| |[] m1 e1], b as [[]|[]| |[] m2 e2]; simpl; intros; eauto; congruence.
Qed.

Lemma leb_not_nan_r (a b : float) : (a <=? b)%f64 = true -> b <> S754_nan.
Proof.
  intros H ->. unfold F64.leb, SFleb in H. destruct a as [| | |[]]; discriminate.
Qed.

Lemma not_ltb_leb (a b : float) :
  a <> S754_nan -> b <> S754_nan -> (a <? b)%f64 = false -> (b <=? a)%f64 = true.
Proof.
  intros Ha Hb. unfold F64.leb, F64.ltb, SFleb, SFltb. rewrite (SFcompare_swap a b).
  destruct (SFcompare_is_Some a b Ha Hb) as [c ->]. destruct c; simpl; congruence.
Qed.

End FloatOrder.

(* ===================================================================== *)
(** * Properties of the arithmetic on floats *)
(* ===================================================================== *)

Section FloatArith.

Lemma digits2_pos_size (p : positive) : digits2_pos p = Pos.size p.
Proof. induction p; simpl; congruence. Qed.

Lemma Zdigits2_log2 (p : positive) : Zdigits2 (Zpos p) = (Z.log2 (Zpos p) + 1)%Z.
Proof.
  unfold Zdigits2. rewrite digits2_pos_size.
  destruct p; simpl; lia.
Qed.

Lemma Zdigits2_nonneg (m : Z) : (0 <= Zdigits2 m)%Z.
Proof. destruct m; simpl; lia. Qed.

Lemma Zdigits2_bound (m k : Z) : (0 <= m < 2 ^ k)%Z -> (0 <= k)%Z -> (Zdigits2 m <= k)%Z.
Proof.
  intros [H0 H1] Hk. destruct m as [|p|p]; [simpl; lia| |lia].
  rewrite Zdigits2_log2. apply Z.log2_lt_pow2 in H1; lia.
Qed.

Lemma Zdigits2_lower (m : Z) : (0 < m)%Z -> (2 ^ (Zdigits2 m - 1) <= m)%Z.
Proof.
  intros H. destruct m as [|p|p]; try lia.
  rewrite Zdigits2_log2. replace (Z.log2 (Z.pos p) + 1 - 1)%Z with (Z.log2 (Z.pos p)) by lia.
  apply Z.log2_spec. lia.
Qed.

Lemma Zdigits2_upper (m : Z) : (0 <= m)%Z -> (m < 2 ^ Zdigits2 m)%Z.
Proof.
  intros H. destruct m as [|p|p]; try lia; [simpl; lia|].
  rewrite Zdigits2_log2. apply Z.log2_spec. lia.
Qed.

Lemma iter_pos_invariant {A} (P : A -> Prop) (f : A -> A) :
  (forall a, P a -> P (f a)) -> forall n a, P a -> P (SpecFloat.iter_pos f n a).
Proof. intros Hf. induction n; simpl; auto. Qed.

Lemma shr_1_bounds (M : Z) (mrs : shr_record) :
  (0 <= shr_m mrs <= M)%Z -> (0 <= shr_m (shr_1 mrs) <= M)%Z.
Proof.
  destruct mrs as [m r s]. simpl. intros H.
  destruct m as [|[p|p|]|p]; simpl; lia.
Qed.

Lemma shr_bounds (M : Z) (mrs : shr_record) (e n : Z) :
  (0 <= shr_m mrs <= M)%Z ->
  (0 <= shr_m (fst (shr mrs e n)) <= M)%Z /\ snd (shr mrs e n) = Z.max e (e + n).
Proof.
  intros H. unfold shr. destruct n as [|p|p]; simpl; try (split; [exact H|lia]).
  split; [|lia]. apply (iter_pos_invariant (fun x => 0 <= shr_m x <= M)%Z); [|exact H].
  intros a. apply shr_1_bounds.
Qed.

Lemma shr_m_of_loc (m : Z) (l : location) : shr_m (shr_record_of_loc m l) = m.
Proof. destruct l as [|[]]; reflexivity. Qed.

Lemma shr_fexp_bounds (m e : Z) (l : location) :
  (0 <= m)%Z ->
  (0 <= shr_m (fst (shr_fexp prec emax m e l)) <= m)%Z
  /\ snd (shr_fexp prec emax m e l) = Z.max e (fexp prec emax (Zdigits2 m + e)).
Proof.
  intros H. unfold shr_fexp.
  destruct (shr_bounds m (shr_record_of_loc m l) e (fexp prec emax (Zdigits2 m + e) - e))
    as [H1 H2].
  { rewrite shr_m_of_loc. lia. }
  split; [exact H1|]. rewrite H2. f_equal. lia.
Qed.

Lemma round_nearest_even_bounds (m : Z) (l : location) :
  (0 <= m)%Z -> (m <= round_nearest_even m l <= m + 1)%Z.
Proof. intros H. destruct l as [|[]]; simpl; try lia. destruct (Z.even m); lia. Qed.

(** Rounding a mantissa that is not negative gives a number that is not
    negative, and a finite one when mantissa and exponent are moderate. *)
Lemma binary_round_aux_nonneg (mx ex : Z) (lx : location) :
  (0 <= mx)%Z -> F64.nonneg (binary_round_aux prec emax false mx ex lx) = true.
Proof.
  intros H. unfold binary_round_aux.
  destruct (shr_fexp_bounds mx ex lx H) as [H1 _].
  destruct (shr_fexp prec emax mx ex lx) as [mrs' e']. cbn [fst snd] in *.
  pose proof (round_nearest_even_bounds (shr_m mrs') (loc_of_shr_record mrs') (proj1 H1)) as H2.
  destruct (shr_fexp_bounds (round_nearest_even (shr_m mrs') (loc_of_shr_record mrs')) e'
              loc_Exact ltac:(lia)) as [H3 _].
  destruct (shr_fexp prec emax _ e' loc_Exact) as [mrs'' e'']. cbn [fst snd] in *.
  destruct (shr_m mrs''); try lia; [reflexivity|].
  destruct (e'' <=? emax - prec)%Z; reflexivity.
Qed.

Lemma binary_round_aux_finite (mx ex : Z) (lx : location) :
  (0 <= mx)%Z -> (Zdigits2 mx <= 300)%Z -> (ex <= 300)%Z ->
  F64.is_finite (binary_round_aux prec emax false mx ex lx) = true.
Proof.
  intros H Hd He. unfold binary_round_aux.
  destruct (shr_fexp_bounds mx ex lx H) as [H1 E1].
  destruct (shr_fexp prec emax mx ex lx) as [mrs' e']. cbn [fst snd] in *.
  pose proof (round_nearest_even_bounds (shr_m mrs') (loc_of_shr_record mrs') (proj1 H1)) as H2.
  set (m1 := round_nearest_even (shr_m mrs') (loc_of_shr_record mrs')) in *.
  destruct (shr_fexp_bounds m1 e' loc_Exact ltac:(lia)) as [H3 E3].
  destruct (shr_fexp prec emax m1 e' loc_Exact) as [mrs'' e'']. cbn [fst snd] in *.
  assert (Zdigits2 m1 <= 301)%Z as Hd1.
  { apply Zdigits2_bound; [|lia]. split; [lia|].
    pose proof (Zdigits2_upper mx H) as Hu.
    assert (2 ^ Zdigits2 mx <= 2 ^ 300)%Z by (apply Z.pow_le_mono_r; lia).
    replace (2 ^ 301)%Z with (2 * 2 ^ 300)%Z by (change 301%Z with (Z.succ 300); rewrite Z.pow_succ_r; lia).
    lia. }
  pose proof (Zdigits2_nonneg mx). pose proof (Zdigits2_nonneg m1).
  assert (e'' <= emax - prec)%Z as Hle.
  { subst e'' e'. unfold fexp, emin, prec, emax. lia. }
  destruct (shr_m mrs''); try lia; [reflexivity|].
  apply Z.leb_le in Hle. rewrite Hle. reflexivity.
Qed.


(** The quotient and the exponent the division hands to the rounding. *)
Lemma SFdiv_core_bounds (a b : positive) :
  let '(q, e, _) := SFdiv_core_binary prec emax (Zpos a) 0 (Zpos b) 0 in
  (0 <= q)%Z /\ (e <= 0)%Z
  /\ (Zdigits2 q <= Zdigits2 (Zpos a) + Z.max 0 (Zdigits2 (Zpos b) + 53 - Zdigits2 (Zpos a)))%Z.
Proof.
  unfold SFdiv_core_binary.
  set (d1 := Zdigits2 (Zpos a)). set (d2 := Zdigits2 (Zpos b)).
  set (e' := Z.min (fexp prec emax (d1 + 0 - (d2 + 0))) (0 - 0)).
  set (s := (0 - 0 - e')%Z).
  set (m' := match s with Zpos _ => Z.shiftl (Zpos a) s | Z0 => Zpos a | Zneg _ => 0%Z end).
  destruct (Z.div_eucl m' (Zpos b)) as [q r] eqn:E.
  assert (q = m' / Zpos b)%Z as -> by (unfold Z.div; rewrite E; reflexivity).
  pose proof (Zdigits2_nonneg (Zpos a)) as Hd1. fold d1 in Hd1.
  pose proof (Zdigits2_nonneg (Zpos b)) as Hd2. fold d2 in Hd2.
  assert (0 <= s <= Z.max 0 (d2 + 53 - d1))%Z as Hs.
  { subst s e'. unfold fexp, emin, prec, emax. lia. }
  assert (m' = Zpos a * 2 ^ s)%Z as Hm'.
  { subst m'. destruct s eqn:Es; try lia.
    - rewrite Z.shiftl_mul_pow2 by lia. reflexivity. }
  assert (0 <= m' < 2 ^ (d1 + s))%Z as Hb.
  { rewrite Hm', Z.pow_add_r by lia.
    pose proof (Zdigits2_upper (Zpos a) ltac:(lia)) as Hu. fold d1 in Hu.
    assert (0 < 2 ^ s)%Z by (apply Z.pow_pos_nonneg; lia). nia. }
  split; [apply Z.div_pos; lia|]. split; [subst e'; lia|].
  transitivity (d1 + s)%Z; [|lia].
  apply Zdigits2_bound; [|lia]. split; [apply Z.div_pos; lia|].
  apply Z.le_lt_trans with m'; [|lia].
  apply Z.div_le_upper_bound; [lia|]. nia.
Qed.

Lemma exact_signed (n : Z) : (0 <= n)%Z -> signed false n = F64.exact n.
Proof. destruct n; simpl; try reflexivity; lia. Qed.

Lemma div_exact_nonneg (a b : Z) :
  (0 <= a)%Z -> (0 < b)%Z -> F64.nonneg (F64.div (F64.exact a) (F64.exact b)) = true.
Proof.
  intros Ha Hb. destruct b as [|b|b]; try lia. destruct a as [|a|a]; try lia; [reflexivity|].
  unfold F64.div, F64.exact, SFdiv.
  pose proof (SFdiv_core_bounds a b) as H.
  destruct (SFdiv_core_binary prec emax (Zpos a) 0 (Zpos b) 0) as [[q e] l].
  apply binary_round_aux_nonneg. tauto.
Qed.

Lemma div_exact_finite (a b : Z) :
  (0 <= a < 2 ^ 100)%Z -> (0 < b < 2 ^ 100)%Z ->
  F64.is_finite (F64.div (F64.exact a) (F64.exact b)) = true.
Proof.
  intros Ha Hb. destruct b as [|b|b]; try lia. destruct a as [|a|a]; try lia; [reflexivity|].
  unfold F64.div, F64.exact, SFdiv.
  pose proof (SFdiv_core_bounds a b) as H.
  destruct (SFdiv_core_binary prec emax (Zpos a) 0 (Zpos b) 0) as [[q e] l].
  destruct H as (Hq & He & Hd).
  pose proof (Zdigits2_bound (Zpos a) 100 ltac:(lia) ltac:(lia)).
  pose proof (Zdigits2_bound (Zpos b) 100 ltac:(lia) ltac:(lia)).
  pose proof (Zdigits2_nonneg (Zpos a)). pose proof (Zdigits2_nonneg (Zpos b)).
  apply binary_round_aux_finite; lia.
Qed.


Lemma mul_nonneg (a b : float) :
  F64.nonneg a = true -> F64.is_finite a = true ->
  F64.nonneg b = true -> F64.is_finite b = true ->
  F64.nonneg (a * b)%f64 = true.
Proof.
  destruct a as [sa|sa| |sa ma ea], b as [sb|sb| |sb mb eb]; try discriminate; try reflexivity.
  cbn [F64.nonneg F64.is_finite]. intros Ha _ Hb _.
  apply negb_true_iff in Ha, Hb. subst sa sb.
  unfold F64.mul, SFmul. cbn [xorb]. apply binary_round_aux_nonneg. lia.
Qed.

Lemma add_nonneg (a b : float) :
  F64.nonneg a = true -> F64.nonneg b = true -> F64.nonneg (a + b)%f64 = true.
Proof.
  destruct a as [sa|sa| |sa ma ea], b as [sb|sb| |sb mb eb]; try discriminate;
    cbn [F64.nonneg]; intros Ha Hb; unfold F64.add, SFadd; try assumption;
    try (destruct sa, sb; solve [reflexivity | discriminate]).
  apply negb_true_iff in Ha, Hb. subst sa sb.
  unfold cond_Zopp.
  destruct (shl_align ma ea (Z.min ea eb)) as [m1 e1].
  destruct (shl_align mb eb (Z.min ea eb)) as [m2 e2]. cbn [fst].
  change (Z.pos m1 + Z.pos m2)%Z with (Z.pos (m1 + m2)).
  unfold binary_normalize, binary_round.
  destruct (shl_align (m1 + m2) _ _) as [mz ez].
  apply binary_round_aux_nonneg. lia.
Qed.

Lemma round_half_even_nonneg (n d : Z) : (0 <= n)%Z -> (0 < d)%Z -> (0 <= round_half_even n d)%Z.
Proof.
  intros Hn Hd. unfold round_half_even.
  assert (0 <= n / d)%Z by (apply Z.div_pos; lia).
  destruct (2 * (n mod d) ?= d)%Z; [destruct (Z.even (n / d))|..]; lia.
Qed.

Lemma round_nonneg (x : float) (ndigits : Z) :
  (0 <= ndigits)%Z -> F64.nonneg x = true -> F64.nonneg (round x ndigits) = true.
Proof.
  intros Hd. destruct x as [s|s| |s m e]; try (intros H; exact H).
  cbn [F64.nonneg]. intros H. apply negb_true_iff in H. subst s. unfold round.
  assert (0 < 10 ^ ndigits)%Z as Hp by (apply Z.pow_pos_nonneg; lia).
  assert (0 < 2 ^ Z.max e 0)%Z by (apply Z.pow_pos_nonneg; lia).
  assert (0 < 2 ^ Z.max (- e) 0)%Z by (apply Z.pow_pos_nonneg; lia).
  rewrite exact_signed by (apply round_half_even_nonneg; nia).
  apply div_exact_nonneg; [apply round_half_even_nonneg; nia|lia].
Qed.

Lemma zero_leb_nonneg (c : float) : F64.nonneg c = true -> (F64.of_int 0 <=? c)%f64 = true.
Proof. destruct c as [[]|[]| |[]]; try discriminate; reflexivity. Qed.

Lemma int_truediv_ok (a b : Z) :
  (0 <= a < 2 ^ 100)%Z -> (0 < b < 2 ^ 100)%Z ->
  int_truediv a b = Ok (F64.div (F64.exact a) (F64.exact b)).
Proof.
  intros Ha Hb. unfold int_truediv.
  destruct (Z.eqb_spec b 0) as [->|_]; [lia|].
  pose proof (div_exact_finite a b Ha Hb) as H.
  destruct (F64.div (F64.exact a) (F64.exact b)); try reflexivity; discriminate H.
Qed.

Lemma constants_nonneg :
  F64.nonneg TokenTracker.COST_PER_1K_INPUT = true
  /\ F64.is_finite TokenTracker.COST_PER_1K_INPUT = true
  /\ F64.nonneg TokenTracker.COST_PER_1K_OUTPUT = true
  /\ F64.is_finite TokenTracker.COST_PER_1K_OUTPUT = true.
Proof. repeat split; vm_compute; reflexivity. Qed.

(** The cost of token counts within the range of a length: it is
    computed, and it is not negative. *)
Lemma calculate_cost_ok (i o : Z) :
  (0 <= i < 2 ^ 100)%Z -> (0 <= o < 2 ^ 100)%Z ->
  let cost :=
    round (F64.div (F64.exact i) (F64.exact 1000) * TokenTracker.COST_PER_1K_INPUT
           + F64.div (F64.exact o) (F64.exact 1000) * TokenTracker.COST_PER_1K_OUTPUT)%f64 6 in
  TokenTracker.calculate_cost i o = Ok cost /\ F64.nonneg cost = true.
Proof.
  intros Hi Ho cost. unfold TokenTracker.calculate_cost.
  rewrite (int_truediv_ok i 1000 Hi ltac:(lia)). cbn [rbind].
  rewrite (int_truediv_ok o 1000 Ho ltac:(lia)). cbn [rbind].
  split; [reflexivity|]. subst cost.
  destruct constants_nonneg as (N1 & F1 & N2 & F2).
  apply round_nonneg; [lia|]. apply add_nonneg; apply mul_nonneg; try assumption.
  - apply div_exact_nonneg; lia.
  - apply div_exact_finite; lia.
  - apply div_exact_nonneg; lia.
  - apply div_exact_finite; lia.
Qed.

End FloatArith.

(* ===================================================================== *)
(** * The steering engine *)
(* ===================================================================== *)

Section Steering.
Import PromptEngine.

(** The two thresholds, as binary64 numbers. *)
Lemma dec_3_1 : F64.dec 3 1 = S754_finite false 5404319552844595 (-54).
Proof. vm_compute. reflexivity. Qed.

Lemma dec_7_1 : F64.dec 7 1 = S754_finite false 6305039478318694 (-53).
Proof. vm_compute. reflexivity. Qed.

(** At or above the upper threshold is not below the lower one. *)
Lemma above_hi_not_below_lo (x : float) :
  (F64.dec 7 1 <=? x)%f64 = true -> (x <? F64.dec 3 1)%f64 = false.
Proof.
  rewrite dec_3_1, dec_7_1. unfold F64.leb, F64.ltb, SFleb, SFltb.
  destruct x as [[]|[]| |[] m e]; cbv beta iota delta [SFcompare]; try congruence.
  destruct (Z.compare_spec (-53) e), (Z.compare_spec e (-54)); try lia; congruence.
Qed.

Lemma in_unit_not_nan (x : float) : XYPadPosition.in_unit x = true -> x <> S754_nan.
Proof.
  unfold XYPadPosition.in_unit. intros H. apply andb_prop in H as [H _].
  exact (leb_not_nan_r _ _ H).
Qed.

Lemma dec_not_nan (m k : Z) (s : bool) (p : positive) (e : Z) :
  F64.dec m k = S754_finite s p e -> F64.dec m k <> S754_nan.
Proof. intros ->. discriminate. Qed.

(** A number of \[0,1\] lies in exactly the band the thresholds assign. *)
Lemma bands_cover (x : float) :
  x <> S754_nan ->
  (x <? F64.dec 3 1)%f64 = true
  \/ ((F64.dec 3 1 <=? x)%f64 = true /\ (x <? F64.dec 7 1)%f64 = true)
  \/ (F64.dec 7 1 <=? x)%f64 = true.
Proof.
  intros Hx.
  destruct (x <? F64.dec 3 1)%f64 eqn:Hlo; [by left|right].
  assert ((F64.dec 3 1 <=? x)%f64 = true) as Hge.
  { apply not_ltb_leb; [done|exact (dec_not_nan _ _ _ _ _ dec_3_1)|done]. }
  destruct (x <? F64.dec 7 1)%f64 eqn:Hhi; [by left|right].
  apply not_ltb_leb; [done|exact (dec_not_nan _ _ _ _ _ dec_7_1)|done].
Qed.

Lemma density_low (x : float) :
  (x <? F64.dec 3 1)%f64 = true -> get_density_instruction x = EXECUTIVE_SUMMARY.
Proof. unfold get_density_instruction. by intros ->. Qed.

Lemma density_mid (x : float) :
  (F64.dec 3 1 <=? x)%f64 = true -> (x <? F64.dec 7 1)%f64 = true ->
  get_density_instruction x = DETAILED_REPORT.
Proof.
  unfold get_density_instruction. intros H1 ->. by rewrite (leb_not_ltb _ _ H1).
Qed.

Lemma density_high (x : float) :
  (F64.dec 7 1 <=? x)%f64 = true -> get_density_instruction x = RAW_VERBOSE.
Proof.
  unfold get_density_instruction. intros H.
  by rewrite (above_hi_not_below_lo _ H), (leb_not_ltb _ _ H).
Qed.

Lemma creativity_low (y : float) :
  (y <? F64.dec 3 1)%f64 = true -> get_creativity_instruction y = STRICTLY_FACTUAL.
Proof. unfold get_creativity_instruction. by intros ->. Qed.

Lemma creativity_mid (y : float) :
  (F64.dec 3 1 <=? y)%f64 = true -> (y <? F64.dec 7 1)%f64 = true ->
  get_creativity_instruction y = BALANCED_INSIGHT.
Proof.
  unfold get_creativity_instruction. intros H1 ->. by rewrite (leb_not_ltb _ _ H1).
Qed.

Lemma creativity_high (y : float) :
  (F64.dec 7 1 <=? y)%f64 = true -> get_creativity_instruction y = SPECULATIVE_CREATIVE.
Proof.
  unfold get_creativity_instruction. intros H.
  by rewrite (above_hi_not_below_lo _ H), (leb_not_ltb _ _ H).
Qed.

(** The three blocks of each axis are different texts. *)
Lemma density_blocks_distinct :
  EXECUTIVE_SUMMARY <> DETAILED_REPORT /\ DETAILED_REPORT <> RAW_VERBOSE
  /\ EXECUTIVE_SUMMARY <> RAW_VERBOSE.
Proof. repeat split; intros H; vm_compute in H; discriminate H. Qed.

Lemma creativity_blocks_distinct :
  STRICTLY_FACTUAL <> BALANCED_INSIGHT /\ BALANCED_INSIGHT <> SPECULATIVE_CREATIVE
  /\ STRICTLY_FACTUAL <> SPECULATIVE_CREATIVE.
Proof. repeat split; intros H; vm_compute in H; discriminate H. Qed.

(** C5: for a density x and a creativity y of \[0,1\], each instruction
    is one of three fixed blocks, selected by the band of the value:
    below 0.3, from 0.3 up to but excluding 0.7, or from 0.7 on. The
    bands cover \[0,1\], the values 0.3 and 0.7 themselves select the
    upper tier, and the blocks of one axis are different texts: the
    mapping is a step function. *)
Theorem instruction_tiers (x y : float) :
  XYPadPosition.in_unit x = true ->
  XYPadPosition.in_unit y = true ->
  let lo := F64.dec 3 1 in
  let hi := F64.dec 7 1 in
  (((x <? lo)%f64 = true /\ get_density_instruction x = EXECUTIVE_SUMMARY)
   \/ ((lo <=? x)%f64 = true /\ (x <? hi)%f64 = true
       /\ get_density_instruction x = DETAILED_REPORT)
   \/ ((hi <=? x)%f64 = true /\ get_density_instruction x = RAW_VERBOSE))
  /\ (((y <? lo)%f64 = true /\ get_creativity_instruction y = STRICTLY_FACTUAL)
      \/ ((lo <=? y)%f64 = true /\ (y <? hi)%f64 = true
          /\ get_creativity_instruction y = BALANCED_INSIGHT)
      \/ ((hi <=? y)%f64 = true /\ get_creativity_instruction y = SPECULATIVE_CREATIVE))
  /\ ((x <? lo)%f64 = true -> get_density_instruction x = EXECUTIVE_SUMMARY)
  /\ ((lo <=? x)%f64 = true -> (x <? hi)%f64 = true ->
      get_density_instruction x = DETAILED_REPORT)
  /\ ((hi <=? x)%f64 = true -> get_density_instruction x = RAW_VERBOSE)
  /\ ((y <? lo)%f64 = true -> get_creativity_instruction y = STRICTLY_FACTUAL)
  /\ ((lo <=? y)%f64 = true -> (y <? hi)%f64 = true ->
      get_creativity_instruction y = BALANCED_INSIGHT)
  /\ ((hi <=? y)%f64 = true -> get_creativity_instruction y = SPECULATIVE_CREATIVE)
  /\ get_density_instruction lo = DETAILED_REPORT
  /\ get_density_instruction hi = RAW_VERBOSE
  /\ get_creativity_instruction lo = BALANCED_INSIGHT
  /\ get_creativity_instruction hi = SPECULATIVE_CREATIVE
  /\ (EXECUTIVE_SUMMARY <> DETAILED_REPORT /\ DETAILED_REPORT <> RAW_VERBOSE
      /\ EXECUTIVE_SUMMARY <> RAW_VERBOSE)
  /\ (STRICTLY_FACTUAL <> BALANCED_INSIGHT /\ BALANCED_INSIGHT <> SPECULATIVE_CREATIVE
      /\ STRICTLY_FACTUAL <> SPECULATIVE_CREATIVE).
Proof.
  intros Hx Hy lo hi. subst lo hi.
  split.
  { destruct (bands_cover x (in_unit_not_nan x Hx)) as [H|[[H1 H2]|H]].
    - left. auto using density_low.
    - right. left. auto using density_mid.
    - right. right. auto using density_high. }
  split.
  { destruct (bands_cover y (in_unit_not_nan y Hy)) as [H|[[H1 H2]|H]].
    - left. auto using creativity_low.
    - right. left. auto using creativity_mid.
    - right. right. auto using creativity_high. }
  split; [exact (density_low x)|].
  split; [exact (density_mid x)|].
  split; [exact (density_high x)|].
  split; [exact (creativity_low y)|].
  split; [exact (creativity_mid y)|].
  split; [exact (creativity_high y)|].
  split; [apply density_mid; vm_compute; reflexivity|].
  split; [apply density_high; vm_compute; reflexivity|].
  split; [apply creativity_mid; vm_compute; reflexivity|].
  split; [apply creativity_high; vm_compute; reflexivity|].
  split; [exact density_blocks_distinct|exact creativity_blocks_distinct].
Qed.

(** The scenario of a summary at density 0.1 and a speculative answer at
    creativity 0.9. *)
Lemma instruction_tiers_witness :
  XYPadPosition.in_unit (F64.dec 1 1) = true
  /\ XYPadPosition.in_unit (F64.dec 9 1) = true
  /\ get_density_instruction (F64.dec 1 1) = EXECUTIVE_SUMMARY
  /\ get_creativity_instruction (F64.dec 9 1) = SPECULATIVE_CREATIVE.
Proof.
  assert (XYPadPosition.in_unit (F64.dec 1 1) = true) as Hx by (vm_compute; reflexivity).
  assert (XYPadPosition.in_unit (F64.dec 9 1) = true) as Hy by (vm_compute; reflexivity).
  pose proof (instruction_tiers (F64.dec 1 1) (F64.dec 9 1) Hx Hy) as T.
  cbv zeta in T.
  destruct T as (_ & _ & Tx & _ & _ & _ & _ & Ty & _).
  split; [exact Hx|]. split; [exact Hy|].
  split; [apply Tx|apply Ty]; vm_compute; reflexivity.
Defined.


(** ** Assembly of the system prompt *)

Lemma getitem_analyst : getitem BASE_PROMPTS (u "analyst") = Ok ANALYST_PROMPT.
Proof. vm_compute. reflexivity. Qed.

(** [build_prompt_components] is total, and its result is this record. *)
Lemma build_prompt_components_eq (agent_role : str) (x y : float) (query : str) :
  build_prompt_components agent_role x y query =
  Ok {| base_prompt := dict_get BASE_PROMPTS agent_role ANALYST_PROMPT;
        creativity_modifier := get_creativity_instruction y;
        density_modifier := get_density_instruction x;
        final_system_prompt :=
          dict_get BASE_PROMPTS agent_role ANALYST_PROMPT ++ nl ++ nl
          ++ get_creativity_instruction y ++ nl ++ nl
          ++ get_density_instruction x ++ nl ++ nl ++ CONSTRAINTS;
        user_query := query;
        temperature := get_temperature y |}.
Proof. unfold build_prompt_components. rewrite getitem_analyst. reflexivity. Qed.

Lemma occurs_at_app (pre blk post : str) : occurs_at blk (length pre) (pre ++ blk ++ post).
Proof. unfold occurs_at. by rewrite drop_app_length, take_app_length. Qed.

Lemma occurs_at_app' (pre blk post : str) (i : nat) :
  i = length pre -> occurs_at blk i (pre ++ blk ++ post).
Proof. intros ->. apply occurs_at_app. Qed.

(** C7: the assembled system instruction is, in this order, the persona
    base text, the creativity block, the density block and the fixed
    constraints block, joined by blank lines; each block starts after the
    end of the one before it, and nothing follows the constraints. *)
Theorem final_prompt_order (agent_role : str) (x y : float) (query : str) :
  exists c,
    build_prompt_components agent_role x y query = Ok c
    /\ base_prompt c = dict_get BASE_PROMPTS agent_role ANALYST_PROMPT
    /\ creativity_modifier c = get_creativity_instruction y
    /\ density_modifier c = get_density_instruction x
    /\ final_system_prompt c =
         base_prompt c ++ (nl ++ nl) ++ creativity_modifier c ++ (nl ++ nl)
         ++ density_modifier c ++ (nl ++ nl) ++ CONSTRAINTS
    /\ exists i1 i2 i3 : nat,
         occurs_at (base_prompt c) 0 (final_system_prompt c)
         /\ (0 + length (base_prompt c) < i1)%nat
         /\ occurs_at (creativity_modifier c) i1 (final_system_prompt c)
         /\ (i1 + length (creativity_modifier c) < i2)%nat
         /\ occurs_at (density_modifier c) i2 (final_system_prompt c)
         /\ (i2 + length (density_modifier c) < i3)%nat
         /\ occurs_at CONSTRAINTS i3 (final_system_prompt c)
         /\ (i3 + length CONSTRAINTS)%nat = length (final_system_prompt c).
Proof.
  eexists. split; [apply build_prompt_components_eq|].
  cbv beta iota delta [base_prompt creativity_modifier density_modifier final_system_prompt].
  set (b := dict_get BASE_PROMPTS agent_role ANALYST_PROMPT).
  set (c := get_creativity_instruction y).
  set (d := get_density_instruction x).
  assert (length nl = 1%nat) as Hnl by reflexivity.
  split; [reflexivity|]. split; [reflexivity|]. split; [reflexivity|].
  split; [by rewrite <- !app_assoc|].
  exists (length b + 2)%nat, (length b + 2 + length c + 2)%nat,
         (length b + 2 + length c + 2 + length d + 2)%nat.
  split; [exact (occurs_at_app [] b _)|].
  split; [lia|].
  split.
  { replace (b ++ nl ++ nl ++ c ++ nl ++ nl ++ d ++ nl ++ nl ++ CONSTRAINTS)
      with ((b ++ nl ++ nl) ++ c ++ (nl ++ nl ++ d ++ nl ++ nl ++ CONSTRAINTS))
      by (by rewrite <- !app_assoc).
    apply occurs_at_app'. rewrite !length_app, Hnl. lia. }
  split; [lia|].
  split.
  { replace (b ++ nl ++ nl ++ c ++ nl ++ nl ++ d ++ nl ++ nl ++ CONSTRAINTS)
      with ((b ++ nl ++ nl ++ c ++ nl ++ nl) ++ d ++ (nl ++ nl ++ CONSTRAINTS))
      by (by rewrite <- !app_assoc).
    apply occurs_at_app'. rewrite !length_app, Hnl. lia. }
  split; [lia|].
  split.
  { replace (b ++ nl ++ nl ++ c ++ nl ++ nl ++ d ++ nl ++ nl ++ CONSTRAINTS)
      with ((b ++ nl ++ nl ++ c ++ nl ++ nl ++ d ++ nl ++ nl) ++ CONSTRAINTS ++ [])
      by (by rewrite <- !app_assoc, app_nil_r).
    apply occurs_at_app'. rewrite !length_app, Hnl. lia. }
  rewrite !length_app, Hnl. lia.
Qed.

(** A role outside the dictionary takes the default. *)
Lemma dict_get_unknown_role (agent_role : str) :
  agent_role ∉ [u "analyst"; u "writer"; u "researcher"] ->
  dict_get BASE_PROMPTS agent_role ANALYST_PROMPT = ANALYST_PROMPT.
Proof.
  intros H. apply not_elem_of_cons in H as [H1 H].
  apply not_elem_of_cons in H as [H2 H]. apply not_elem_of_cons in H as [H3 _].
  unfold dict_get, BASE_PROMPTS.
  rewrite lookup_insert_ne by congruence.
  rewrite lookup_insert_ne by congruence.
  rewrite lookup_singleton_ne by congruence.
  reflexivity.
Qed.

Lemma dict_get_analyst : dict_get BASE_PROMPTS (u "analyst") ANALYST_PROMPT = ANALYST_PROMPT.
Proof. vm_compute. reflexivity. Qed.

(** C8: for a role that is none of analyst, writer and researcher, the
    derivation of the prompt bundle does not fail; the base text is the
    one of the analyst, and the bundle is the one the analyst gets at the
    same position and query. *)
Theorem unknown_role_falls_back (agent_role : str) (x y : float) (query : str) :
  agent_role ∉ [u "analyst"; u "writer"; u "researcher"] ->
  exists c,
    build_prompt_components agent_role x y query = Ok c
    /\ BASE_PROMPTS !! u "analyst" = Some (base_prompt c)
    /\ build_prompt_components (u "analyst") x y query = Ok c.
Proof.
  intros H. eexists. split; [apply build_prompt_components_eq|].
  rewrite build_prompt_components_eq.
  cbv beta iota delta [base_prompt].
  rewrite (dict_get_unknown_role _ H), dict_get_analyst.
  split; [vm_compute|]; reflexivity.
Qed.

Lemma unknown_role_falls_back_witness :
  exists c,
    build_prompt_components (u "poet") (F64.dec 5 1) (F64.dec 5 1) (u "Write about AI trends")
      = Ok c
    /\ BASE_PROMPTS !! u "analyst" = Some (base_prompt c)
    /\ build_prompt_components (u "analyst") (F64.dec 5 1) (F64.dec 5 1)
         (u "Write about AI trends") = Ok c.
Proof.
  apply unknown_role_falls_back.
  intros H. repeat (apply elem_of_cons in H as [H|H]; [vm_compute in H; discriminate H|]).
  by apply elem_of_nil in H.
Defined.

(** ** Temperature *)

(** C4, as the code has it: the temperature of the bundle is the binary64
    sum of 0.2 and the binary64 product of the creativity and 0.7,
    whatever the density, the persona and the query. A creativity of 0
    gives 0.2 and one of 0.1 gives 0.27; a creativity of 1 gives
    0.8999999999999999 and one of 0.9 gives 0.8300000000000001, the
    binary64 neighbours of 0.9 and 0.83. *)
Theorem temperature_is_linear_in_binary64 (agent_role : str) (x y : float) (query : str) :
  (exists c,
     build_prompt_components agent_role x y query = Ok c
     /\ temperature c = (F64.dec 2 1 + (y * F64.dec 7 1))%f64
     /\ forall agent_role' x' query',
          exists c', build_prompt_components agent_role' x' y query' = Ok c'
                     /\ temperature c' = temperature c)
  /\ get_temperature (F64.of_int 0) = F64.dec 2 1
  /\ get_temperature (F64.dec 1 1) = F64.dec 27 2
  /\ get_temperature (F64.of_int 1) = F64.dec 8999999999999999 16
  /\ get_temperature (F64.dec 9 1) = F64.dec 8300000000000001 16.
Proof.
  split.
  { eexists. split; [apply build_prompt_components_eq|].
    split; [reflexivity|].
    intros agent_role' x' query'. eexists.
    split; [apply build_prompt_components_eq|reflexivity]. }
  repeat split; vm_compute; reflexivity.
Qed.

(** The claim C4 fails at the upper endpoint: at creativity 1 the
    temperature is not the float 0.9, and at creativity 0.9 it is not the
    float 0.83. *)
Lemma temperature_at_one_is_not_0_9 :
  exists c,
    build_prompt_components (u "analyst") (F64.of_int 0) (F64.of_int 1) (u "Analyze Q4 risk")
      = Ok c
    /\ temperature c <> F64.dec 9 1
    /\ get_temperature (F64.dec 9 1) <> F64.dec 83 2.
Proof.
  eexists. split; [apply build_prompt_components_eq|].
  split; intros H; vm_compute in H; discriminate H.
Qed.

End Steering.

(* ===================================================================== *)
(** * The usage estimator *)
(* ===================================================================== *)

Section Usage.
Import TokenTracker.

(** The decimal literals of the source are the binary64 numbers the
    parser of primitive floats reads from the same digits. *)
Lemma literals_are_binary64 :
  F64.dec 2 1 = Prim2SF 0.2%float /\ F64.dec 7 1 = Prim2SF 0.7%float
  /\ F64.dec 3 1 = Prim2SF 0.3%float
  /\ COST_PER_1K_INPUT = Prim2SF 0.000075%float
  /\ COST_PER_1K_OUTPUT = Prim2SF 0.0003%float
  /\ F64.of_int 0 = Prim2SF 0%float /\ F64.of_int 1 = Prim2SF 1%float.
Proof. repeat split; vm_compute; reflexivity. Qed.

(** Rounding to six places: a tie goes to the even digit, and the
    result is the float nearest to the rounded decimal. *)
Lemma round_examples :
  round (Prim2SF 0.00015015%float) 6 = Prim2SF 0.00015%float
  /\ round (Prim2SF 0.0078125%float) 6 = Prim2SF 0.007812%float
  /\ round (Prim2SF 0.0000005%float) 6 = Prim2SF 0%float
  /\ round (Prim2SF 1234.56789012345%float) 6 = Prim2SF 1234.56789%float.
Proof. repeat split; vm_compute; reflexivity. Qed.

Lemma estimate_tokens_bounds (text : str) :
  (Z.of_nat (length text) <= maxsize)%Z ->
  (0 <= estimate_tokens text < 2 ^ 100)%Z.
Proof.
  unfold estimate_tokens, maxsize. intros H.
  assert (0 <= Z.of_nat (length text) / 4 <= Z.of_nat (length text))%Z.
  { split; [apply Z.div_pos; lia|]. apply Z.div_le_upper_bound; lia. }
  assert (2 ^ 63 < 2 ^ 100)%Z by (apply Z.pow_lt_mono_r; lia). lia.
Qed.

(** The summary of two texts, and that its cost passes [ge=0.0]. *)
Lemma get_usage_summary_ok (a b : str) :
  (Z.of_nat (length a) <= maxsize)%Z -> (Z.of_nat (length b) <= maxsize)%Z ->
  let pt := (Z.of_nat (length a) / 4)%Z in
  let ct := (Z.of_nat (length b) / 4)%Z in
  let cost :=
    round (F64.div (F64.exact pt) (F64.exact 1000) * COST_PER_1K_INPUT
           + F64.div (F64.exact ct) (F64.exact 1000) * COST_PER_1K_OUTPUT)%f64 6 in
  get_usage_summary a b = Ok (mk_usage pt ct (pt + ct) cost)
  /\ F64.nonneg cost = true.
Proof.
  intros Ha Hb pt ct cost.
  destruct (calculate_cost_ok pt ct (estimate_tokens_bounds a Ha) (estimate_tokens_bounds b Hb))
    as [Hc Hn].
  split; [|exact Hn].
  unfold get_usage_summary. fold pt ct. unfold estimate_tokens. fold pt ct.
  rewrite Hc. reflexivity.
Qed.

(** C6: for texts a and b (of a length a Python string can have), the
    summary has floor(len(a)/4) prompt tokens, floor(len(b)/4) completion
    tokens, their sum as total, and as cost the two quotients by 1000
    times the two prices, added and rounded to six decimal places; the
    call does not raise, its result depends on the two lengths only,
    and two empty texts give zero tokens and a zero cost. *)
Theorem usage_summary (a b : str) :
  (Z.of_nat (length a) <= maxsize)%Z ->
  (Z.of_nat (length b) <= maxsize)%Z ->
  let pt := (Z.of_nat (length a) / 4)%Z in
  let ct := (Z.of_nat (length b) / 4)%Z in
  (exists qa qb,
     int_truediv pt 1000 = Ok qa /\ int_truediv ct 1000 = Ok qb
     /\ get_usage_summary a b =
          Ok {| prompt_tokens := pt;
                completion_tokens := ct;
                total_tokens := pt + ct;
                estimated_cost :=
                  round (qa * COST_PER_1K_INPUT + qb * COST_PER_1K_OUTPUT)%f64 6 |})
  /\ (forall a' b' : str,
        length a' = length a -> length b' = length b ->
        get_usage_summary a' b' = get_usage_summary a b)
  /\ get_usage_summary [] [] = Ok (mk_usage 0 0 0 (F64.of_int 0)).
Proof.
  intros Ha Hb pt ct.
  split.
  { exists (F64.div (F64.exact pt) (F64.exact 1000)), (F64.div (F64.exact ct) (F64.exact 1000)).
    pose proof (estimate_tokens_bounds a Ha) as Ba.
    pose proof (estimate_tokens_bounds b Hb) as Bb.
    split; [apply int_truediv_ok; [exact Ba|lia]|].
    split; [apply int_truediv_ok; [exact Bb|lia]|].
    apply (get_usage_summary_ok a b Ha Hb). }
  split.
  { intros a' b' Ea Eb. unfold get_usage_summary, estimate_tokens. by rewrite Ea, Eb. }
  vm_compute. reflexivity.
Qed.

(** The run of the module's own test: 410 characters in, 1900 out. *)
Lemma usage_summary_witness :
  get_usage_summary (repeat 65%N 410) (repeat 66%N 1900)
  = Ok (mk_usage 102 475 577 (F64.dec 15 5)).
Proof.
  assert (Z.of_nat (length (repeat 65%N 410)) <= maxsize)%Z as Ha by (vm_compute; discriminate).
  assert (Z.of_nat (length (repeat 66%N 1900)) <= maxsize)%Z as Hb by (vm_compute; discriminate).
  destruct (usage_summary _ _ Ha Hb) as [(qa & qb & Hqa & Hqb & H) _].
  rewrite H. vm_compute in Hqa, Hqb.
  injection Hqa as <-. injection Hqb as <-.
  vm_compute. reflexivity.
Defined.

End Usage.

(* ===================================================================== *)
(** * The artifact store *)
(* ===================================================================== *)

Section Artifacts.
Import ArtifactManager.

(** ** Texts that can be encoded *)

Lemma scalar_app (s t : str) :
  forallb is_scalar (s ++ t) = forallb is_scalar s && forallb is_scalar t.
Proof. apply forallb_app. Qed.

Lemma scalar_take (n : nat) (s : str) :
  forallb is_scalar s = true -> forallb is_scalar (take n s) = true.
Proof.
  revert n. induction s as [|c s IH]; intros [|n] H; try reflexivity.
  cbn [take forallb] in *. apply andb_prop in H as [Hc Hs].
  rewrite Hc. exact (IH n Hs).
Qed.

Lemma scalar_small (c : N) : (c < 128)%N -> is_scalar c = true.
Proof.
  intros H. unfold is_scalar. apply orb_true_intro. left. apply N.ltb_lt. lia.
Qed.

Lemma hexdigit_small (n : N) : (hexdigit (n mod 16) < 128)%N.
Proof.
  unfold hexdigit. assert (n mod 16 < 16)%N by (apply N.mod_upper_bound; lia).
  destruct (n mod 16 <? 10)%N; lia.
Qed.

Lemma scalar_hex_digits (k : nat) (n : N) : forallb is_scalar (hex_digits k n) = true.
Proof.
  revert n. induction k as [|k IH]; intros n; [reflexivity|].
  cbn [hex_digits]. rewrite scalar_app, IH. cbn [forallb].
  by rewrite (scalar_small _ (hexdigit_small n)).
Qed.

Lemma digit_small (n : N) : (48 <= digit n < 58)%N.
Proof.
  unfold digit. assert (n mod 10 < 10)%N as H by (apply N.mod_upper_bound; lia).
  revert H. generalize (n mod 10)%N. intros. lia.
Qed.

Lemma scalar_digit (n : N) : is_scalar (digit n) = true.
Proof. apply scalar_small. pose proof (digit_small n). lia. Qed.

Lemma scalar_strftime (ts : datetime) : forallb is_scalar (strftime ts) = true.
Proof.
  unfold strftime, pad4, pad2. rewrite !scalar_app. cbn [forallb].
  rewrite !scalar_digit. reflexivity.
Qed.

(** The extension is one of the three of the table. *)
Lemma extension_cases (file_type : str) :
  dict_get extensions file_type (u "txt") ∈ [u "md"; u "json"; u "txt"].
Proof.
  unfold dict_get, extensions.
  destruct (decide (file_type = u "markdown")) as [->|N1]; [vm_compute; set_solver|].
  destruct (decide (file_type = u "json")) as [->|N2]; [vm_compute; set_solver|].
  destruct (decide (file_type = u "text")) as [->|N3]; [vm_compute; set_solver|].
  rewrite lookup_insert_ne by congruence.
  rewrite lookup_insert_ne by congruence.
  rewrite lookup_singleton_ne by congruence.
  set_solver.
Qed.

Lemma scalar_extension (file_type : str) :
  forallb is_scalar (dict_get extensions file_type (u "txt")) = true.
Proof.
  pose proof (extension_cases file_type) as H.
  repeat (apply elem_of_cons in H as [->|H]; [reflexivity|]).
  by apply elem_of_nil in H.
Qed.

Lemma scalar_file_type (file_type : str) :
  file_type ∈ ArtifactMetadata.file_types -> forallb is_scalar file_type = true.
Proof.
  intros H. unfold ArtifactMetadata.file_types in H.
  repeat (apply elem_of_cons in H as [->|H]; [reflexivity|]).
  by apply elem_of_nil in H.
Qed.

Lemma scalar_artifact_id (uuid4 : N) : forallb is_scalar (artifact_id_of uuid4) = true.
Proof.
  unfold artifact_id_of, uuid_hex. rewrite scalar_app.
  rewrite (scalar_take 12 _ (scalar_hex_digits 32 uuid4)). reflexivity.
Qed.

Lemma scalar_filename (uuid4 : N) (now : datetime) (file_type : str) :
  forallb is_scalar (filename_of uuid4 now file_type) = true.
Proof.
  unfold filename_of. rewrite !scalar_app.
  rewrite scalar_artifact_id, scalar_strftime, scalar_extension. reflexivity.
Qed.

Lemma encode_utf8_scalar (s : str) :
  forallb is_scalar s = true -> encode_utf8 s = Ok (flat_map encode_cp s).
Proof. unfold encode_utf8. by intros ->. Qed.

Lemma encode_utf8_surrogate (s : str) :
  forallb is_scalar s = false -> exists e, encode_utf8 s = Raise e.
Proof. unfold encode_utf8. intros ->. eauto. Qed.

(** With working writes, a content and a role that can be encoded and a
    file type of the model, [save_artifact] returns this metadata and
    leaves these two files. *)
Lemma save_artifact_ok
    (uuid4 : N) (now : datetime) (content agent_role file_type : str)
    (dir : gmap str file) :
  file_type ∈ ArtifactMetadata.file_types ->
  forallb is_scalar content = true ->
  forallb is_scalar agent_role = true ->
  let data := flat_map encode_cp content in
  let m := ArtifactMetadata.mk (artifact_id_of uuid4) (filename_of uuid4 now file_type)
             content now file_type (Z.of_nat (length data)) agent_role in
  save_artifact uuid4 now no_faults content agent_role file_type dir
  = (Ok m,
     <[artifact_id_of uuid4 ++ u "_meta.json" := Json m]>
       (<[filename_of uuid4 now file_type := Text data]> dir)).
Proof.
  intros Hft Hc Hr data m. unfold save_artifact.
  cbn [content_write metadata_write no_faults].
  rewrite (encode_utf8_scalar content Hc).
  fold (artifact_id_of uuid4). fold (filename_of uuid4 now file_type). fold data. fold m.
  assert (ArtifactMetadata.validate m = Ok m) as ->.
  { unfold ArtifactMetadata.validate. cbn [ArtifactMetadata.file_type ArtifactMetadata.size_bytes m].
    rewrite bool_decide_eq_true_2 by exact Hft.
    assert ((0 <=? Z.of_nat (length data))%Z = true) as -> by (apply Z.leb_le; lia).
    reflexivity. }
  assert (ArtifactMetadata.serializable m = true) as ->.
  { unfold ArtifactMetadata.serializable. cbn [forallb m ArtifactMetadata.artifact_id 
      ArtifactMetadata.filename ArtifactMetadata.content ArtifactMetadata.file_type
      ArtifactMetadata.agent_role].
    by rewrite scalar_artifact_id, scalar_filename, Hc, (scalar_file_type _ Hft), Hr. }
  reflexivity.
Qed.

(** What a [save_artifact] that returns has done: the metadata it returns,
    the two files it leaves, and that the content could be encoded. *)
Lemma save_artifact_returns
    (uuid4 : N) (now : datetime) (faults : io_faults)
    (content agent_role file_type : str) (dir dir' : gmap str file) (m : ArtifactMetadata.t) :
  save_artifact uuid4 now faults content agent_role file_type dir = (Ok m, dir') ->
  let data := flat_map encode_cp content in
  m = ArtifactMetadata.mk (artifact_id_of uuid4) (filename_of uuid4 now file_type)
        content now file_type (Z.of_nat (length data)) agent_role
  /\ dir' = <[artifact_id_of uuid4 ++ u "_meta.json" := Json m]>
              (<[filename_of uuid4 now file_type := Text data]> dir)
  /\ encode_utf8 content = Ok data.
Proof.
  intros H data. unfold save_artifact in H.
  fold (artifact_id_of uuid4) in H. fold (filename_of uuid4 now file_type) in H.
  unfold encode_utf8 in *.
  destruct (content_write faults) as [[e0|e0 reached0]|]; [discriminate H| |];
    (destruct (forallb is_scalar content); [|discriminate H]); [discriminate H|].
  fold data in H.
  destruct (ArtifactMetadata.validate _) as [m0|e1] eqn:Hv; [|discriminate H].
  unfold ArtifactMetadata.validate in Hv.
  destruct (_ && _) in Hv; [|discriminate Hv]. injection Hv as <-.
  destruct (metadata_write faults) as [[e2|e2 reached2]|]; [discriminate H| |];
    (destruct (ArtifactMetadata.serializable _); [|discriminate H]); [discriminate H|].
  injection H as <- <-. repeat split; reflexivity.
Qed.

Lemma get_artifact_after_write (artifact_id : str) (m : ArtifactMetadata.t)
    (dir : gmap str file) :
  get_artifact artifact_id (<[artifact_id ++ u "_meta.json" := Json m]> dir) = Ok m.
Proof. unfold get_artifact. by rewrite lookup_insert_eq. Qed.

(** C10, as the code has it: for a content and an agent role without
    surrogate code points and a file type among markdown, json and text,
    and with the two writes succeeding, [save_artifact] returns metadata
    whose content is the saved content and whose size is the length of
    its UTF-8 encoding, and [get_artifact] on the returned identifier
    then returns that same metadata. *)
Theorem save_then_get
    (uuid4 : N) (now : datetime) (content agent_role file_type : str)
    (dir : gmap str file) :
  file_type ∈ ArtifactMetadata.file_types ->
  forallb is_scalar content = true ->
  forallb is_scalar agent_role = true ->
  exists m dir' data,
    save_artifact uuid4 now no_faults content agent_role file_type dir = (Ok m, dir')
    /\ encode_utf8 content = Ok data
    /\ ArtifactMetadata.content m = content
    /\ ArtifactMetadata.size_bytes m = Z.of_nat (length data)
    /\ ArtifactMetadata.agent_role m = agent_role
    /\ ArtifactMetadata.file_type m = file_type
    /\ ArtifactMetadata.created_at m = now
    /\ get_artifact (ArtifactMetadata.artifact_id m) dir' = Ok m.
Proof.
  intros Hft Hc Hr.
  eexists _, _, _. split; [apply (save_artifact_ok _ _ _ _ _ _ Hft Hc Hr)|].
  split; [apply (encode_utf8_scalar _ Hc)|].
  repeat (split; [reflexivity|]).
  apply get_artifact_after_write.
Qed.


Lemma save_then_get_witness :
  exists m dir' data,
    save_artifact 7 (mk_datetime 2024 12 1 10 30 59 123456) no_faults
      (u "# Crypto Market Risk Analysis") (u "analyst") (u "markdown") ∅ = (Ok m, dir')
    /\ encode_utf8 (u "# Crypto Market Risk Analysis") = Ok data
    /\ ArtifactMetadata.content m = u "# Crypto Market Risk Analysis"
    /\ ArtifactMetadata.size_bytes m = Z.of_nat (length data)
    /\ ArtifactMetadata.agent_role m = u "analyst"
    /\ ArtifactMetadata.file_type m = u "markdown"
    /\ ArtifactMetadata.created_at m = mk_datetime 2024 12 1 10 30 59 123456
    /\ get_artifact (ArtifactMetadata.artifact_id m) dir' = Ok m.
Proof.
  apply save_then_get; [|reflexivity|reflexivity].
  unfold ArtifactMetadata.file_types. apply elem_of_cons. left. reflexivity.
Defined.

(** A content that cannot be encoded: the content file is left empty
    and the write raises. *)
Lemma save_artifact_encode_error
    (uuid4 : N) (now : datetime) (content agent_role file_type : str)
    (dir : gmap str file) (faults : io_faults) :
  (forall e, content_write faults <> Some (OpenFails e)) ->
  forallb is_scalar content = false ->
  save_artifact uuid4 now faults content agent_role file_type dir
  = (Raise (encode_error content), <[filename_of uuid4 now file_type := Text []]> dir).
Proof.
  intros Hf Hc. unfold save_artifact, encode_utf8. rewrite Hc.
  destruct (content_write faults) as [[e|e reached]|]; [by destruct (Hf e)| |]; reflexivity.
Qed.

(** ** Content files and metadata files do not collide *)

Lemma strftime_last (ts : datetime) :
  exists pre, strftime ts = pre ++ [digit (second ts)].
Proof.
  exists (pad4 (year ts) ++ pad2 (month ts) ++ pad2 (day ts) ++ u "_"
          ++ pad2 (hour ts) ++ pad2 (minute ts) ++ [digit (second ts / 10)]).
  unfold strftime. rewrite <- !app_assoc. reflexivity.
Qed.

(** No content file name is the metadata path of any identifier. *)
Lemma filename_not_metadata_path
    (uuid4 : N) (now : datetime) (file_type artifact_id : str) :
  filename_of uuid4 now file_type <> artifact_id ++ u "_meta.json".
Proof.
  unfold filename_of. intros E.
  pose proof (extension_cases file_type) as Hext.
  apply elem_of_cons in Hext as [Hext|Hext]; [|apply elem_of_cons in Hext as [Hext|Hext]].
  - rewrite Hext in E.
    change (u "md") with ([109%N] ++ [100%N]) in E.
    change (u "_meta.json") with (u "_meta.jso" ++ [110%N]) in E.
    rewrite !app_assoc in E. apply (f_equal last) in E.
    rewrite !last_snoc in E. discriminate E.
  - rewrite Hext in E.
    destruct (strftime_last now) as [pre Hpre]. rewrite Hpre in E.
    assert ((artifact_id_of uuid4 ++ u "_" ++ pre) ++ (digit (second now) :: u ".json")
            = (artifact_id ++ u "_met") ++ (97%N :: u ".json")) as E'.
    { rewrite <- !app_assoc. rewrite <- !app_assoc in E. exact E. }
    apply app_inj_2 in E' as [_ E']; [|reflexivity].
    injection E' as E'. pose proof (digit_small (second now)) as Hd.
    rewrite E' in Hd. lia.
  - apply elem_of_cons in Hext as [Hext|Hext]; [|by apply elem_of_nil in Hext].
    rewrite Hext in E.
    change (u "txt") with (u "tx" ++ [116%N]) in E.
    change (u "_meta.json") with (u "_meta.jso" ++ [110%N]) in E.
    rewrite !app_assoc in E. apply (f_equal last) in E.
    rewrite !last_snoc in E. discriminate E.
Qed.


Lemma get_artifact_insert_content
    (uuid4 : N) (now : datetime) (file_type artifact_id : str) (f : file)
    (dir : gmap str file) :
  get_artifact artifact_id (<[filename_of uuid4 now file_type := f]> dir)
  = get_artifact artifact_id dir.
Proof.
  unfold get_artifact. rewrite lookup_insert_ne; [reflexivity|].
  apply filename_not_metadata_path.
Qed.

(** The claim C10 fails on a content with a lone surrogate, which a
    Python string can hold and UTF-8 cannot encode: the write raises, no
    metadata is returned and none can be read back. *)
Lemma save_artifact_surrogate_raises :
  let now := mk_datetime 2024 12 1 10 30 59 123456 in
  let r := save_artifact 7 now no_faults [0xD800%N] (u "analyst") (u "markdown") ∅ in
  (forall m dir', r <> (Ok m, dir'))
  /\ (exists e, r.1 = Raise e /\ exc_type e = UnicodeEncodeError)
  /\ (exists e, get_artifact (artifact_id_of 7) r.2 = Raise e
                /\ exc_type e = FileNotFoundError).
Proof.
  intros now r.
  pose proof (save_artifact_encode_error 7 now [0xD800%N] (u "analyst") (u "markdown") ∅
                no_faults ltac:(discriminate) eq_refl) as Hr.
  fold r in Hr. rewrite Hr. cbn [fst snd].
  split; [intros m dir' H; discriminate H|].
  split; [eexists; split; reflexivity|].
  rewrite get_artifact_insert_content. unfold get_artifact. rewrite lookup_empty.
  eexists. split; reflexivity.
Qed.

End Artifacts.

(* ===================================================================== *)
(** * The streaming endpoint *)
(* ===================================================================== *)

Section Streaming.
Import Main.

(** [build_full_prompt] is total, and its result is this text. *)
Lemma build_full_prompt_eq (agent_role : str) (x y : float) (query : str) :
  exists c,
    PromptEngine.build_prompt_components agent_role x y query = Ok c
    /\ PromptEngine.build_full_prompt agent_role x y query
       = Ok (PromptEngine.final_system_prompt c
             ++ lines [ []; []; u "---"; u "USER QUERY:"; query; []; u "---"; u "RESPONSE:"; [] ]).
Proof.
  eexists. split; [apply build_prompt_components_eq|].
  unfold PromptEngine.build_full_prompt. rewrite build_prompt_components_eq. reflexivity.
Qed.

Lemma setitem_present (id : str) (f : execution -> execution) (w : world) (ex : execution) :
  executions w !! id = Some ex ->
  setitem id f w = ([], mk_world (<[id := f ex]> (executions w)) (storage w), Ok tt).
Proof. unfold setitem. by intros ->. Qed.

(** The loop relays every fragment and returns their concatenation. *)
Lemma relay_spec (tokens : list str) (acc : str) (w : world) :
  relay tokens acc w = (SSE.token <$> tokens, w, Ok (acc ++ concat tokens)).
Proof.
  revert acc. induction tokens as [|t ts IH]; intros acc.
  - cbn. by rewrite app_nil_r.
  - cbn [relay]. unfold bind, yield. rewrite IH. cbn. by rewrite <- app_assoc.
Qed.

Lemma consume_spec (r : GeminiClient.run) (w : world) :
  consume r w =
  (SSE.token <$> GeminiClient.yielded r, w,
   match GeminiClient.raised r with
   | Some e => Raise e
   | None => Ok (concat (GeminiClient.yielded r))
   end).
Proof.
  unfold consume, bind. rewrite relay_spec. cbn [app].
  destruct (GeminiClient.raised r); cbn; by rewrite app_nil_r.
Qed.

(** What the [try] block does on a known identifier, step by step. *)
Lemma try_block_cases (id : str) (env : stream_env) (w : world) (ex : execution) (fp : str) :
  executions w !! id = Some ex ->
  let req := request ex in
  let role := AgentRole.to_str (AgentExecutionRequest.agent_role req) in
  PromptEngine.build_full_prompt role
    (XYPadPosition.x (AgentExecutionRequest.xy_position req))
    (XYPadPosition.y (AgentExecutionRequest.xy_position req))
    (AgentExecutionRequest.query req) = Ok fp ->
  let run := GeminiClient.stream_generate (model env) fp
               (PromptEngine.temperature (prompt_components ex)) (max_output_tokens env) in
  let acc := concat (GeminiClient.yielded run) in
  let tokens := SSE.token <$> GeminiClient.yielded run in
  let streaming := <[id := set_status (u "streaming") ex]> (executions w) in
  try_block (mk_stream id req (prompt_components ex)) env w =
  match GeminiClient.raised run with
  | Some e => (tokens, mk_world streaming (storage w), Raise e)
  | None =>
    match ArtifactManager.save_artifact (uuid4 env) (utcnow env) (faults env)
            acc role (u "markdown") (storage w) with
    | (Raise e, dir) => (tokens, mk_world streaming dir, Raise e)
    | (Ok artifact, dir) =>
      match TokenTracker.get_usage_summary fp acc with
      | Raise e => (tokens, mk_world streaming dir, Raise e)
      | Ok usage =>
        match TokenUsage.validate usage with
        | Raise e => (tokens, mk_world streaming dir, Raise e)
        | Ok token_usage =>
            (tokens ++ [SSE.complete (ArtifactMetadata.artifact_id artifact) token_usage],
             mk_world
               (<[id := set_artifact_id (ArtifactMetadata.artifact_id artifact)
                          (set_status (u "completed") (set_status (u "streaming") ex))]>
                  (executions w))
               dir,
             Ok tt)
        end
      end
    end
  end.
Proof.
  intros Hex req role Hfp run acc tokens streaming.
  unfold try_block. cbn [execution_id captured_request captured_components].
  fold req. fold role.
  unfold bind at 1. rewrite (setitem_present _ _ _ _ Hex). fold streaming.
  unfold bind at 1. unfold lift at 1. rewrite Hfp.
  unfold bind at 1. rewrite consume_spec. fold run. fold tokens. fold acc.
  destruct (GeminiClient.raised run) as [e|]; [reflexivity|].
  unfold bind at 1. unfold save_artifact at 1. cbn [storage executions].
  destruct (ArtifactManager.save_artifact _ _ _ acc role _ (storage w)) as [[artifact|e] dir];
    [|cbn [app]; by rewrite app_nil_r].
  unfold bind at 1. unfold lift at 1.
  destruct (TokenTracker.get_usage_summary fp acc) as [usage|e]; [|cbn [app]; by rewrite app_nil_r].
  unfold bind at 1. unfold lift at 1.
  destruct (TokenUsage.validate usage) as [token_usage|e]; [|cbn [app]; by rewrite app_nil_r].
  assert (executions (mk_world streaming dir) !! id = Some (set_status (u "streaming") ex)) as H1.
  { cbn. subst streaming. apply lookup_insert_eq. }
  unfold bind at 1. rewrite (setitem_present _ _ _ _ H1). cbn [executions storage].
  subst streaming. rewrite insert_insert_eq.
  unfold bind at 1. erewrite setitem_present by (cbn; apply lookup_insert_eq).
  cbn [executions storage]. rewrite insert_insert_eq.
  unfold yield. cbn [app]. reflexivity.
Qed.


(** The [except] block on a known identifier. *)
Lemma except_block_present (s : stream) (e : exn) (w : world) (ex : execution) :
  executions w !! execution_id s = Some ex ->
  except_block s e w =
  ([SSE.error (exc_str e)],
   mk_world
     (<[execution_id s := set_error (exc_str e) (set_status (u "error") ex)]> (executions w))
     (storage w),
   Ok tt).
Proof.
  intros Hex. unfold except_block.
  unfold bind at 1. rewrite (setitem_present _ _ _ _ Hex).
  unfold bind at 1. erewrite setitem_present by (cbn [executions]; apply lookup_insert_eq).
  cbn [executions storage]. rewrite insert_insert_eq. reflexivity.
Qed.

(** A [try] block that raises leaves the record in status [streaming]. *)
Lemma try_block_raises (id : str) (env : stream_env) (w w0 : world) (ex : execution)
    (evs0 : list SSE.event) (e : exn) :
  executions w !! id = Some ex ->
  try_block (mk_stream id (request ex) (prompt_components ex)) env w = (evs0, w0, Raise e) ->
  executions w0 = <[id := set_status (u "streaming") ex]> (executions w).
Proof.
  intros Hex H.
  destruct (build_full_prompt_eq
              (AgentRole.to_str (AgentExecutionRequest.agent_role (request ex)))
              (XYPadPosition.x (AgentExecutionRequest.xy_position (request ex)))
              (XYPadPosition.y (AgentExecutionRequest.xy_position (request ex)))
              (AgentExecutionRequest.query (request ex))) as (c & _ & Hfp).
  rewrite (try_block_cases id env w ex _ Hex Hfp) in H. cbv zeta in H.
  destruct (GeminiClient.raised _) as [e0|]; [by injection H as _ <- _|].
  destruct (ArtifactManager.save_artifact _ _ _ _ _ _ _) as [[artifact|e1] dir];
    [|by injection H as _ <- _].
  destruct (TokenTracker.get_usage_summary _ _) as [usage|e2]; [|by injection H as _ <- _].
  destruct (TokenUsage.validate usage) as [tu|e3]; [discriminate H|by injection H as _ <- _].
Qed.


(** What a stream request on a known identifier does, step by step. The
    status the record has when the request arrives plays no part. *)
Lemma serve_stream_cases (id : str) (env : stream_env) (w : world) (ex : execution) (fp : str) :
  executions w !! id = Some ex ->
  let req := request ex in
  let role := AgentRole.to_str (AgentExecutionRequest.agent_role req) in
  PromptEngine.build_full_prompt role
    (XYPadPosition.x (AgentExecutionRequest.xy_position req))
    (XYPadPosition.y (AgentExecutionRequest.xy_position req))
    (AgentExecutionRequest.query req) = Ok fp ->
  let run := GeminiClient.stream_generate (model env) fp
               (PromptEngine.temperature (prompt_components ex)) (max_output_tokens env) in
  let acc := concat (GeminiClient.yielded run) in
  let tokens := SSE.token <$> GeminiClient.yielded run in
  let failed (e : exn) (dir : gmap str ArtifactManager.file) :=
    Streamed (tokens ++ [SSE.error (exc_str e)])
      (mk_world
         (<[id := mk_execution req (prompt_components ex) (u "error") (created_at ex)
                    (artifact_id ex) (Some (exc_str e))]> (executions w))
         dir)
      None in
  serve_stream id env w =
  match GeminiClient.raised run with
  | Some e => failed e (storage w)
  | None =>
    match ArtifactManager.save_artifact (uuid4 env) (utcnow env) (faults env)
            acc role (u "markdown") (storage w) with
    | (Raise e, dir) => failed e dir
    | (Ok artifact, dir) =>
      match TokenTracker.get_usage_summary fp acc with
      | Raise e => failed e dir
      | Ok usage =>
        match TokenUsage.validate usage with
        | Raise e => failed e dir
        | Ok token_usage =>
            Streamed
              (tokens ++ [SSE.complete (ArtifactMetadata.artifact_id artifact) token_usage])
              (mk_world
                 (<[id := mk_execution req (prompt_components ex) (u "completed")
                            (created_at ex)
                            (Some (ArtifactMetadata.artifact_id artifact)) (error ex)]>
                    (executions w))
                 dir)
              None
        end
      end
    end
  end.
Proof.
  intros Hex req role Hfp run acc tokens failed. subst req role failed.
  unfold serve_stream, stream_agent_response. rewrite Hex.
  unfold event_generator.
  rewrite (try_block_cases id env w ex fp Hex Hfp). cbv zeta. fold run. fold acc. fold tokens.
  assert (forall (e : exn) (dir : gmap str ArtifactManager.file),
            except_block (mk_stream id (request ex) (prompt_components ex)) e
              (mk_world (<[id := set_status (u "streaming") ex]> (executions w)) dir)
            = ([SSE.error (exc_str e)],
               mk_world
                 (<[id := mk_execution (request ex) (prompt_components ex) (u "error")
                            (created_at ex) (artifact_id ex) (Some (exc_str e))]>
                    (executions w))
                 dir,
               Ok tt)) as Hexc.
  { intros e dir.
    erewrite except_block_present by (cbn [execution_id executions]; apply lookup_insert_eq).
    cbn [execution_id executions storage]. rewrite insert_insert_eq. reflexivity. }
  destruct (GeminiClient.raised run) as [e|]; [rewrite Hexc; reflexivity|].
  destruct (ArtifactManager.save_artifact _ _ _ _ _ _ _) as [[artifact|e] dir];
    [|rewrite Hexc; reflexivity].
  destruct (TokenTracker.get_usage_summary fp acc) as [usage|e]; [|rewrite Hexc; reflexivity].
  destruct (TokenUsage.validate usage) as [token_usage|e]; [|rewrite Hexc; reflexivity].
  reflexivity.
Qed.

(** A failed [save_artifact] makes no artifact readable. Every identifier
    but the drawn one reads back, or fails to, as before; the drawn one
    reads back as before, or fails validation when the metadata file was
    opened and left without its document. *)
Lemma save_artifact_raise_nothing_readable
    (uuid4 : N) (now : datetime) (faults : ArtifactManager.io_faults)
    (content agent_role file_type : str) (dir dir' : gmap str ArtifactManager.file) (e : exn) :
  ArtifactManager.save_artifact uuid4 now faults content agent_role file_type dir
    = (Raise e, dir') ->
  (forall artifact_id,
     artifact_id <> ArtifactManager.artifact_id_of uuid4 ->
     ArtifactManager.get_artifact artifact_id dir' = ArtifactManager.get_artifact artifact_id dir)
  /\ (forall artifact_id m,
        ArtifactManager.get_artifact artifact_id dir' = Ok m ->
        ArtifactManager.get_artifact artifact_id dir = Ok m).
Proof.
  intros H. unfold ArtifactManager.save_artifact in H.
  fold (ArtifactManager.artifact_id_of uuid4) in H.
  fold (ArtifactManager.filename_of uuid4 now file_type) in H.
  assert (forall f : ArtifactManager.file,
            (forall artifact_id,
               artifact_id <> ArtifactManager.artifact_id_of uuid4 ->
               ArtifactManager.get_artifact artifact_id (<[ArtifactManager.filename_of uuid4 now file_type := f]> dir)
               = ArtifactManager.get_artifact artifact_id dir)
            /\ (forall artifact_id m,
                  ArtifactManager.get_artifact artifact_id (<[ArtifactManager.filename_of uuid4 now file_type := f]> dir) = Ok m ->
                  ArtifactManager.get_artifact artifact_id dir = Ok m)) as Hcontent.
  { intros f. split.
    - intros artifact_id _. apply get_artifact_insert_content.
    - intros artifact_id m. by rewrite get_artifact_insert_content. }
  assert (forall (f : ArtifactManager.file) (left_over : list Byte.byte),
            (forall artifact_id,
               artifact_id <> ArtifactManager.artifact_id_of uuid4 ->
               ArtifactManager.get_artifact artifact_id
                 (<[ArtifactManager.artifact_id_of uuid4 ++ u "_meta.json" := ArtifactManager.Text left_over]>
                    (<[ArtifactManager.filename_of uuid4 now file_type := f]> dir))
               = ArtifactManager.get_artifact artifact_id dir)
            /\ (forall artifact_id m,
                  ArtifactManager.get_artifact artifact_id
                    (<[ArtifactManager.artifact_id_of uuid4 ++ u "_meta.json" := ArtifactManager.Text left_over]>
                       (<[ArtifactManager.filename_of uuid4 now file_type := f]> dir)) = Ok m ->
                  ArtifactManager.get_artifact artifact_id dir = Ok m)) as Hmeta.
  { intros f left_over.
    assert (forall artifact_id,
              artifact_id <> ArtifactManager.artifact_id_of uuid4 ->
              ArtifactManager.get_artifact artifact_id
                (<[ArtifactManager.artifact_id_of uuid4 ++ u "_meta.json" := ArtifactManager.Text left_over]>
                   (<[ArtifactManager.filename_of uuid4 now file_type := f]> dir))
              = ArtifactManager.get_artifact artifact_id dir) as Hother.
    { intros artifact_id Hne.
      rewrite <- (get_artifact_insert_content uuid4 now file_type artifact_id f dir).
      unfold ArtifactManager.get_artifact.
      rewrite lookup_insert_ne; [reflexivity|].
      intros E. apply app_inv_tail in E. by apply Hne. }
    split; [exact Hother|].
    intros artifact_id m Hget.
    destruct (decide (artifact_id = ArtifactManager.artifact_id_of uuid4)) as [->|Hne]; [|by rewrite <- (Hother _ Hne)].
    unfold ArtifactManager.get_artifact in Hget. rewrite lookup_insert_eq in Hget.
    discriminate Hget. }
  destruct (ArtifactManager.content_write faults) as [[e0|e0 reached0]|].
  - injection H as _ <-. by split.
  - destruct (encode_utf8 content); injection H as _ <-; apply Hcontent.
  - destruct (encode_utf8 content) as [data|e1]; [|injection H as _ <-; apply Hcontent].
    destruct (ArtifactMetadata.validate _) as [m|e2]; [|injection H as _ <-; apply Hcontent].
    destruct (ArtifactManager.metadata_write faults) as [[e3|e3 reached3]|].
    + injection H as _ <-. apply Hcontent.
    + destruct (ArtifactMetadata.serializable m); injection H as _ <-; apply Hmeta.
    + destruct (ArtifactMetadata.serializable m); [discriminate H|].
      injection H as _ <-. apply Hmeta.
Qed.

Lemma scalar_role (r : AgentRole.t) : forallb is_scalar (AgentRole.to_str r) = true.
Proof. destruct r; reflexivity. Qed.

Lemma markdown_file_type : u "markdown" ∈ ArtifactMetadata.file_types.
Proof. unfold ArtifactMetadata.file_types. apply elem_of_cons. by left. Qed.

(** C2, as the code has it: when a step of the [try] block raises an
    exception e on a known identifier, the stream is the token events
    yielded so far followed by one [error] event carrying [str(e)], which
    ends it; the record gets the status [error] and the description
    [str(e)]. When it is the backend that raised, the storage directory is
    left untouched, so the partial output is not persisted; when it is
    [save_artifact] that raised, no artifact becomes readable: an
    identifier that reads back after the stream read back the same
    before it, and every identifier but the one this run drew reads
    back, or fails to, as before. *)
Theorem stream_failure
    (id : str) (env : stream_env) (w w0 : world) (ex : execution) (fp : str)
    (evs0 : list SSE.event) (e : exn) :
  executions w !! id = Some ex ->
  let req := request ex in
  let role := AgentRole.to_str (AgentExecutionRequest.agent_role req) in
  PromptEngine.build_full_prompt role
    (XYPadPosition.x (AgentExecutionRequest.xy_position req))
    (XYPadPosition.y (AgentExecutionRequest.xy_position req))
    (AgentExecutionRequest.query req) = Ok fp ->
  try_block (mk_stream id req (prompt_components ex)) env w = (evs0, w0, Raise e) ->
  let run := GeminiClient.stream_generate (model env) fp
               (PromptEngine.temperature (prompt_components ex)) (max_output_tokens env) in
  exists w',
    evs0 = SSE.token <$> GeminiClient.yielded run
    /\ serve_stream id env w
       = Streamed ((SSE.token <$> GeminiClient.yielded run) ++ [SSE.error (exc_str e)]) w' None
    /\ executions w' !! id
       = Some (mk_execution req (prompt_components ex) (u "error") (created_at ex)
                 (artifact_id ex) (Some (exc_str e)))
    /\ (forall e0, GeminiClient.raised run = Some e0 -> e = e0 /\ storage w' = storage w)
    /\ (GeminiClient.raised run = None ->
        forall e1 dir1,
          ArtifactManager.save_artifact (uuid4 env) (utcnow env) (faults env)
            (concat (GeminiClient.yielded run)) role (u "markdown") (storage w) = (Raise e1, dir1) ->
          e = e1
          /\ (forall artifact_id m,
                get_artifact artifact_id w' = Ok m -> get_artifact artifact_id w = Ok m)
          /\ (forall artifact_id,
                artifact_id <> ArtifactManager.artifact_id_of (uuid4 env) ->
                get_artifact artifact_id w' = get_artifact artifact_id w)).
Proof.
  intros Hex req role Hfp Htry run. subst req role. 
  pose proof (try_block_raises id env w w0 ex evs0 e Hex Htry) as Hexs.
  assert (executions w0 !! id = Some (set_status (u "streaming") ex)) as Hex0
    by (rewrite Hexs; apply lookup_insert_eq).
  exists (mk_world
            (<[id := set_error (exc_str e) (set_status (u "error") (set_status (u "streaming") ex))]>
               (executions w0))
            (storage w0)).
  assert (evs0 = SSE.token <$> GeminiClient.yielded run
          /\ (forall e0, GeminiClient.raised run = Some e0 -> e = e0 /\ storage w0 = storage w)
          /\ (GeminiClient.raised run = None ->
              forall e1 dir1,
                ArtifactManager.save_artifact (uuid4 env) (utcnow env) (faults env)
                  (concat (GeminiClient.yielded run))
                  (AgentRole.to_str (AgentExecutionRequest.agent_role (request ex)))
                  (u "markdown") (storage w)
                  = (Raise e1, dir1) ->
                e = e1 /\ storage w0 = dir1)) as (Hevs & Hback & Hsave).
  { pose proof Htry as H. rewrite (try_block_cases id env w ex fp Hex Hfp) in H.
    cbv zeta in H. fold run in H.
    destruct (GeminiClient.raised run) as [e0|].
    { injection H as <- <- <-. split; [reflexivity|]. split; [|discriminate].
      intros ? [= <-]. by split. }
    destruct (ArtifactManager.save_artifact _ _ _ _ _ _ _) as [[artifact|e1] dir].
    2:{ injection H as <- <- <-. split; [reflexivity|]. split; [discriminate|].
        intros _ ? ? [= <- <-]. by split. }
    destruct (TokenTracker.get_usage_summary _ _) as [usage|e2].
    2:{ injection H as <- <- <-. split; [reflexivity|]. split; discriminate. }
    destruct (TokenUsage.validate usage) as [tu|e3]; [discriminate H|].
    injection H as <- <- <-. split; [reflexivity|]. split; discriminate. }
  split; [exact Hevs|].
  split.
  { unfold serve_stream, stream_agent_response. rewrite Hex.
    unfold event_generator. rewrite Htry.
    rewrite (except_block_present (mk_stream id _ _) e w0 _ Hex0).
    cbn [execution_id]. by rewrite Hevs. }
  split; [cbn [executions]; by rewrite lookup_insert_eq|].
  split.
  { intros e0 He0. destruct (Hback e0 He0) as [-> Hs]. by split. }
  intros Hnone e1 dir1 Hs. destruct (Hsave Hnone e1 dir1 Hs) as [-> Hd].
  split; [reflexivity|]. unfold get_artifact. cbn [storage]. rewrite Hd.
  destruct (save_artifact_raise_nothing_readable _ _ _ _ _ _ _ _ _ Hs) as [Hother Hread].
  split; [exact Hread|exact Hother].
Qed.


(** The usage dictionary of two texts passes the constraints of
    [TokenUsage]. *)
Lemma token_usage_valid (a b : str) :
  (Z.of_nat (length a) <= maxsize)%Z -> (Z.of_nat (length b) <= maxsize)%Z ->
  exists usage,
    TokenTracker.get_usage_summary a b = Ok usage
    /\ TokenUsage.validate usage
       = Ok (TokenUsage.mk (TokenTracker.prompt_tokens usage)
               (TokenTracker.completion_tokens usage) (TokenTracker.total_tokens usage)
               (TokenTracker.estimated_cost usage)).
Proof.
  intros Ha Hb. destruct (get_usage_summary_ok a b Ha Hb) as [Hu Hn].
  eexists. split; [exact Hu|].
  unfold TokenUsage.validate.
  cbn [TokenTracker.prompt_tokens TokenTracker.completion_tokens TokenTracker.total_tokens
         TokenTracker.estimated_cost].
  rewrite (zero_leb_nonneg _ Hn).
  assert (0 <= Z.of_nat (length a) / 4)%Z by (apply Z.div_pos; lia).
  assert (0 <= Z.of_nat (length b) / 4)%Z by (apply Z.div_pos; lia).
  repeat (rewrite (proj2 (Z.leb_le 0 _)) by lia). reflexivity.
Qed.

(** C3, as the code has it: on a known identifier, when the run of the
    backend ends without an exception and [save_artifact] returns, the
    stream is one [token] event per fragment, with the fragment as content
    and in the order of arrival, followed by one final [complete] event.
    Its identifier is the one of the artifact this run wrote, which reads
    back with the concatenation of the fragments as content and the
    persona as agent role; its usage is the summary of the full prompt and
    the accumulated output; the record gets the status [completed] and the
    identifier of the artifact. The two texts are of a length a Python
    string can have. *)
Theorem stream_success
    (id : str) (env : stream_env) (w : world) (ex : execution) (fp : str)
    (artifact : ArtifactMetadata.t) (dir' : gmap str ArtifactManager.file) :
  executions w !! id = Some ex ->
  let req := request ex in
  let role := AgentRole.to_str (AgentExecutionRequest.agent_role req) in
  PromptEngine.build_full_prompt role
    (XYPadPosition.x (AgentExecutionRequest.xy_position req))
    (XYPadPosition.y (AgentExecutionRequest.xy_position req))
    (AgentExecutionRequest.query req) = Ok fp ->
  let run := GeminiClient.stream_generate (model env) fp
               (PromptEngine.temperature (prompt_components ex)) (max_output_tokens env) in
  let output := concat (GeminiClient.yielded run) in
  GeminiClient.raised run = None ->
  ArtifactManager.save_artifact (uuid4 env) (utcnow env) (faults env)
    output role (u "markdown") (storage w) = (Ok artifact, dir') ->
  (Z.of_nat (length fp) <= maxsize)%Z ->
  (Z.of_nat (length output) <= maxsize)%Z ->
  exists usage w',
    let artifact_id := ArtifactMetadata.artifact_id artifact in
    serve_stream id env w
      = Streamed
          ((SSE.token <$> GeminiClient.yielded run)
           ++ [SSE.complete artifact_id
                 (TokenUsage.mk (TokenTracker.prompt_tokens usage)
                    (TokenTracker.completion_tokens usage) (TokenTracker.total_tokens usage)
                    (TokenTracker.estimated_cost usage))])
          w' None
    /\ artifact_id = ArtifactManager.artifact_id_of (uuid4 env)
    /\ storage w'
       = <[artifact_id ++ u "_meta.json" := ArtifactManager.Json artifact]>
           (<[ArtifactMetadata.filename artifact
                := ArtifactManager.Text (flat_map encode_cp output)]> (storage w))
    /\ get_artifact artifact_id w' = Ok artifact
    /\ ArtifactMetadata.content artifact = output
    /\ ArtifactMetadata.agent_role artifact = role
    /\ TokenTracker.get_usage_summary fp output = Ok usage
    /\ executions w' !! id
       = Some (mk_execution req (prompt_components ex) (u "completed") (created_at ex)
                 (Some artifact_id) (error ex)).
Proof.
  intros Hex req role Hfp run output Hrun Hsave Hlfp Hlout. subst req role.
  destruct (token_usage_valid fp output Hlfp Hlout) as (usage & Husage & Hvalid).
  destruct (save_artifact_returns _ _ _ _ _ _ _ _ _ Hsave) as (Hm & Hdir & _).
  exists usage. eexists. cbv zeta.
  split.
  { unfold serve_stream, stream_agent_response. rewrite Hex.
    unfold event_generator.
    rewrite (try_block_cases id env w ex fp Hex Hfp). cbv zeta. fold run. fold output.
    rewrite Hrun, Hsave, Husage, Hvalid. reflexivity. }
  cbn [storage executions].
  split; [rewrite Hm; reflexivity|].
  split; [rewrite Hdir; f_equal; [rewrite Hm; reflexivity|]; f_equal; rewrite Hm; reflexivity|].
  split; [unfold get_artifact; cbn [storage]; rewrite Hdir, Hm; apply get_artifact_after_write|].
  split; [rewrite Hm; reflexivity|]. split; [rewrite Hm; reflexivity|].
  split; [exact Husage|].
  apply lookup_insert_eq.
Qed.

(** ** The scenario *)

Lemma scenario_lookup (ex : execution) :
  executions (Scenario.world_of ex) !! Scenario.execution_id = Some ex.
Proof. unfold Scenario.world_of. cbn [executions]. apply lookup_singleton_eq. Qed.

(** The full prompt of the scenario: it exists and is of moderate length. *)
Lemma scenario_full_prompt :
  exists fp,
    PromptEngine.build_full_prompt (u "analyst") (F64.dec 1 1) (F64.dec 1 1)
      (u "Analyze Q4 risk") = Ok fp
    /\ (Z.of_nat (length fp) <= maxsize)%Z.
Proof.
  destruct (PromptEngine.build_full_prompt _ _ _ _) as [fp|e] eqn:H;
    vm_compute in H; [|discriminate H].
  exists fp. split; [reflexivity|]. injection H as <-. vm_compute. discriminate.
Qed.

(** The backend raises after one fragment: one [token] event, then one
    [error] event; the record is in status [error]; nothing is stored.
    The backend ends and the write of the metadata file fails: two
    [token] events, then one [error] event; the record is in status
    [error] and the identifier drawn does not read back. *)
Lemma stream_failure_witness :
  (exists w',
     serve_stream Scenario.execution_id (Scenario.env_of Scenario.breaks_after_one)
       (Scenario.world_of Scenario.pending)
     = Streamed [SSE.token (u "Hello"); SSE.error (u "Gemini API error: quota exceeded")] w' None
     /\ status <$> executions w' !! Scenario.execution_id = Some (u "error")
     /\ storage w' = ∅)
  /\ (exists w',
        serve_stream Scenario.execution_id Scenario.env_metadata_lost
          (Scenario.world_of Scenario.pending)
        = Streamed [SSE.token (u "Hello"); SSE.token (u " world");
                    SSE.error (u "No space left on device")] w' None
        /\ status <$> executions w' !! Scenario.execution_id = Some (u "error")
        /\ forall m, get_artifact (ArtifactManager.artifact_id_of Scenario.uuid) w' <> Ok m).
Proof.
  destruct scenario_full_prompt as (fp & Hfp & _).
  pose proof (scenario_lookup Scenario.pending) as Hex.
  split.
  - pose proof (try_block_cases _ (Scenario.env_of Scenario.breaks_after_one) _ _ fp Hex Hfp)
      as Htry.
    cbv zeta in Htry.
    destruct (stream_failure _ _ _ _ _ fp _ _ Hex Hfp Htry) as (w' & _ & Hs & Hrec & Hback & _).
    exists w'. split; [exact Hs|]. split; [rewrite Hrec; reflexivity|].
    exact (proj2 (Hback _ eq_refl)).
  - pose proof (try_block_cases _ Scenario.env_metadata_lost _ _ fp Hex Hfp) as Htry.
    cbv zeta in Htry.
    destruct (stream_failure _ _ _ _ _ fp _ _ Hex Hfp Htry) as (w' & _ & Hs & Hrec & _ & Hsave).
    exists w'. split; [exact Hs|]. split; [rewrite Hrec; reflexivity|].
    intros m Hm.
    destruct (Hsave eq_refl _ _ eq_refl) as (_ & Hread & _).
    specialize (Hread _ _ Hm). discriminate Hread.
Defined.

(** The backend yields "Hello" and " world" and ends: two [token] events,
    then one [complete] event; the artifact read back holds "Hello world". *)
Lemma stream_success_witness :
  exists artifact usage w',
    serve_stream Scenario.execution_id (Scenario.env_of Scenario.hello_world)
      (Scenario.world_of Scenario.pending)
    = Streamed
        [SSE.token (u "Hello"); SSE.token (u " world");
         SSE.complete (ArtifactMetadata.artifact_id artifact)
           (TokenUsage.mk (TokenTracker.prompt_tokens usage)
              (TokenTracker.completion_tokens usage) (TokenTracker.total_tokens usage)
              (TokenTracker.estimated_cost usage))]
        w' None
    /\ get_artifact (ArtifactMetadata.artifact_id artifact) w' = Ok artifact
    /\ ArtifactMetadata.content artifact = u "Hello world"
    /\ status <$> executions w' !! Scenario.execution_id = Some (u "completed")
    /\ artifact_id <$> executions w' !! Scenario.execution_id
       = Some (Some (ArtifactMetadata.artifact_id artifact)).
Proof.
  destruct scenario_full_prompt as (fp & Hfp & Hlen).
  pose proof (scenario_lookup Scenario.pending) as Hex.
  pose proof (save_artifact_ok Scenario.uuid Scenario.now (u "Hello world") (u "analyst") (u "markdown") ∅
                markdown_file_type eq_refl eq_refl) as Hsave.
  cbv zeta in Hsave.
  destruct (stream_success _ (Scenario.env_of Scenario.hello_world) _ _ fp _ _ Hex Hfp
              eq_refl Hsave Hlen ltac:(vm_compute; discriminate))
    as (usage & w' & Hs & _ & _ & Hget & Hcontent & _ & _ & Hrec).
  eexists _, usage, w'. split; [exact Hs|]. split; [exact Hget|].
  split; [exact Hcontent|]. rewrite Hrec. split; reflexivity.
Defined.

(** ** The gate of the streaming route *)

(** Two records with the same request and the same prompt components,
    over the same storage, stream the same events; the stream ends with
    the record in status [completed] or [error]. *)
Lemma serve_stream_events_independent
    (id : str) (env : stream_env) (w1 w2 : world) (ex1 ex2 : execution) :
  executions w1 !! id = Some ex1 ->
  executions w2 !! id = Some ex2 ->
  request ex2 = request ex1 ->
  prompt_components ex2 = prompt_components ex1 ->
  storage w2 = storage w1 ->
  exists evs w1' w2',
    serve_stream id env w1 = Streamed evs w1' None
    /\ serve_stream id env w2 = Streamed evs w2' None
    /\ exists ex', executions w1' !! id = Some ex'
                   /\ (status ex' = u "completed" \/ status ex' = u "error").
Proof.
  intros Hex1 Hex2 Hreq Hcomp Hstor.
  destruct (build_full_prompt_eq
              (AgentRole.to_str (AgentExecutionRequest.agent_role (request ex1)))
              (XYPadPosition.x (AgentExecutionRequest.xy_position (request ex1)))
              (XYPadPosition.y (AgentExecutionRequest.xy_position (request ex1)))
              (AgentExecutionRequest.query (request ex1))) as (c & _ & Hfp).
  set (fp := PromptEngine.final_system_prompt c ++ _) in Hfp.
  pose proof Hfp as Hfp2. rewrite <- Hreq in Hfp2.
  rewrite (serve_stream_cases id env w1 ex1 fp Hex1 Hfp).
  rewrite (serve_stream_cases id env w2 ex2 fp Hex2 Hfp2). cbv zeta.
  rewrite Hcomp, Hreq, Hstor.
  destruct (GeminiClient.raised _) as [e|].
  { eexists _, _, _. split; [reflexivity|]. split; [reflexivity|].
    eexists. split; [cbn [executions]; apply lookup_insert_eq|right; reflexivity]. }
  destruct (ArtifactManager.save_artifact _ _ _ _ _ _ _) as [[artifact|e] dir].
  2:{ eexists _, _, _. split; [reflexivity|]. split; [reflexivity|].
      eexists. split; [cbn [executions]; apply lookup_insert_eq|right; reflexivity]. }
  destruct (TokenTracker.get_usage_summary fp _) as [usage|e].
  2:{ eexists _, _, _. split; [reflexivity|]. split; [reflexivity|].
      eexists. split; [cbn [executions]; apply lookup_insert_eq|right; reflexivity]. }
  destruct (TokenUsage.validate usage) as [token_usage|e].
  2:{ eexists _, _, _. split; [reflexivity|]. split; [reflexivity|].
      eexists. split; [cbn [executions]; apply lookup_insert_eq|right; reflexivity]. }
  eexists _, _, _. split; [reflexivity|]. split; [reflexivity|].
  eexists. split; [cbn [executions]; apply lookup_insert_eq|left; reflexivity].
Qed.

(** C1, as the code has it: a stream request for an identifier that is
    not in [executions] is refused with 404 before any event. For a known
    identifier there is no check of the status: the request is served
    whatever the status, pending or not, the stream ends with the record
    in status [completed] or [error], overwriting what an earlier stream
    left, and any record with the same request and prompt components
    yields the same events. *)
Theorem stream_request_gate (id : str) (env : stream_env) (w : world) :
  (executions w !! id = None ->
   stream_agent_response id w = HTTPException 404 (u "Execution not found")
   /\ serve_stream id env w = Refused 404 (u "Execution not found"))
  /\ (forall ex : execution,
        executions w !! id = Some ex ->
        exists evs w',
          serve_stream id env w = Streamed evs w' None
          /\ (exists ex', executions w' !! id = Some ex'
                /\ (status ex' = u "completed" \/ status ex' = u "error"))
          /\ (forall ex2 : execution,
                request ex2 = request ex ->
                prompt_components ex2 = prompt_components ex ->
                exists w2,
                  serve_stream id env (mk_world (<[id := ex2]> (executions w)) (storage w))
                  = Streamed evs w2 None)).
Proof.
  split.
  { intros Hnone. unfold serve_stream, stream_agent_response. rewrite Hnone.
    split; reflexivity. }
  intros ex Hex.
  destruct (serve_stream_events_independent id env w w ex ex Hex Hex eq_refl eq_refl eq_refl)
    as (evs & w' & _ & Hs & _ & Hst).
  exists evs, w'. split; [exact Hs|]. split; [exact Hst|].
  intros ex2 Hreq Hcomp.
  destruct (serve_stream_events_independent id env w
              (mk_world (<[id := ex2]> (executions w)) (storage w)) ex ex2 Hex
              (lookup_insert_eq _ _ _) Hreq Hcomp eq_refl)
    as (evs2 & w1' & w2' & Hs1 & Hs2 & _).
  rewrite Hs in Hs1. injection Hs1 as <- _. exists w2'. exact Hs2.
Qed.


(** The claim C1 fails on an execution that has left [pending]: a stream
    request for a completed execution is not refused. The backend is
    called again, events are produced, a second artifact is written and
    the record of the first stream's outcome is overwritten by it. *)
Lemma completed_execution_streams_again :
  let w := Scenario.world_of Scenario.completed in
  let env := Scenario.env_of Scenario.again in
  status <$> executions w !! Scenario.execution_id = Some (u "completed")
  /\ artifact_id <$> executions w !! Scenario.execution_id
     = Some (Some (u "art_1f3a5c7e9b2d"))
  /\ exists token_usage w',
       serve_stream Scenario.execution_id env w
       = Streamed [SSE.token (u "Again");
                   SSE.complete (ArtifactManager.artifact_id_of Scenario.uuid) token_usage] w' None
       /\ artifact_id <$> executions w' !! Scenario.execution_id
          = Some (Some (ArtifactManager.artifact_id_of Scenario.uuid))
       /\ ArtifactManager.artifact_id_of Scenario.uuid <> u "art_1f3a5c7e9b2d".
Proof.
  intros w env. subst w env.
  pose proof (scenario_lookup Scenario.completed) as Hex.
  split; [rewrite Hex; reflexivity|]. split; [rewrite Hex; reflexivity|].
  destruct scenario_full_prompt as (fp & Hfp & Hlen).
  destruct (token_usage_valid fp (u "Again") Hlen ltac:(vm_compute; discriminate))
    as (usage & Husage & Hvalid).
  pose proof (save_artifact_ok Scenario.uuid Scenario.now (u "Again") (u "analyst") (u "markdown") ∅
                markdown_file_type eq_refl eq_refl) as Hsave.
  cbv zeta in Hsave.
  eexists _, _.
  split.
  { rewrite (serve_stream_cases _ (Scenario.env_of Scenario.again) _ _ fp Hex Hfp). cbv zeta.
    change (GeminiClient.raised _) with (@None exn).
    change (concat (GeminiClient.yielded _)) with (u "Again").
    change (ArtifactManager.save_artifact _ _ _ _ _ _ _)
      with (ArtifactManager.save_artifact Scenario.uuid Scenario.now ArtifactManager.no_faults
              (u "Again") (u "analyst") (u "markdown") ∅).
    rewrite Hsave, Husage, Hvalid. reflexivity. }
  cbn [executions]. rewrite lookup_insert_eq.
  split; [reflexivity|].
  intros H. vm_compute in H. discriminate H.
Qed.

(** ** Validation of the position *)

(** A number that is not finite is outside \[0,1\]. *)
Lemma not_finite_not_in_unit (v : float) :
  F64.is_finite v = false -> XYPadPosition.in_unit v = false.
Proof.
  destruct v as [sign|sign| |sign m e]; try discriminate; intros _; [|reflexivity].
  destruct sign; reflexivity.
Qed.

Lemma of_str_scalar (s : str) (role : AgentRole.t) :
  AgentRole.of_str s = Some role -> forallb is_scalar s = true.
Proof.
  unfold AgentRole.of_str.
  destruct (decide (s = u "analyst")) as [->|_]; [intros _; reflexivity|].
  destruct (decide (s = u "writer")) as [->|_]; [intros _; reflexivity|].
  destruct (decide (s = u "researcher")) as [->|_]; [intros _; reflexivity|].
  discriminate.
Qed.

(** What the error list holds decides whether it can be rendered; a value
    that cannot be rendered is always a refused one. *)
Lemma refused_query_renderable (query : str) :
  forallb renderable
    (if AgentExecutionRequest.query_ok query then []
     else [AgentExecutionRequest.InStr query])
  = forallb is_scalar query.
Proof.
  unfold AgentExecutionRequest.query_ok. cbv zeta.
  destruct (forallb is_scalar query) eqn:E; [|cbn; by rewrite E].
  destruct (true && _); cbn; [reflexivity|by rewrite E].
Qed.

Lemma refused_float_renderable (v : float) :
  forallb renderable
    (if XYPadPosition.in_unit v then [] else [AgentExecutionRequest.InFloat v])
  = F64.is_finite v.
Proof.
  destruct (F64.is_finite v) eqn:E.
  - destruct (XYPadPosition.in_unit v); cbn; [reflexivity|by rewrite E].
  - rewrite (not_finite_not_in_unit v E). cbn. by rewrite E.
Qed.

Lemma refused_role_renderable (agent_role : option str) :
  forallb renderable
    match agent_role with
    | None => []
    | Some s =>
        match AgentRole.of_str s with
        | Some _ => []
        | None => [AgentExecutionRequest.InStr s]
        end
    end
  = from_option (forallb is_scalar) true agent_role.
Proof.
  destruct agent_role as [s|]; [|reflexivity]. cbn [from_option].
  destruct (AgentRole.of_str s) as [role|] eqn:E.
  - by rewrite (of_str_scalar s role E).
  - cbn. apply andb_true_r.
Qed.

(** The answer to a body that fails validation: 422 when the position is
    made of finite numbers and neither the query nor the role holds a
    lone surrogate, 500 otherwise. *)
Lemma validation_response_rendered {A : Type} (body : raw_request) :
  @validation_response A body
  = if forallb is_scalar (raw_query body)
       && F64.is_finite (raw_x body) && F64.is_finite (raw_y body)
       && from_option (forallb is_scalar) true (raw_agent_role body)
    then Unprocessable else ServerError.
Proof.
  unfold validation_response, AgentExecutionRequest.refused.
  rewrite !forallb_app, refused_query_renderable, !refused_float_renderable,
    refused_role_renderable, !andb_assoc.
  reflexivity.
Qed.

(** The error list is empty exactly when the body is accepted. *)
Lemma validate_ok_iff_nothing_refused (body : raw_request) :
  (exists request, AgentExecutionRequest.validate body = Ok request)
  <-> AgentExecutionRequest.refused body = [].
Proof.
  unfold AgentExecutionRequest.validate, AgentExecutionRequest.refused, XYPadPosition.validate.
  destruct (AgentExecutionRequest.query_ok (raw_query body)); cbn [negb app];
    [|split; [intros [request H]|intros H]; discriminate H].
  destruct (XYPadPosition.in_unit (raw_x body)); cbn [andb app rbind];
    [|split; [intros [request H]|intros H]; discriminate H].
  destruct (XYPadPosition.in_unit (raw_y body)); cbn [andb app rbind];
    [|split; [intros [request H]|intros H]; discriminate H].
  destruct (raw_agent_role body) as [s|]; [|split; eauto].
  destruct (AgentRole.of_str s) as [role|]; [split; eauto|].
  split; [intros [request H]|intros H]; discriminate H.
Qed.

(** C9, as the code has it: a preview or an execute request whose density
    or creativity is outside \[0,1\], NaN and the infinities included,
    fails validation and is answered before its handler runs: the
    position is not used, no execution record is created, and the state
    of the process is as before. The answer is the validation error, 422,
    when both values are finite numbers and neither the query nor the
    role holds a lone surrogate; otherwise the validation error cannot be
    rendered and the answer is 500. *)
Theorem out_of_range_position_rejected
    (body : raw_request) (uuid4 : N) (now : datetime) (w : world) :
  XYPadPosition.in_unit (raw_x body) = false \/ XYPadPosition.in_unit (raw_y body) = false ->
  let rendered :=
    forallb is_scalar (raw_query body)
    && F64.is_finite (raw_x body) && F64.is_finite (raw_y body)
    && from_option (forallb is_scalar) true (raw_agent_role body) in
  AgentExecutionRequest.validate body = Raise validation_error
  /\ post_preview body w = (if rendered then Unprocessable else ServerError, w)
  /\ post_execute uuid4 now body w = (if rendered then Unprocessable else ServerError, w).
Proof.
  intros H rendered.
  assert (AgentExecutionRequest.validate body = Raise validation_error) as Hv.
  { unfold AgentExecutionRequest.validate.
    destruct (negb _); [reflexivity|].
    unfold XYPadPosition.validate.
    assert (XYPadPosition.in_unit (raw_x body) && XYPadPosition.in_unit (raw_y body) = false)
      as -> by (destruct H as [-> | ->]; [reflexivity|apply andb_false_r]).
    reflexivity. }
  split; [exact Hv|].
  unfold post_preview, post_execute. rewrite Hv, !validation_response_rendered.
  split; reflexivity.
Qed.

(** A density of 1.5 is answered 422. *)
Lemma out_of_range_position_rejected_witness :
  let body := mk_raw (u "Analyze Q4 risk") (F64.dec 15 1) (F64.dec 5 1) (Some (u "analyst")) in
  let w := Scenario.world_of Scenario.pending in
  post_preview body w = (Unprocessable, w)
  /\ post_execute 3 Scenario.now body w = (Unprocessable, w).
Proof.
  intros body w.
  exact (proj2 (out_of_range_position_rejected body 3 Scenario.now w (or_introl eq_refl))).
Defined.

(** The claim C9 fails on a position that is not a finite number, which a
    JSON body can hold: a density of NaN is outside the interval and the
    request is refused, but what the caller gets is not the validation
    error: the answer is 500. The same happens to a density of 1.5 sent
    with a query that holds a lone surrogate. *)
Lemma unrenderable_rejection_is_answered_500 :
  let w := Scenario.world_of Scenario.pending in
  let nan_density :=
    mk_raw (u "Analyze Q4 risk") S754_nan (F64.dec 5 1) (Some (u "analyst")) in
  let surrogate_query := mk_raw [0xD800%N] (F64.dec 15 1) (F64.dec 5 1) None in
  XYPadPosition.in_unit (raw_x nan_density) = false
  /\ post_preview nan_density w = (ServerError, w)
  /\ post_execute 3 Scenario.now nan_density w = (ServerError, w)
  /\ post_preview nan_density w <> (Unprocessable, w)
  /\ XYPadPosition.in_unit (raw_x surrogate_query) = false
  /\ post_preview surrogate_query w = (ServerError, w)
  /\ post_execute 3 Scenario.now surrogate_query w = (ServerError, w).
Proof.
  intros w nan_density surrogate_query.
  assert (post_preview nan_density w = (ServerError, w)) as Hp by reflexivity.
  split; [reflexivity|]. split; [exact Hp|]. split; [reflexivity|].
  split; [rewrite Hp; discriminate|].
  split; [reflexivity|]. split; reflexivity.
Qed.

(** A request within range is served: the guard above is the only one. *)
Lemma in_range_request_creates_execution :
  let body := mk_raw (u "Analyze Q4 risk") (F64.dec 1 1) (F64.dec 1 1) (Some (u "analyst")) in
  exists r w',
    post_execute 1 Scenario.now body (mk_world ∅ ∅) = (Returns r, w')
    /\ status <$> executions w' !! resp_execution_id r = Some (u "pending").
Proof.
  intros body. unfold post_execute.
  assert (AgentExecutionRequest.validate body = Ok Scenario.request) as ->
    by (vm_compute; reflexivity).
  unfold execute_agent. rewrite build_prompt_components_eq.
  assert (forall c, PromptEngine.temperature c = PromptEngine.get_temperature (F64.dec 1 1) ->
                    PromptComponents.validate c = Ok c) as Hc.
  { intros c Hc. unfold PromptComponents.validate. rewrite Hc. reflexivity. }
  rewrite Hc by reflexivity.
  eexists _, _. split; [reflexivity|].
  cbn [resp_execution_id executions]. rewrite lookup_insert_eq. reflexivity.
Qed.

(** C3 does not hold of every run of the backend that ends without an
    exception: when the disk refuses the content file, the two fragments
    are relayed and the stream ends with an [error] event, not a
    [complete] one; the record is in status [error] and nothing is stored. *)
Lemma clean_run_can_end_in_error :
  (forall prompt temperature n,
     GeminiClient.raised (GeminiClient.stream_generate Scenario.hello_world prompt temperature n)
     = None)
  /\ exists w',
       serve_stream Scenario.execution_id Scenario.env_disk_full
         (Scenario.world_of Scenario.pending)
       = Streamed [SSE.token (u "Hello"); SSE.token (u " world");
                   SSE.error (u "No space left on device")] w' None
       /\ status <$> executions w' !! Scenario.execution_id = Some (u "error")
       /\ storage w' = ∅.
Proof.
  split; [reflexivity|].
  destruct scenario_full_prompt as (fp & Hfp & _).
  pose proof (scenario_lookup Scenario.pending) as Hex.
  eexists. split.
  { rewrite (serve_stream_cases _ Scenario.env_disk_full _ _ fp Hex Hfp). cbv zeta.
    change (GeminiClient.raised _) with (@None exn).
    unfold ArtifactManager.save_artifact.
    change (ArtifactManager.content_write (faults Scenario.env_disk_full))
      with (Some (ArtifactManager.OpenFails (mk_exn OSError (u "No space left on device")))).
    cbv iota. reflexivity. }
  cbn [executions storage]. rewrite lookup_insert_eq. split; reflexivity.
Qed.

(** C2 names the status of a failed execution [errored]; the record of a
    stream whose backend raised after one fragment has the status [error],
    as every failed stream has. And a failed save is not without trace:
    when the write of the metadata file fails, the content file stays in
    the storage with the whole output, and the identifier drawn, unknown
    before, now fails validation; it does not read back as an artifact. *)
Lemma failed_stream_status_is_error :
  (exists w',
     serve_stream Scenario.execution_id (Scenario.env_of Scenario.breaks_after_one)
       (Scenario.world_of Scenario.pending)
     = Streamed [SSE.token (u "Hello"); SSE.error (u "Gemini API error: quota exceeded")] w' None
     /\ status <$> executions w' !! Scenario.execution_id = Some (u "error")
     /\ status <$> executions w' !! Scenario.execution_id <> Some (u "errored"))
  /\ (exists w',
        serve_stream Scenario.execution_id Scenario.env_metadata_lost
          (Scenario.world_of Scenario.pending)
        = Streamed [SSE.token (u "Hello"); SSE.token (u " world");
                    SSE.error (u "No space left on device")] w' None
        /\ storage w' !! ArtifactManager.filename_of Scenario.uuid Scenario.now (u "markdown")
           = Some (ArtifactManager.Text (flat_map encode_cp (u "Hello world")))
        /\ get_artifact (ArtifactManager.artifact_id_of Scenario.uuid)
             (Scenario.world_of Scenario.pending)
           = Raise (mk_exn FileNotFoundError
                      (u "Artifact " ++ ArtifactManager.artifact_id_of Scenario.uuid
                       ++ u " not found"))
        /\ get_artifact (ArtifactManager.artifact_id_of Scenario.uuid) w'
           = Raise validation_error).
Proof.
  destruct scenario_full_prompt as (fp & Hfp & _).
  pose proof (scenario_lookup Scenario.pending) as Hex.
  split.
  - eexists. split.
    { rewrite (serve_stream_cases _ (Scenario.env_of Scenario.breaks_after_one) _ _ fp Hex Hfp).
      cbv zeta.
      change (GeminiClient.raised _)
        with (Some (mk_exn Exception (u "Gemini API error: " ++ u "quota exceeded"))).
      cbv iota. reflexivity. }
    cbn [executions]. rewrite lookup_insert_eq.
    split; [reflexivity|].
    intros H. vm_compute in H. discriminate H.
  - eexists. split.
    { rewrite (serve_stream_cases _ Scenario.env_metadata_lost _ _ fp Hex Hfp). cbv zeta.
      change (GeminiClient.raised _) with (@None exn).
      change (concat (GeminiClient.yielded _)) with (u "Hello world").
      reflexivity. }
    cbn [storage]. split; [|split; [reflexivity|]].
    + rewrite lookup_insert_ne by (symmetry; apply filename_not_metadata_path).
      apply lookup_insert_eq.
    + unfold get_artifact, ArtifactManager.get_artifact. cbn [storage].
      by rewrite lookup_insert_eq.
Qed.

End Streaming.

(* ===================================================================== *)
(** * The client of the remote model *)
(* ===================================================================== *)

Section Client.
Import GeminiClient.

(** ** The relay of a streaming response *)

Lemma relay_chunks_chunks (texts : list str) :
  relay_chunks (Chunk <$> texts) = mk_run (filter (fun t => t <> []) texts) None.
Proof.
  induction texts as [|t ts IH]; [reflexivity|].
  cbn [fmap list_fmap relay_chunks]. change (list_fmap _ _ Chunk ts) with (Chunk <$> ts).
  rewrite IH. cbn [yielded raised].
  destruct t as [|c t]; [reflexivity|].
  rewrite filter_cons_True by discriminate. reflexivity.
Qed.

Lemma relay_chunks_fails (texts : list str) (e : exn) (rest : list item) :
  relay_chunks ((Chunk <$> texts) ++ Fails e :: rest)
  = mk_run (filter (fun t => t <> []) texts)
      (Some (mk_exn Exception (u "Gemini API error: " ++ exc_str e))).
Proof.
  induction texts as [|t ts IH]; [reflexivity|].
  cbn [fmap list_fmap relay_chunks app]. change (list_fmap _ _ Chunk ts) with (Chunk <$> ts).
  rewrite IH. cbn [yielded raised].
  destruct t as [|c t]; [reflexivity|].
  rewrite filter_cons_True by discriminate. reflexivity.
Qed.

Lemma concat_filter_nonempty (texts : list str) :
  concat (filter (fun t => t <> []) texts) = concat texts.
Proof.
  induction texts as [|t ts IH]; [reflexivity|].
  destruct t as [|c t].
  - rewrite filter_cons_False by (intros H; by apply H). exact IH.
  - rewrite filter_cons_True by discriminate. cbn [concat]. by rewrite IH.
Qed.

(** Every response is a run of chunks, followed or not by a failure. *)
Lemma response_shape (response : list item) :
  (exists texts, response = Chunk <$> texts)
  \/ (exists texts e rest, response = (Chunk <$> texts) ++ Fails e :: rest).
Proof.
  induction response as [|[t|e] r IH].
  - left. by exists [].
  - destruct IH as [(ts & ->)|(ts & e & rest & ->)].
    + left. by exists (t :: ts).
    + right. by exists (t :: ts), e, rest.
  - right. by exists [], e, r.
Qed.

Lemma yielded_nonempty (response : list item) :
  Forall (fun t => t <> []) (yielded (relay_chunks response)).
Proof.
  destruct (response_shape response) as [(ts & ->)|(ts & e & rest & ->)].
  - rewrite relay_chunks_chunks. cbn [yielded].
    apply Forall_forall. intros t Ht. by apply list_elem_of_filter in Ht as [? _].
  - rewrite relay_chunks_fails. cbn [yielded].
    apply Forall_forall. intros t Ht. by apply list_elem_of_filter in Ht as [? _].
Qed.

(** X1: [stream_generate] yields the texts of the chunks the model
    delivers, in their order, leaving out the empty ones, so that no
    fragment it yields is empty and the concatenation of the fragments is
    the concatenation of the chunks. When the response raises, the chunks
    delivered before are yielded first, and the run then ends with an
    [Exception] whose text is the text of the cause after the prefix
    [Gemini API error: ]; what the response holds after the failure is
    not read. *)
Theorem stream_generate_relays
    (model : backend) (prompt : str) (temperature : float) (max_output_tokens : Z) :
  let response := model prompt temperature max_output_tokens in
  let run := stream_generate model prompt temperature max_output_tokens in
  Forall (fun t => t <> []) (yielded run)
  /\ (forall texts,
        response = Chunk <$> texts ->
        run = mk_run (filter (fun t => t <> []) texts) None
        /\ concat (yielded run) = concat texts)
  /\ (forall texts e rest,
        response = (Chunk <$> texts) ++ Fails e :: rest ->
        run = mk_run (filter (fun t => t <> []) texts)
                (Some (mk_exn Exception (u "Gemini API error: " ++ exc_str e)))
        /\ concat (yielded run) = concat texts).
Proof.
  intros response run. subst response run. unfold stream_generate.
  split; [apply yielded_nonempty|].
  split.
  - intros texts ->. rewrite relay_chunks_chunks. split; [reflexivity|].
    apply concat_filter_nonempty.
  - intros texts e rest ->. rewrite relay_chunks_fails. split; [reflexivity|].
    apply concat_filter_nonempty.
Qed.

(** ** White space and code fences *)

Lemma lstrip_spaces (ws s : str) :
  forallb is_space ws = true -> lstrip (ws ++ s) = lstrip s.
Proof.
  induction ws as [|c ws IH]; [reflexivity|].
  cbn [forallb app lstrip]. intros H. apply andb_prop in H as [-> H]. exact (IH H).
Qed.

Lemma lstrip_head (c : N) (s : str) : is_space c = false -> lstrip (c :: s) = c :: s.
Proof. cbn [lstrip]. by intros ->. Qed.

Lemma length_lstrip (s : str) : length (lstrip s) <= length s.
Proof.
  induction s as [|c s IH]; [reflexivity|].
  cbn [lstrip]. destruct (is_space c); cbn [length]; lia.
Qed.

Lemma forallb_reverse {A} (f : A -> bool) (l : list A) :
  forallb f (reverse l) = forallb f l.
Proof.
  induction l as [|a l IH]; [reflexivity|].
  rewrite reverse_cons, forallb_app, IH. cbn [forallb]. rewrite andb_true_r. apply andb_comm.
Qed.

Lemma rstrip_spaces (s ws : str) :
  forallb is_space ws = true -> rstrip (s ++ ws) = rstrip s.
Proof.
  intros H. unfold rstrip. rewrite reverse_app, lstrip_spaces; [reflexivity|].
  by rewrite forallb_reverse.
Qed.

Lemma rstrip_last (s : str) (d : N) : is_space d = false -> rstrip (s ++ [d]) = s ++ [d].
Proof.
  intros H. unfold rstrip. rewrite reverse_app. cbn [reverse rev_append app].
  change (rev_append [] [d]) with [d]. cbn [app].
  rewrite (lstrip_head _ _ H). rewrite reverse_cons, reverse_involutive. reflexivity.
Qed.

Lemma length_rstrip (s : str) : length (rstrip s) <= length s.
Proof.
  unfold rstrip. rewrite length_reverse.
  etransitivity; [apply length_lstrip|]. by rewrite length_reverse.
Qed.

(** A text that [strip] leaves as it is has no white space at either end. *)
Lemma strip_fixed (b : str) :
  strip b = b ->
  lstrip b = b /\ rstrip b = b
  /\ (forall ws, forallb is_space ws = true -> rstrip (b ++ ws) = b).
Proof.
  intros H.
  assert (lstrip b = b) as Hl.
  { destruct b as [|c b]; [reflexivity|]. cbn [lstrip]. destruct (is_space c) eqn:Hc; [|reflexivity].
    exfalso. apply (f_equal length) in H. unfold strip in H. cbn [lstrip length] in H.
    rewrite Hc in H. pose proof (length_rstrip (lstrip b)). pose proof (length_lstrip b). lia. }
  assert (rstrip b = b) as Hr by (unfold strip in H; by rewrite Hl in H).
  split; [exact Hl|]. split; [exact Hr|].
  intros ws Hws. by rewrite rstrip_spaces.
Qed.

Lemma strip_pad (ws1 b ws2 : str) :
  forallb is_space ws1 = true -> forallb is_space ws2 = true ->
  strip b = b -> strip (ws1 ++ b ++ ws2) = b.
Proof.
  intros H1 H2 Hb. destruct (strip_fixed b Hb) as (Hl & Hr & Hpad).
  unfold strip. rewrite (lstrip_spaces _ _ H1).
  destruct b as [|c b].
  - cbn [app]. replace (lstrip ws2) with (@nil N); [reflexivity|].
    clear -H2. induction ws2 as [|c ws IH]; [reflexivity|].
    cbn [forallb lstrip] in *. apply andb_prop in H2 as [-> H]. exact (IH H).
  - assert (is_space c = false) as Hc.
    { cbn [lstrip] in Hl. destruct (is_space c); [|reflexivity].
      exfalso. apply (f_equal length) in Hl. pose proof (length_lstrip b). cbn [length] in Hl. lia. }
    cbn [app]. rewrite (lstrip_head _ _ Hc). exact (Hpad ws2 H2).
Qed.

(** A text that begins and ends with a code point that is not white space
    is left as it is. *)
Lemma strip_ends (c d : N) (s : str) :
  is_space c = false -> is_space d = false -> strip (c :: s ++ [d]) = c :: s ++ [d].
Proof.
  intros Hc Hd. unfold strip. rewrite (lstrip_head _ _ Hc).
  exact (rstrip_last (c :: s) d Hd).
Qed.

Lemma startswith_app (p s : str) : startswith (p ++ s) p = true.
Proof. unfold startswith. apply bool_decide_eq_true_2. by rewrite take_app_length. Qed.

Lemma startswith_head (c d : N) (s p : str) : c <> d -> startswith (c :: s) (d :: p) = false.
Proof.
  intros H. unfold startswith. apply bool_decide_eq_false_2. cbn [length take]. congruence.
Qed.

Lemma endswith_app (s p : str) : endswith (s ++ p) p = true.
Proof.
  unfold endswith. apply bool_decide_eq_true_2. rewrite length_app.
  replace (length s + length p - length p) with (length s) by lia.
  by rewrite drop_app_length.
Qed.

Lemma startswith_longer (s p q : str) : startswith s p = false -> startswith s (p ++ q) = false.
Proof.
  unfold startswith. intros H. apply bool_decide_eq_false in H. apply bool_decide_eq_false_2.
  intros E. apply H. apply (f_equal (take (length p))) in E.
  rewrite take_take, length_app, take_app_length in E.
  replace (length p `min` (length p + length q)) with (length p) in E by lia. exact E.
Qed.

Lemma space_not_backtick (c : N) : is_space c = true -> c <> 96%N.
Proof. intros H ->. discriminate H. Qed.

Lemma space_not_j (c : N) : is_space c = true -> c <> 106%N.
Proof. intros H ->. discriminate H. Qed.

Lemma clean_bare (ws1 b ws2 : str) :
  forallb is_space ws1 = true -> forallb is_space ws2 = true ->
  strip b = b -> startswith b (u "```") = false -> endswith b (u "```") = false ->
  clean_response (ws1 ++ b ++ ws2) = b.
Proof.
  intros H1 H2 Hb Hs He. unfold clean_response.
  rewrite (strip_pad _ _ _ H1 H2 Hb).
  change (u "```json") with (u "```" ++ u "json").
  rewrite (startswith_longer _ _ _ Hs), Hs, He. exact Hb.
Qed.

Lemma clean_fenced (tag ws1 ws2 b ws3 ws4 : str) :
  tag = u "json" \/ tag = [] ->
  forallb is_space ws1 = true -> forallb is_space ws2 = true ->
  forallb is_space ws3 = true -> forallb is_space ws4 = true ->
  ws2 <> [] -> strip b = b ->
  clean_response (ws1 ++ (u "```" ++ tag ++ ws2 ++ b ++ ws3 ++ u "```") ++ ws4) = b.
Proof.
  intros Htag H1 H2 H3 H4 Hne Hb. unfold clean_response.
  assert (strip (ws1 ++ (u "```" ++ tag ++ ws2 ++ b ++ ws3 ++ u "```") ++ ws4)
          = u "```" ++ tag ++ ws2 ++ b ++ ws3 ++ u "```") as ->.
  { apply (strip_pad _ _ _ H1 H4).
    change (u "```" ++ tag ++ ws2 ++ b ++ ws3 ++ u "```")
      with (96%N :: (u "``" ++ tag ++ ws2 ++ b ++ ws3 ++ u "```")).
    replace (u "``" ++ tag ++ ws2 ++ b ++ ws3 ++ u "```")
      with ((u "``" ++ tag ++ ws2 ++ b ++ ws3 ++ u "``") ++ [96%N])
      by (rewrite <- !app_assoc; reflexivity).
    apply strip_ends; reflexivity. }
  destruct ws2 as [|w ws2]; [congruence|].
  cbn [forallb] in H2. apply andb_prop in H2 as [Hw H2].
  assert (startswith (w :: ws2 ++ b ++ ws3 ++ u "```") (u "```") = false) as Hno.
  { apply startswith_head. by apply space_not_backtick. }
  assert (forall t, endswith (t ++ u "```") (u "```") = true
                    /\ take (length (t ++ u "```") - 3) (t ++ u "```") = t) as Hend.
  { intros t. split; [apply endswith_app|].
    rewrite length_app. change (length (u "```")) with 3.
    replace (length t + 3 - 3) with (length t) by lia. apply take_app_length. }
  assert (strip ((w :: ws2) ++ b ++ ws3) = b) as Hfin.
  { apply strip_pad; [cbn [forallb]; by rewrite Hw, H2|exact H3|exact Hb]. }
  destruct Htag as [-> | ->].
  - change (u "```" ++ u "json" ++ (w :: ws2) ++ b ++ ws3 ++ u "```")
      with (u "```json" ++ (w :: ws2 ++ b ++ ws3 ++ u "```")).
    rewrite startswith_app.
    replace (drop 7 (u "```json" ++ (w :: ws2 ++ b ++ ws3 ++ u "```")))
      with (w :: ws2 ++ b ++ ws3 ++ u "```") by reflexivity.
    rewrite Hno.
    replace (w :: ws2 ++ b ++ ws3 ++ u "```") with (((w :: ws2) ++ b ++ ws3) ++ u "```")
      by (rewrite <- !app_assoc; reflexivity).
    destruct (Hend ((w :: ws2) ++ b ++ ws3)) as [-> ->]. exact Hfin.
  - cbn [app].
    assert (startswith (u "```" ++ (w :: ws2 ++ b ++ ws3 ++ u "```")) (u "```json") = false) as ->.
    { unfold startswith. apply bool_decide_eq_false_2. intros E.
      cbn in E. injection E as E _. by apply (space_not_j w). }
    change (u "```" ++ (w :: ws2) ++ b ++ ws3 ++ u "```")
      with (u "```" ++ (w :: ws2 ++ b ++ ws3 ++ u "```")).
    rewrite startswith_app.
    replace (drop 3 (u "```" ++ (w :: ws2 ++ b ++ ws3 ++ u "```")))
      with (w :: ws2 ++ b ++ ws3 ++ u "```") by reflexivity.
    replace (w :: ws2 ++ b ++ ws3 ++ u "```") with (((w :: ws2) ++ b ++ ws3) ++ u "```")
      by (rewrite <- !app_assoc; reflexivity).
    destruct (Hend ((w :: ws2) ++ b ++ ws3)) as [-> ->]. exact Hfin.
Qed.

(** X2: the cleaning of the model's answer in [generate_agent_config].
    For a body with no white space at either end, an answer that wraps the
    body in a code fence, opened by three backticks alone or followed by
    [json], then white space, and closed by three backticks, with white
    space allowed around the fence and before its close, is cleaned to the
    body; so is the body alone between white space when it neither starts
    nor ends with three backticks. The text handed to [json.loads] is then
    the body, and the call ends as the parse of the body decides. *)
Theorem clean_response_strips_fences (ws1 ws2 ws3 ws4 body : str) :
  forallb is_space ws1 = true -> forallb is_space ws2 = true ->
  forallb is_space ws3 = true -> forallb is_space ws4 = true ->
  ws2 <> [] -> strip body = body ->
  let fenced_json := ws1 ++ u "```json" ++ ws2 ++ body ++ ws3 ++ u "```" ++ ws4 in
  let fenced := ws1 ++ u "```" ++ ws2 ++ body ++ ws3 ++ u "```" ++ ws4 in
  clean_response fenced_json = body
  /\ clean_response fenced = body
  /\ (startswith body (u "```") = false -> endswith body (u "```") = false ->
      clean_response (ws1 ++ body ++ ws4) = body)
  /\ forall (loads : str -> loaded) (user_goal : str),
       generate_agent_config (fun _ _ _ => Ok fenced_json) loads user_goal
       = match loads body with
         | Parsed config => Returned config
         | JSONDecodeError _ => Returned (fallback_config user_goal)
         | LoadRaises e =>
             Raised (mk_exn Exception (u "Failed to generate agent config: " ++ exc_str e))
         end.
Proof.
  intros H1 H2 H3 H4 Hne Hb fenced_json fenced.
  assert (clean_response fenced_json = body) as Hj.
  { subst fenced_json.
    replace (ws1 ++ u "```json" ++ ws2 ++ body ++ ws3 ++ u "```" ++ ws4)
      with (ws1 ++ (u "```" ++ u "json" ++ ws2 ++ body ++ ws3 ++ u "```") ++ ws4)
      by (rewrite <- !app_assoc; reflexivity).
    apply clean_fenced; auto. }
  split; [exact Hj|].
  split.
  { subst fenced.
    replace (ws1 ++ u "```" ++ ws2 ++ body ++ ws3 ++ u "```" ++ ws4)
      with (ws1 ++ (u "```" ++ [] ++ ws2 ++ body ++ ws3 ++ u "```") ++ ws4)
      by (rewrite <- !app_assoc; reflexivity).
    apply clean_fenced; auto. }
  split; [intros Hs He; by apply clean_bare|].
  intros loads user_goal. unfold generate_agent_config, generate. by rewrite Hj.
Qed.

(** An answer in a fence of its own lines. *)
Lemma clean_response_strips_fences_witness :
  clean_response ([] ++ u "```json" ++ nl ++ u "{}" ++ nl ++ u "```" ++ []) = u "{}".
Proof.
  exact (proj1 (clean_response_strips_fences [] nl nl [] (u "{}") eq_refl eq_refl eq_refl eq_refl
                  (fun E : nl = [] => eq_ind nl (fun l => match l with [] => False | _ => True end)
                                        I [] E)
                  eq_refl)).
Defined.

End Client.

(* ===================================================================== *)
(** * The events on the wire *)
(* ===================================================================== *)

Section Wire.

Lemma hexdigit_printable (n : N) : (n < 16)%N -> (32 <= hexdigit n <= 126)%N.
Proof.
  unfold hexdigit. intros H. destruct (n <? 10)%N eqn:E; [apply N.ltb_lt in E|]; lia.
Qed.

Lemma hex_digits_printable (k : nat) (n : N) :
  Forall (fun c => 32 <= c <= 126)%N (hex_digits k n).
Proof.
  revert n. induction k as [|k IH]; intros n; [constructor|].
  cbn [hex_digits]. apply Forall_app. split; [apply IH|].
  constructor; [|constructor]. apply hexdigit_printable. apply N.mod_upper_bound. lia.
Qed.

Lemma printable_literal (l : str) :
  forallb (fun c => (32 <=? c)%N && (c <=? 126)%N) l = true ->
  Forall (fun c => 32 <= c <= 126)%N l.
Proof.
  induction l as [|c l IH]; [constructor|].
  cbn [forallb]. intros H. apply andb_prop in H as [Hc H].
  apply andb_prop in Hc as [H1 H2]. apply N.leb_le in H1, H2.
  constructor; [split; assumption|exact (IH H)].
Qed.

Lemma escape_cp_printable (c : N) : Forall (fun c => 32 <= c <= 126)%N (escape_cp c).
Proof.
  unfold escape_cp.
  destruct (c =? 34)%N; [apply printable_literal; reflexivity|].
  destruct (c =? 92)%N; [apply printable_literal; reflexivity|].
  destruct (c =? 10)%N; [apply printable_literal; reflexivity|].
  destruct (c =? 13)%N; [apply printable_literal; reflexivity|].
  destruct (c =? 9)%N; [apply printable_literal; reflexivity|].
  destruct (c =? 12)%N; [apply printable_literal; reflexivity|].
  destruct (c =? 8)%N; [apply printable_literal; reflexivity|].
  destruct ((32 <=? c)%N && (c <=? 126)%N) eqn:E.
  { apply printable_literal. cbn [forallb]. by rewrite E. }
  destruct (c <? 65536)%N; cbv zeta.
  - apply Forall_app. split; [apply printable_literal; reflexivity|apply hex_digits_printable].
  - apply Forall_app. split; [apply printable_literal; reflexivity|].
    apply Forall_app. split; [apply hex_digits_printable|].
    apply Forall_app. split; [apply printable_literal; reflexivity|apply hex_digits_printable].
Qed.

Lemma dumps_str_printable (s : str) : Forall (fun c => 32 <= c <= 126)%N (dumps_str s).
Proof.
  unfold dumps_str. apply Forall_app. split; [apply printable_literal; reflexivity|].
  apply Forall_app. split; [|apply printable_literal; reflexivity].
  induction s as [|c s IH]; [constructor|].
  cbn [flat_map]. apply Forall_app. split; [apply escape_cp_printable|exact IH].
Qed.

Lemma dumps_singleton_printable (key value : str) :
  Forall (fun c => 32 <= c <= 126)%N (dumps_singleton key value).
Proof.
  unfold dumps_singleton.
  apply Forall_app. split; [apply printable_literal; reflexivity|].
  apply Forall_app. split; [apply dumps_str_printable|].
  apply Forall_app. split; [apply printable_literal; reflexivity|].
  apply Forall_app. split; [apply dumps_str_printable|apply printable_literal; reflexivity].
Qed.

Lemma length_hex_digits (k : nat) (n : N) : length (hex_digits k n) = k.
Proof.
  revert n. induction k as [|k IH]; intros n; [reflexivity|].
  cbn [hex_digits]. rewrite length_app, IH. cbn [length]. lia.
Qed.

Lemma length_escape_cp (c : N) : 1 <= length (escape_cp c) <= 12.
Proof.
  unfold escape_cp.
  repeat (match goal with |- context [if ?b then _ else _] => destruct b end; [cbn; lia|]).
  destruct (c <? 65536)%N; cbv zeta; rewrite ?length_app, ?length_hex_digits; cbn [length]; lia.
Qed.

Lemma length_flat_map_escape (s : str) :
  length s <= length (flat_map escape_cp s) <= 12 * length s.
Proof.
  induction s as [|c s IH]; [cbn; lia|].
  cbn [flat_map]. rewrite length_app. pose proof (length_escape_cp c). cbn [length]. lia.
Qed.

(** X4: the text of a [token] event and of an [error] event is the line
    naming the event, one line of data and an empty line. Whatever the
    fragment or the message holds, line feeds, quotes and code points
    beyond ASCII included, the data is made of printable ASCII characters
    only, so it holds no line feed of its own and the frame cannot be
    broken; it is between one and twelve characters per code point of the
    text, plus the fifteen, or thirteen, of the JSON object around it. *)
Theorem sse_frames_are_single_lines (text : str) :
  exists data_token data_error,
    SSE.token_frame text = u "event: token" ++ nl ++ u "data: " ++ data_token ++ nl ++ nl
    /\ SSE.error_frame text = u "event: error" ++ nl ++ u "data: " ++ data_error ++ nl ++ nl
    /\ Forall (fun c => 32 <= c <= 126)%N data_token
    /\ Forall (fun c => 32 <= c <= 126)%N data_error
    /\ length text + 15 <= length data_token <= 12 * length text + 15
    /\ length text + 13 <= length data_error <= 12 * length text + 13.
Proof.
  exists (dumps_singleton (u "content") text), (dumps_singleton (u "error") text).
  split; [reflexivity|]. split; [reflexivity|].
  split; [apply dumps_singleton_printable|]. split; [apply dumps_singleton_printable|].
  pose proof (length_flat_map_escape text).
  unfold dumps_singleton, dumps_str. rewrite !length_app.
  change (length (flat_map escape_cp (u "content"))) with 7.
  change (length (flat_map escape_cp (u "error"))) with 5.
  change (length dq) with 1. change (length (u "{")) with 1. change (length (u "}")) with 1.
  change (length (u ": ")) with 2. lia.
Qed.

End Wire.

(* ===================================================================== *)
(** * More on the artifact store *)
(* ===================================================================== *)

Section Store.
Import ArtifactManager.

(** ** The size of the content *)

Lemma length_encode_cp (c : N) : 1 <= length (encode_cp c) <= 4.
Proof. unfold encode_cp. repeat (destruct (_ <? _)%N; [cbn; lia|]). cbn. lia. Qed.

Lemma length_encode_cp_ascii (c : N) : (c < 128)%N -> length (encode_cp c) = 1.
Proof. intros H. unfold encode_cp. apply N.ltb_lt in H. by rewrite H. Qed.

Lemma length_encode (s : str) :
  length s <= length (flat_map encode_cp s) <= 4 * length s.
Proof.
  induction s as [|c s IH]; [cbn; lia|].
  cbn [flat_map]. rewrite length_app. pose proof (length_encode_cp c). cbn [length]. lia.
Qed.

Lemma length_encode_ascii (s : str) :
  Forall (fun c => c < 128)%N s -> length (flat_map encode_cp s) = length s.
Proof.
  induction 1 as [|c s Hc _ IH]; [reflexivity|].
  cbn [flat_map]. rewrite length_app, IH, (length_encode_cp_ascii c Hc). reflexivity.
Qed.

(** The metadata and the files of a concrete save. *)
Lemma save_risk_note :
  let now := mk_datetime 2024 12 1 10 30 59 123456 in
  let m := ArtifactMetadata.mk (artifact_id_of 7) (filename_of 7 now (u "markdown"))
             (u "# Risk") now (u "markdown") 6 (u "analyst") in
  save_artifact 7 now no_faults (u "# Risk") (u "analyst") (u "markdown") ∅
  = (Ok m,
     <[artifact_id_of 7 ++ u "_meta.json" := Json m]>
       (<[filename_of 7 now (u "markdown") := Text (flat_map encode_cp (u "# Risk"))]> ∅)).
Proof.
  intros now m.
  exact (save_artifact_ok 7 now (u "# Risk") (u "analyst") (u "markdown") ∅
           markdown_file_type eq_refl eq_refl).
Qed.

(** X5: the size a returned [save_artifact] records is the number of
    bytes of the content file it wrote: at least one byte and at most
    four for each code point of the content, and exactly one for each
    when the content is ASCII. *)
Theorem size_bytes_bounds
    (uuid4 : N) (now : datetime) (faults : io_faults)
    (content agent_role file_type : str) (dir dir' : gmap str file) (m : ArtifactMetadata.t) :
  save_artifact uuid4 now faults content agent_role file_type dir = (Ok m, dir') ->
  (Z.of_nat (length content) <= ArtifactMetadata.size_bytes m <= 4 * Z.of_nat (length content))%Z
  /\ (Forall (fun c => c < 128)%N content ->
      ArtifactMetadata.size_bytes m = Z.of_nat (length content))
  /\ exists data,
       dir' !! ArtifactMetadata.filename m = Some (Text data)
       /\ encode_utf8 content = Ok data
       /\ ArtifactMetadata.size_bytes m = Z.of_nat (length data).
Proof.
  intros H. destruct (save_artifact_returns _ _ _ _ _ _ _ _ _ H) as (Hm & Hdir & Henc).
  pose proof (length_encode content) as Hb.
  rewrite Hm. cbn [ArtifactMetadata.size_bytes ArtifactMetadata.filename].
  split; [lia|]. split; [intros Ha; by rewrite (length_encode_ascii _ Ha)|].
  exists (flat_map encode_cp content). split; [|split; [exact Henc|reflexivity]].
  rewrite Hdir. rewrite lookup_insert_ne by (symmetry; apply filename_not_metadata_path).
  apply lookup_insert_eq.
Qed.

(** A note of six ASCII characters takes six bytes. *)
Lemma size_bytes_bounds_witness :
  exists m dir',
    save_artifact 7 (mk_datetime 2024 12 1 10 30 59 123456) no_faults
      (u "# Risk") (u "analyst") (u "markdown") ∅ = (Ok m, dir')
    /\ ArtifactMetadata.size_bytes m = 6%Z.
Proof.
  eexists _, _. split; [exact save_risk_note|].
  destruct (size_bytes_bounds _ _ _ _ _ _ _ _ _ save_risk_note) as (_ & Hascii & _).
  apply Hascii. repeat constructor.
Defined.

(** ** What a save leaves alone *)

Lemma metadata_path_inj (a b : str) : a ++ u "_meta.json" = b ++ u "_meta.json" -> a = b.
Proof. apply app_inv_tail. Qed.

Lemma save_artifact_files
    (uuid4 : N) (now : datetime) (faults : io_faults)
    (content agent_role file_type : str) (dir dir' : gmap str file)
    (r : result ArtifactMetadata.t) (name : str) :
  save_artifact uuid4 now faults content agent_role file_type dir = (r, dir') ->
  name <> filename_of uuid4 now file_type ->
  name <> artifact_id_of uuid4 ++ u "_meta.json" ->
  dir' !! name = dir !! name.
Proof.
  intros H N1 N2. unfold save_artifact in H.
  fold (artifact_id_of uuid4) in H. fold (filename_of uuid4 now file_type) in H.
  assert (forall (f : file) (d : gmap str file),
            <[filename_of uuid4 now file_type := f]> d !! name = d !! name) as H1
    by (intros f d; by rewrite lookup_insert_ne).
  assert (forall (g : file) (d : gmap str file),
            <[artifact_id_of uuid4 ++ u "_meta.json" := g]> d !! name = d !! name) as H2
    by (intros g d; by rewrite lookup_insert_ne).
  destruct (content_write faults) as [[e0|e0 reached0]|].
  - by injection H as _ <-.
  - destruct (encode_utf8 content); injection H as _ <-; apply H1.
  - destruct (encode_utf8 content) as [data|e1]; [|injection H as _ <-; apply H1].
    destruct (ArtifactMetadata.validate _) as [m|e2]; [|injection H as _ <-; apply H1].
    destruct (metadata_write faults) as [[e3|e3 reached3]|];
      [injection H as _ <-; apply H1| |];
      destruct (ArtifactMetadata.serializable m); injection H as _ <-; by rewrite H2, H1.
Qed.

Lemma save_artifact_frame
    (uuid4 : N) (now : datetime) (faults : io_faults)
    (content agent_role file_type : str) (dir dir' : gmap str file)
    (r : result ArtifactMetadata.t) (artifact_id : str) :
  save_artifact uuid4 now faults content agent_role file_type dir = (r, dir') ->
  artifact_id <> artifact_id_of uuid4 ->
  get_artifact artifact_id dir' = get_artifact artifact_id dir.
Proof.
  intros H Hne. unfold get_artifact.
  rewrite (save_artifact_files _ _ _ _ _ _ _ _ _ (artifact_id ++ u "_meta.json") H);
    [reflexivity| |].
  - intros E. symmetry in E. exact (filename_not_metadata_path _ _ _ _ E).
  - intros E. apply Hne. exact (metadata_path_inj _ _ E).
Qed.

(** X6: [save_artifact] writes no file but the content file and the
    metadata file of the identifier it draws. Whether it returns or
    raises, every other file of the directory is as before, and every
    other identifier reads back, or fails to, exactly as before. *)
Theorem save_artifact_writes_two_files
    (uuid4 : N) (now : datetime) (faults : io_faults)
    (content agent_role file_type : str) (dir dir' : gmap str file)
    (r : result ArtifactMetadata.t) :
  save_artifact uuid4 now faults content agent_role file_type dir = (r, dir') ->
  (forall name,
     name <> filename_of uuid4 now file_type ->
     name <> artifact_id_of uuid4 ++ u "_meta.json" ->
     dir' !! name = dir !! name)
  /\ (forall other,
        other <> artifact_id_of uuid4 -> get_artifact other dir' = get_artifact other dir).
Proof.
  intros H. split.
  - intros name. exact (save_artifact_files _ _ _ _ _ _ _ _ _ name H).
  - intros other. exact (save_artifact_frame _ _ _ _ _ _ _ _ _ other H).
Qed.

(** A save into an empty directory leaves an identifier that was not
    drawn unknown. *)
Lemma save_artifact_writes_two_files_witness :
  exists e,
    get_artifact (u "art_ffffffffffff")
      (save_artifact 7 (mk_datetime 2024 12 1 10 30 59 123456) no_faults
         (u "# Risk") (u "analyst") (u "markdown") ∅).2
    = Raise e
    /\ exc_type e = FileNotFoundError.
Proof.
  destruct (save_artifact 7 (mk_datetime 2024 12 1 10 30 59 123456) no_faults
              (u "# Risk") (u "analyst") (u "markdown") ∅) as [r dir'] eqn:H.
  destruct (save_artifact_writes_two_files _ _ _ _ _ _ _ _ _ H) as [_ Hother].
  cbn [snd]. rewrite (Hother (u "art_ffffffffffff")).
  - eexists. split; reflexivity.
  - intros E. vm_compute in E. discriminate E.
Defined.

(** ** Deleting *)

Lemma delete_artifact_absent (artifact_id : str) (dir : gmap str file) :
  dir !! (artifact_id ++ u "_meta.json") = None ->
  delete_artifact artifact_id dir = (Ok false, dir).
Proof. unfold delete_artifact. by intros ->. Qed.

Lemma delete_artifact_present (artifact_id : str) (m : ArtifactMetadata.t) (dir : gmap str file) :
  dir !! (artifact_id ++ u "_meta.json") = Some (Json m) ->
  ArtifactMetadata.filename m <> artifact_id ++ u "_meta.json" ->
  delete_artifact artifact_id dir
  = (Ok true, delete (artifact_id ++ u "_meta.json") (delete (ArtifactMetadata.filename m) dir)).
Proof.
  intros H Hne. unfold delete_artifact. rewrite H.
  assert (match dir !! ArtifactMetadata.filename m with
          | Some _ => delete (ArtifactMetadata.filename m) dir
          | None => dir
          end = delete (ArtifactMetadata.filename m) dir) as ->.
  { destruct (dir !! ArtifactMetadata.filename m) eqn:E; [reflexivity|].
    symmetry. by apply delete_id. }
  unfold unlink. rewrite lookup_delete_ne by exact Hne. rewrite H. reflexivity.
Qed.

Lemma delete_artifact_true (artifact_id : str) (dir dir' : gmap str file) :
  delete_artifact artifact_id dir = (Ok true, dir') ->
  dir' !! (artifact_id ++ u "_meta.json") = None.
Proof.
  unfold delete_artifact. intros H.
  destruct (dir !! (artifact_id ++ u "_meta.json")) as [[data|m]|]; try discriminate H.
  unfold unlink in H.
  destruct (_ !! (artifact_id ++ u "_meta.json")) eqn:E; [|discriminate H].
  injection H as <-. apply lookup_delete_eq.
Qed.

(** The deletion of the concrete save above. *)
Lemma delete_risk_note :
  let now := mk_datetime 2024 12 1 10 30 59 123456 in
  let saved := (save_artifact 7 now no_faults (u "# Risk") (u "analyst") (u "markdown") ∅).2 in
  delete_artifact (artifact_id_of 7) saved = (Ok true, ∅).
Proof.
  intros now saved. subst saved now.
  pose proof save_risk_note as Hsave. cbv zeta in Hsave. rewrite Hsave. cbn [snd].
  rewrite (delete_artifact_present (artifact_id_of 7) _ _ (lookup_insert_eq _ _ _)).
  - cbn [ArtifactMetadata.filename].
    rewrite delete_insert_ne by apply filename_not_metadata_path.
    rewrite !delete_insert_eq, !delete_empty. reflexivity.
  - cbn [ArtifactMetadata.filename]. apply filename_not_metadata_path.
Qed.

(** X7: a [delete_artifact] that returns [True] is final. The artifact
    could be read before; after it, [get_artifact] on the identifier
    raises [FileNotFoundError] with the text [Artifact <id> not found],
    a second deletion returns [False] and changes nothing, and the
    deletion has only removed files: every file left was there before,
    with the same content. *)
Theorem delete_artifact_is_final (artifact_id : str) (dir dir' : gmap str file) :
  delete_artifact artifact_id dir = (Ok true, dir') ->
  delete_artifact artifact_id dir' = (Ok false, dir')
  /\ get_artifact artifact_id dir'
     = Raise (mk_exn FileNotFoundError (u "Artifact " ++ artifact_id ++ u " not found"))
  /\ (exists m, get_artifact artifact_id dir = Ok m)
  /\ dir' ⊆ dir.
Proof.
  intros H. pose proof (delete_artifact_true _ _ _ H) as Hnone.
  split; [by apply delete_artifact_absent|].
  split; [unfold get_artifact; by rewrite Hnone|].
  unfold delete_artifact in H. unfold get_artifact.
  destruct (dir !! (artifact_id ++ u "_meta.json")) as [[data|m]|]; try discriminate H.
  split; [by exists m|].
  unfold unlink in H.
  destruct (_ !! (artifact_id ++ u "_meta.json")) eqn:E; [|discriminate H].
  injection H as <-.
  etransitivity; [apply delete_subseteq|].
  destruct (dir !! ArtifactMetadata.filename m); [apply delete_subseteq|reflexivity].
Qed.

(** The note saved above, deleted, is deleted once. *)
Lemma delete_artifact_is_final_witness :
  delete_artifact (artifact_id_of 7) ∅ = (Ok false, ∅)
  /\ get_artifact (artifact_id_of 7) ∅
     = Raise (mk_exn FileNotFoundError (u "Artifact " ++ artifact_id_of 7 ++ u " not found")).
Proof.
  destruct (delete_artifact_is_final _ _ _ delete_risk_note) as (H1 & H2 & _).
  split; [exact H1|exact H2].
Defined.

(** X8: deleting what [save_artifact] has just saved returns [True] and
    removes the two files the save wrote, and nothing else: the
    identifier no longer reads back, any other identifier reads back as
    before the save, and when neither file name was in use before the
    save the directory is again what it was. *)
Theorem save_then_delete
    (uuid4 : N) (now : datetime) (faults : io_faults)
    (content agent_role file_type : str) (dir dir' : gmap str file) (m : ArtifactMetadata.t) :
  save_artifact uuid4 now faults content agent_role file_type dir = (Ok m, dir') ->
  let artifact_id := ArtifactMetadata.artifact_id m in
  exists dir'',
    delete_artifact artifact_id dir' = (Ok true, dir'')
    /\ dir'' = delete (artifact_id ++ u "_meta.json") (delete (ArtifactMetadata.filename m) dir)
    /\ dir'' !! ArtifactMetadata.filename m = None
    /\ dir'' !! (artifact_id ++ u "_meta.json") = None
    /\ (dir !! ArtifactMetadata.filename m = None ->
        dir !! (artifact_id ++ u "_meta.json") = None -> dir'' = dir)
    /\ (forall other, other <> artifact_id -> get_artifact other dir'' = get_artifact other dir).
Proof.
  intros H artifact_id. subst artifact_id.
  destruct (save_artifact_returns _ _ _ _ _ _ _ _ _ H) as (Hm & Hdir & _).
  set (fname := filename_of uuid4 now file_type) in *.
  set (mpath := artifact_id_of uuid4 ++ u "_meta.json") in *.
  assert (ArtifactMetadata.artifact_id m = artifact_id_of uuid4) as Hid by (by rewrite Hm).
  assert (ArtifactMetadata.filename m = fname) as Hfn by (by rewrite Hm).
  assert (fname <> mpath) as Hne by apply filename_not_metadata_path.
  rewrite Hid, Hfn. fold mpath.
  assert (delete mpath (delete fname dir') = delete mpath (delete fname dir)) as Hdel.
  { rewrite Hdir. rewrite delete_insert_ne by exact Hne.
    by rewrite !delete_insert_eq. }
  eexists. split.
  { rewrite (delete_artifact_present (artifact_id_of uuid4) m dir').
    - rewrite Hfn. fold mpath. reflexivity.
    - rewrite Hdir. apply lookup_insert_eq.
    - rewrite Hfn. exact Hne. }
  rewrite Hdel.
  split; [reflexivity|].
  split; [rewrite lookup_delete_ne by (by apply not_eq_sym); apply lookup_delete_eq|].
  split; [apply lookup_delete_eq|].
  split; [intros H1 H2; rewrite (delete_id _ _ H1); by apply delete_id|].
  intros other Hother. unfold get_artifact.
  rewrite lookup_delete_ne by (intros E; apply Hother; symmetry; exact (metadata_path_inj _ _ E)).
  rewrite lookup_delete_ne by apply filename_not_metadata_path. reflexivity.
Qed.

(** The note saved into an empty directory and deleted leaves it empty. *)
Lemma save_then_delete_witness :
  exists m dir',
    save_artifact 7 (mk_datetime 2024 12 1 10 30 59 123456) no_faults
      (u "# Risk") (u "analyst") (u "markdown") ∅ = (Ok m, dir')
    /\ delete_artifact (ArtifactMetadata.artifact_id m) dir' = (Ok true, ∅).
Proof.
  eexists _, _. split; [exact save_risk_note|].
  destruct (save_then_delete _ _ _ _ _ _ _ _ _ save_risk_note)
    as (dir'' & Hdel & _ & _ & _ & Hback & _).
  rewrite Hdel. f_equal. apply Hback; apply lookup_empty.
Defined.

(** ** The shape of the identifiers *)

Lemma hexdigit_lower (n : N) :
  (n < 16)%N -> (48 <= hexdigit n <= 57)%N \/ (97 <= hexdigit n <= 102)%N.
Proof.
  unfold hexdigit. intros H. destruct (n <? 10)%N eqn:E.
  - apply N.ltb_lt in E. left. lia.
  - apply N.ltb_ge in E. right. lia.
Qed.

Lemma hex_digits_lower (k : nat) (n : N) :
  Forall (fun c => (48 <= c <= 57)%N \/ (97 <= c <= 102)%N) (hex_digits k n).
Proof.
  revert n. induction k as [|k IH]; intros n; [constructor|].
  cbn [hex_digits]. apply Forall_app. split; [apply IH|].
  constructor; [|constructor]. apply hexdigit_lower. apply N.mod_upper_bound. lia.
Qed.

Lemma length_strftime (ts : datetime) : length (strftime ts) = 15.
Proof. reflexivity. Qed.

(** X9: the identifiers have a fixed shape. From one drawn value both
    [save_artifact] and [execute_agent] take the first twelve of its
    hexadecimal digits, in lower case: an artifact identifier is [art_]
    followed by them and an execution identifier [exec_] followed by
    them. The content file is named by the identifier, an underscore, the
    fifteen characters of the time stamp, a dot and one of the extensions
    md, json and txt. *)
Theorem identifiers_have_a_fixed_shape (uuid4 : N) :
  exists h,
    length h = 12
    /\ Forall (fun c => (48 <= c <= 57)%N \/ (97 <= c <= 102)%N) h
    /\ artifact_id_of uuid4 = u "art_" ++ h
    /\ (forall now faults content agent_role file_type dir m dir',
          save_artifact uuid4 now faults content agent_role file_type dir = (Ok m, dir') ->
          ArtifactMetadata.artifact_id m = u "art_" ++ h
          /\ length (strftime now) = 15
          /\ exists ext,
               ext ∈ [u "md"; u "json"; u "txt"]
               /\ ArtifactMetadata.filename m
                  = u "art_" ++ h ++ u "_" ++ strftime now ++ u "." ++ ext)
    /\ (forall now request w r w',
          Main.execute_agent uuid4 now request w = (Main.Returns r, w') ->
          Main.resp_execution_id r = u "exec_" ++ h
          /\ Main.stream_url r = u "/api/v1/agent/stream/exec_" ++ h).
Proof.
  exists (take 12 (uuid_hex uuid4)).
  split; [rewrite length_take; unfold uuid_hex; rewrite length_hex_digits; reflexivity|].
  split; [apply Forall_take; apply hex_digits_lower|].
  split; [reflexivity|].
  split.
  - intros now faults content agent_role file_type dir m dir' H.
    destruct (save_artifact_returns _ _ _ _ _ _ _ _ _ H) as (Hm & _ & _).
    rewrite Hm. cbn [ArtifactMetadata.artifact_id ArtifactMetadata.filename].
    split; [reflexivity|]. split; [reflexivity|].
    exists (dict_get extensions file_type (u "txt")). split; [apply extension_cases|].
    unfold filename_of, artifact_id_of. by rewrite <- !app_assoc.
  - intros now request w r w' H. unfold Main.execute_agent in H.
    destruct (PromptEngine.build_prompt_components _ _ _ _) as [c|e]; [|discriminate H].
    destruct (PromptComponents.validate c) as [checked|e]; [|discriminate H].
    assert (r = Main.mk_response (u "exec_" ++ take 12 (uuid_hex uuid4)) checked
                  (u "/api/v1/agent/stream/" ++ u "exec_" ++ take 12 (uuid_hex uuid4)))
      as -> by congruence.
    cbn [Main.resp_execution_id Main.stream_url]. split; reflexivity.
Qed.

End Store.

(* ===================================================================== *)
(** * The range of the temperature *)
(* ===================================================================== *)

Section TemperatureRange.
Open Scope Z_scope.

Lemma shr_1_div (mrs : shr_record) :
  0 <= shr_m mrs -> shr_m (shr_1 mrs) = shr_m mrs / 2.
Proof.
  destruct mrs as [m r s]. cbn [shr_m]. intros H.
  destruct m as [|[p|p|]|p]; cbn [shr_1 shr_m]; try lia.
  - reflexivity.
  - change (Z.pos p~1) with (2 * Z.pos p + 1). apply (Z.div_unique _ _ _ 1); lia.
  - change (Z.pos p~0) with (2 * Z.pos p). apply (Z.div_unique _ _ _ 0); lia.
  - reflexivity.
Qed.

Lemma iter_shr_1_div (n : positive) (mrs : shr_record) :
  0 <= shr_m mrs -> shr_m (SpecFloat.iter_pos shr_1 n mrs) = shr_m mrs / 2 ^ Zpos n.
Proof.
  revert mrs. induction n as [n IH|n IH|]; intros mrs H; cbn [SpecFloat.iter_pos].
  - assert (0 <= shr_m (shr_1 mrs)) as H1 by (rewrite shr_1_div by lia; apply Z.div_pos; lia).
    assert (0 <= shr_m (SpecFloat.iter_pos shr_1 n (shr_1 mrs))) as H2
      by (rewrite IH by lia; apply Z.div_pos; [lia|apply Z.pow_pos_nonneg; lia]).
    rewrite IH, IH, shr_1_div by lia.
    rewrite !Z.div_div by (try apply Z.pow_pos_nonneg; lia).
    f_equal. change (Z.pos n~1) with (2 * Z.pos n + 1).
    replace (2 * Z.pos n + 1) with (1 + Z.pos n + Z.pos n) by lia.
    rewrite !Z.pow_add_r by lia. lia.
  - assert (0 <= shr_m (SpecFloat.iter_pos shr_1 n mrs)) as H2
      by (rewrite IH by lia; apply Z.div_pos; [lia|apply Z.pow_pos_nonneg; lia]).
    rewrite IH, IH by lia.
    rewrite !Z.div_div by (try apply Z.pow_pos_nonneg; lia).
    f_equal. change (Z.pos n~0) with (2 * Z.pos n).
    replace (2 * Z.pos n) with (Z.pos n + Z.pos n) by lia.
    rewrite !Z.pow_add_r by lia. lia.
  - rewrite shr_1_div by lia. reflexivity.
Qed.

(** The mantissa and the exponent a shift to the exponent of the format
    leaves. *)
Lemma shr_fexp_div (m e : Z) (l : location) :
  0 <= m ->
  let e' := Z.max e (fexp prec emax (Zdigits2 m + e)) in
  shr_m (fst (shr_fexp prec emax m e l)) = m / 2 ^ (e' - e)
  /\ snd (shr_fexp prec emax m e l) = e'.
Proof.
  intros H e'. unfold shr_fexp, shr.
  destruct (fexp prec emax (Zdigits2 m + e) - e) as [|p|p] eqn:E; cbn [fst snd].
  - rewrite shr_m_of_loc. replace (e' - e) with 0 by lia. rewrite Z.div_1_r. split; lia.
  - rewrite iter_shr_1_div by (rewrite shr_m_of_loc; lia). rewrite shr_m_of_loc.
    replace (e' - e) with (Z.pos p) by lia. split; lia.
  - rewrite shr_m_of_loc. replace (e' - e) with 0 by lia. rewrite Z.div_1_r. split; lia.
Qed.

(** What the rounding of a positive mantissa returns: the mantissa is
    divided down to the exponent of the format, moved up by at most one,
    and divided once more when that carried into a further digit. *)
Lemma binary_round_aux_spec (mx ex : Z) (lx : location) :
  0 <= mx ->
  let e1 := Z.max ex (fexp prec emax (Zdigits2 mx + ex)) in
  let m' := mx / 2 ^ (e1 - ex) in
  exists m1,
    m' <= m1 <= m' + 1
    /\ let e2 := Z.max e1 (fexp prec emax (Zdigits2 m1 + e1)) in
       binary_round_aux prec emax false mx ex lx =
       match m1 / 2 ^ (e2 - e1) with
       | Z0 => S754_zero false
       | Zpos m => if e2 <=? emax - prec then S754_finite false m e2 else S754_infinity false
       | Zneg _ => S754_nan
       end.
Proof.
  intros H e1 m'. unfold binary_round_aux.
  destruct (shr_fexp_div mx ex lx H) as [Hm He]. fold e1 in Hm, He. fold m' in Hm.
  destruct (shr_fexp prec emax mx ex lx) as [mrs' e']. cbn [fst snd] in Hm, He. subst e'.
  assert (0 <= m') as Hm' by (apply Z.div_pos; [lia|apply Z.pow_pos_nonneg; lia]).
  pose proof (round_nearest_even_bounds (shr_m mrs') (loc_of_shr_record mrs') ltac:(lia)) as Hr.
  set (m1 := round_nearest_even (shr_m mrs') (loc_of_shr_record mrs')) in *.
  exists m1. split; [lia|]. cbv zeta.
  destruct (shr_fexp_div m1 e1 loc_Exact ltac:(lia)) as [Hm2 He2].
  destruct (shr_fexp prec emax m1 e1 loc_Exact) as [mrs'' e'']. cbn [fst snd] in Hm2, He2.
  rewrite Hm2, He2. reflexivity.
Qed.

Lemma Zdigits2_unique (m d : Z) : 0 < d -> 2 ^ (d - 1) <= m < 2 ^ d -> Zdigits2 m = d.
Proof.
  intros Hd [H1 H2].
  assert (0 < m) as Hm by (pose proof (Z.pow_pos_nonneg 2 (d - 1)); lia).
  destruct m as [|p|p]; try lia. rewrite Zdigits2_log2.
  rewrite (Z.log2_unique (Z.pos p) (d - 1)); [lia|lia|].
  replace (Z.succ (d - 1)) with d by lia. lia.
Qed.

Lemma pos_iter_xO (d m : positive) : Z.pos (Pos.iter xO m d) = Z.pos m * 2 ^ Z.pos d.
Proof.
  induction d as [|d IH] using Pos.peano_ind.
  - cbn [Pos.iter]. change (Z.pos m~0) with (2 * Z.pos m). lia.
  - rewrite Pos.iter_succ. change (Z.pos (Pos.iter xO m d)~0) with (2 * Z.pos (Pos.iter xO m d)).
    rewrite IH, Pos2Z.inj_succ, Z.pow_succ_r by lia. lia.
Qed.

Lemma shl_align_fst (m : positive) (e e' : Z) :
  e' <= e -> Z.pos (fst (shl_align m e e')) = Z.pos m * 2 ^ (e - e').
Proof.
  intros H. unfold shl_align. destruct (e' - e) as [|p|p] eqn:E; cbn [fst].
  - replace (e - e') with 0 by lia. lia.
  - lia.
  - rewrite pos_iter_xO. f_equal. f_equal. lia.
Qed.

(** The product of a number below one by the literal 0.7 is a zero or a
    number that is not above 0.7. *)
Lemma mul_07_spec (my : positive) (ey : Z) :
  Z.pos my < 2 ^ 53 -> ey <= -53 ->
  let ex := ey - 53 in
  let r := SFmul prec emax (S754_finite false my ey) (S754_finite false 6305039478318694 (-53)) in
  r = S754_zero false
  \/ exists mR eR,
       r = S754_finite false mR eR /\ ex <= eR <= -53
       /\ Z.pos mR * 2 ^ (eR - ex) <= 6305039478318694 * 2 ^ (-53 - ex).
Proof.
  intros Hmy Hey ex r. subst r. unfold SFmul. cbn [xorb].
  replace (ey + -53) with ex by (subst ex; lia).
  destruct (binary_round_aux_spec (Z.pos (my * 6305039478318694)) ex loc_Exact ltac:(lia))
    as (m1 & Hm1 & Heq).
  rewrite Heq. clear Heq.
  set (c := 6305039478318694) in *.
  set (mx := Z.pos (my * 6305039478318694)) in *.
  assert (mx = Z.pos my * c) as Hmx by (subst mx c; lia).
  assert (c < 2 ^ 53) as Hc by (subst c; reflexivity).
  assert (0 < c) as Hc0 by (subst c; reflexivity).
  assert (Zdigits2 mx <= 106) as Hd.
  { apply Zdigits2_bound; [|lia]. split; [lia|].
    replace 106 with (53 + 53) by lia. rewrite Z.pow_add_r by lia. rewrite Hmx. nia. }
  pose proof (Zdigits2_nonneg mx) as Hd0.
  set (e1 := Z.max ex (fexp prec emax (Zdigits2 mx + ex))) in *.
  assert (ex <= e1 <= -53) as He1.
  { subst e1 ex. unfold fexp, emin, prec, emax. lia. }
  set (k := e1 - ex) in *.
  set (P := 2 ^ k) in *.
  assert (0 < P) as HP by (apply Z.pow_pos_nonneg; subst k; lia).
  set (C := c * 2 ^ (-53 - e1)).
  assert (c * 2 ^ (-53 - ex) = C * P) as HCP.
  { subst C P k. rewrite <- Z.mul_assoc, <- Z.pow_add_r by lia. f_equal. f_equal. lia. }
  assert (mx < C * P) as Hlt.
  { rewrite <- HCP, Hmx.
    assert (2 ^ 53 <= 2 ^ (-53 - ex)) by (apply Z.pow_le_mono_r; subst ex; lia).
    nia. }
  assert (mx / P < C) as Hm' by (apply Z.div_lt_upper_bound; [lia|nia]).
  assert (0 <= mx / P) as Hm'0 by (apply Z.div_pos; lia).
  assert (C < 2 ^ (- e1)) as HC.
  { subst C. replace (- e1) with (53 + (-53 - e1)) by lia. rewrite Z.pow_add_r by lia.
    assert (0 < 2 ^ (-53 - e1)) by (apply Z.pow_pos_nonneg; lia). nia. }
  assert (Zdigits2 m1 <= - e1) as Hd1 by (apply Zdigits2_bound; lia).
  pose proof (Zdigits2_nonneg m1) as Hd10.
  cbv zeta.
  set (e2 := Z.max e1 (fexp prec emax (Zdigits2 m1 + e1))) in *.
  assert (e1 <= e2 <= -53) as He2.
  { subst e2. unfold fexp, emin, prec, emax. lia. }
  set (Q := 2 ^ (e2 - e1)) in *.
  assert (0 < Q) as HQ by (apply Z.pow_pos_nonneg; lia).
  pose proof (Z.mul_div_le m1 Q HQ) as Hfl.
  assert (0 <= m1 / Q) as Hm2 by (apply Z.div_pos; lia).
  destruct (m1 / Q) as [|m2|m2] eqn:Em2; [by left| |lia].
  right. exists m2, e2.
  assert ((e2 <=? emax - prec) = true) as -> by (apply Z.leb_le; unfold emax, prec; lia).
  split; [reflexivity|]. split; [lia|].
  rewrite HCP.
  replace (e2 - ex) with ((e2 - e1) + k) by (subst k; lia).
  rewrite Z.pow_add_r by (subst k; lia). fold Q. fold P. nia.
Qed.

Lemma pos_compare_cont_eq (a b : positive) : Pos.compare_cont Eq a b = (a ?= b)%positive.
Proof. reflexivity. Qed.

(** The sum of the literal 0.2 and a number that is not above 0.7. *)
Lemma add_02_spec (mR : positive) (eR z : Z) :
  z <= eR -> z <= -55 ->
  Z.pos mR * 2 ^ (eR - z) <= 6305039478318694 * 2 ^ (-53 - z) ->
  exists m2 e2,
    SFadd prec emax (S754_finite false 7205759403792794 (-55)) (S754_finite false mR eR)
    = S754_finite false m2 e2
    /\ -55 <= e2 <= -53
    /\ (e2 = -55 -> 7205759403792794 <= Z.pos m2)
    /\ (e2 = -53 -> Z.pos m2 <= 8106479329266893).
Proof.
  intros Hz Hz55 Hval. unfold SFadd. cbn [cond_Zopp].
  set (ez := Z.min (-55) eR).
  assert (z <= ez <= -55) as Hez by (subst ez; lia).
  pose proof (shl_align_fst 7205759403792794 (-55) ez ltac:(lia)) as Ha.
  pose proof (shl_align_fst mR eR ez ltac:(lia)) as Hb.
  set (pa := fst (shl_align 7205759403792794 (-55) ez)) in *.
  set (pb := fst (shl_align mR eR ez)) in *.
  change (Z.pos pa + Z.pos pb) with (Z.pos (pa + pb)).
  cbn [binary_normalize]. unfold binary_round.
  set (q := -55 - ez) in *.
  set (P := 2 ^ q) in *.
  assert (0 < P) as HP by (apply Z.pow_pos_nonneg; subst q; lia).
  set (c := 6305039478318694) in *.
  assert (Z.pos pb <= 4 * c * P) as Hb'.
  { set (Q := 2 ^ (ez - z)).
    assert (0 < Q) as HQ by (apply Z.pow_pos_nonneg; lia).
    assert (Z.pos mR * 2 ^ (eR - z) = Z.pos pb * Q) as E1.
    { rewrite Hb. subst Q. rewrite <- Z.mul_assoc, <- Z.pow_add_r by lia. f_equal. f_equal. lia. }
    assert (c * 2 ^ (-53 - z) = 4 * c * P * Q) as E2.
    { subst P Q q. replace (-53 - z) with (2 + (-55 - ez) + (ez - z)) by lia.
      rewrite !Z.pow_add_r by lia. change (2 ^ 2) with 4. lia. }
    rewrite E1, E2 in Hval. nia. }
  set (mz := Z.pos (pa + pb)) in *.
  assert (mz = Z.pos pa + Z.pos pb) as Hmz by (subst mz; lia).
  assert (7205759403792794 * P <= mz <= 32425917317067570 * P) as Hbounds.
  { rewrite Hmz, Ha. fold P. subst c. lia. }
  set (d := Zdigits2 mz) in *.
  assert (0 < mz) as Hmz0 by (subst mz; lia).
  pose proof (Zdigits2_lower mz Hmz0) as Hlo. pose proof (Zdigits2_upper mz ltac:(lia)) as Hup.
  fold d in Hlo, Hup.
  assert (0 <= q) as Hq by (subst q; lia).
  assert (53 + q <= d <= 55 + q) as Hd.
  { split.
    - assert (2 ^ (52 + q) < 2 ^ d) as H.
      { rewrite Z.pow_add_r by lia. fold P. change (2 ^ 52) with 4503599627370496. lia. }
      apply Z.pow_lt_mono_r_iff in H; [lia|lia|].
      destruct (Z.le_gt_cases 0 d) as [?|Hneg]; [assumption|].
      rewrite (Z.pow_neg_r 2 d Hneg) in Hup. lia.
    - assert (2 ^ (d - 1) < 2 ^ (55 + q)) as H.
      { rewrite (Z.pow_add_r 2 55 q) by lia. fold P. change (2 ^ 55) with 36028797018963968. lia. }
      apply Z.pow_lt_mono_r_iff in H; lia. }
  assert (fexp prec emax (Z.pos (digits2_pos (pa + pb)) + ez) = d + ez - 53) as Hfexp.
  { change (Z.pos (digits2_pos (pa + pb))) with (Zdigits2 mz). fold d.
    unfold fexp, emin, prec, emax. subst q. lia. }
  rewrite Hfexp.
  assert (shl_align (pa + pb) ez (d + ez - 53) = ((pa + pb)%positive, ez)) as ->.
  { unfold shl_align. destruct (d + ez - 53 - ez) eqn:E; try reflexivity. subst q. lia. }
  destruct (binary_round_aux_spec mz ez loc_Exact ltac:(lia)) as (m1 & Hm1 & Heq).
  fold mz. rewrite Heq. clear Heq. cbv zeta.
  assert (Z.max ez (fexp prec emax (Zdigits2 mz + ez)) = d + ez - 53) as He1.
  { fold d. unfold fexp, emin, prec, emax. subst q. lia. }
  rewrite He1 in *.
  set (e1 := d + ez - 53) in *.
  set (k := e1 - ez) in *.
  assert (k = d - 53) as Hk by (subst k e1; lia).
  set (K := 2 ^ k) in *.
  assert (0 < K) as HK by (apply Z.pow_pos_nonneg; lia).
  assert (2 ^ (d - 1) = 4503599627370496 * K) as Hlo'.
  { subst K. replace (d - 1) with (52 + k) by lia. rewrite Z.pow_add_r by lia. reflexivity. }
  assert (2 ^ d = 9007199254740992 * K) as Hup'.
  { subst K. replace d with (53 + k) at 1 by lia. rewrite Z.pow_add_r by lia. reflexivity. }
  assert (4503599627370496 <= mz / K < 9007199254740992) as Hm'.
  { split; [apply Z.div_le_lower_bound; lia|apply Z.div_lt_upper_bound; lia]. }
  (* the three positions of the sum *)
  assert (k = q \/ k = q + 1 \/ k = q + 2) as Hcases by lia.
  assert (k = q -> 7205759403792794 <= mz / K) as Hlow.
  { intros E. apply Z.div_le_lower_bound; [lia|]. subst K. rewrite E. fold P. lia. }
  assert (k = q + 2 -> mz / K <= 8106479329266892) as Hhigh.
  { intros E. assert (K = 4 * P) as ->.
    { subst K. rewrite E, Z.pow_add_r by lia. fold P. change (2 ^ 2) with 4. lia. }
    assert (mz / (4 * P) < 8106479329266893); [|lia].
    apply Z.div_lt_upper_bound; lia. }
  destruct (Z.eq_dec m1 9007199254740992) as [Ecarry|Hnc].
  - (* the rounding carried into a further digit *)
    assert (Zdigits2 m1 = 54) as Hd1 by (rewrite Ecarry; reflexivity).
    rewrite Hd1.
    assert (Z.max e1 (fexp prec emax (54 + e1)) = e1 + 1) as ->
      by (unfold fexp, emin, prec, emax; subst e1 q; lia).
    replace (e1 + 1 - e1) with 1 by lia. rewrite Ecarry.
    change (9007199254740992 / 2 ^ 1) with (Z.pos 4503599627370496).
    cbv iota beta.
    assert ((e1 + 1 <=? emax - prec) = true) as ->
      by (apply Z.leb_le; unfold emax, prec; subst e1 q; lia).
    exists 4503599627370496%positive, (e1 + 1).
    split; [reflexivity|].
    assert (k <> q + 2) as Hk2 by (intros E; specialize (Hhigh E); lia).
    split; [subst e1 q; lia|]. split; [subst e1 q; lia|]. lia.
  - assert (Zdigits2 m1 = 53) as Hd1.
    { apply Zdigits2_unique; [lia|]. change (2 ^ (53 - 1)) with 4503599627370496.
      change (2 ^ 53) with 9007199254740992. lia. }
    rewrite Hd1.
    assert (Z.max e1 (fexp prec emax (53 + e1)) = e1) as ->
      by (unfold fexp, emin, prec, emax; subst e1 q; lia).
    replace (e1 - e1) with 0 by lia. rewrite Z.pow_0_r, Z.div_1_r.
    destruct m1 as [|m2|m2]; try lia.
    assert ((e1 <=? emax - prec) = true) as ->
      by (apply Z.leb_le; unfold emax, prec; subst e1 q; lia).
    exists m2, e1. split; [reflexivity|].
    split; [subst e1 q; lia|].
    split.
    + intros E. assert (k = q) as Ek by (subst e1 q; lia). specialize (Hlow Ek). lia.
    + intros E. assert (k = q + 2) as Ek by (subst e1 q; lia). specialize (Hhigh Ek). lia.
Qed.

Lemma of_int_1 : F64.of_int 1 = S754_finite false 4503599627370496 (-52).
Proof. vm_compute. reflexivity. Qed.

Lemma of_int_0 : F64.of_int 0 = S754_zero false.
Proof. vm_compute. reflexivity. Qed.

Lemma in_unit_cases (y : float) :
  valid_binary y = true -> XYPadPosition.in_unit y = true ->
  (exists s, y = S754_zero s)
  \/ y = S754_finite false 4503599627370496 (-52)
  \/ exists my ey, y = S754_finite false my ey /\ Z.pos my < 2 ^ 53 /\ ey <= -53.
Proof.
  intros Hv Hu. unfold XYPadPosition.in_unit in Hu. apply andb_prop in Hu as [H0 H1].
  rewrite of_int_0 in H0. rewrite of_int_1 in H1. unfold F64.leb, SFleb in H0, H1.
  destruct y as [s|s| |s my ey].
  - left. by exists s.
  - destruct s; [discriminate H0|discriminate H1].
  - discriminate H0.
  - right. destruct s; [discriminate H0|].
    unfold valid_binary, SpecFloat.valid_binary, bounded, canonical_mantissa in Hv.
    apply andb_prop in Hv as [Hc _]. apply Z.eqb_eq in Hc.
    unfold fexp, emin, prec, emax in Hc.
    change (Z.pos (digits2_pos my)) with (Zdigits2 (Z.pos my)) in Hc.
    pose proof (Zdigits2_upper (Z.pos my) ltac:(lia)) as Hup.
    pose proof (Zdigits2_lower (Z.pos my) ltac:(lia)) as Hlo.
    cbv beta iota delta [SFcompare] in H1.
    pose proof (Z.compare_spec ey (-52)) as Hs.
    destruct (ey ?= -52); inversion Hs as [E|E|E].
    + left. subst ey.
      assert (Zdigits2 (Z.pos my) = 53) as Hd by (clear - Hc; lia). rewrite Hd in Hlo.
      assert (2 ^ (53 - 1) = 4503599627370496) as Hp by reflexivity.
      rewrite Hp in Hlo.
      rewrite pos_compare_cont_eq in H1.
      pose proof (Pos.compare_spec my 4503599627370496) as Hs2.
      destruct (my ?= 4503599627370496)%positive; inversion Hs2 as [E'|E'|E'].
      * subst my. reflexivity.
      * apply Pos2Z.pos_lt_pos in E'. clear - E' Hlo. lia.
      * discriminate H1.
    + right. exists my, ey. split; [reflexivity|]. split; [|clear - E; lia].
      assert (Zdigits2 (Z.pos my) <= 53) as Hd by (clear - Hc E; lia).
      assert (2 ^ Zdigits2 (Z.pos my) <= 2 ^ 53) as Hpow
        by (apply Z.pow_le_mono_r; [lia|exact Hd]).
      clear - Hup Hpow. lia.
    + discriminate H1.
Qed.

Lemma dec_2_1 : F64.dec 2 1 = S754_finite false 7205759403792794 (-55).
Proof. vm_compute. reflexivity. Qed.

Lemma dec_9_1 : F64.dec 9 1 = S754_finite false 8106479329266893 (-53).
Proof. vm_compute. reflexivity. Qed.

Lemma pos_compare_cont_not_gt (a b : positive) :
  Z.pos a <= Z.pos b -> Pos.compare_cont Eq a b <> Gt.
Proof.
  intros H E. change (Pos.compare_cont Eq a b) with (a ?= b)%positive in E.
  apply Pos.compare_gt_iff, Pos2Z.pos_lt_pos in E. lia.
Qed.

(** The temperature of a creativity of the unit interval lies between
    the literals 0.2 and 0.9, and so in the unit interval. *)
Lemma temperature_bounds (y : float) :
  valid_binary y = true -> XYPadPosition.in_unit y = true ->
  (F64.dec 2 1 <=? PromptEngine.get_temperature y)%f64 = true
  /\ (PromptEngine.get_temperature y <=? F64.dec 9 1)%f64 = true
  /\ XYPadPosition.in_unit (PromptEngine.get_temperature y) = true.
Proof.
  intros Hv Hu. unfold PromptEngine.get_temperature.
  rewrite dec_2_1, dec_9_1, dec_7_1.
  assert (forall m2 e2,
            -55 <= e2 <= -53 ->
            (e2 = -55 -> 7205759403792794 <= Z.pos m2) ->
            (e2 = -53 -> Z.pos m2 <= 8106479329266893) ->
            let t := S754_finite false m2 e2 in
            (S754_finite false 7205759403792794 (-55) <=? t)%f64 = true
            /\ (t <=? S754_finite false 8106479329266893 (-53))%f64 = true
            /\ XYPadPosition.in_unit t = true) as Hfin.
  { intros m2 e2 He Hlo Hhi t. subst t. unfold XYPadPosition.in_unit, F64.leb, SFleb.
    rewrite of_int_1, of_int_0.
    cbv beta iota delta [SFcompare].
    split; [|split].
    - pose proof (Z.compare_spec (-55) e2) as Hs.
      destruct (-55 ?= e2); inversion Hs as [E|E|E]; [|reflexivity|lia].
      pose proof (pos_compare_cont_not_gt 7205759403792794 m2 (Hlo (eq_sym E))) as Hp.
      destruct (Pos.compare_cont Eq 7205759403792794 m2); [reflexivity|reflexivity|congruence].
    - pose proof (Z.compare_spec e2 (-53)) as Hs.
      destruct (e2 ?= -53); inversion Hs as [E|E|E]; [|reflexivity|lia].
      pose proof (pos_compare_cont_not_gt m2 8106479329266893 (Hhi E)) as Hp.
      destruct (Pos.compare_cont Eq m2 8106479329266893); [reflexivity|reflexivity|congruence].
    - pose proof (Z.compare_spec e2 (-52)) as Hs.
      destruct (e2 ?= -52); inversion Hs as [E|E|E]; [lia|reflexivity|lia]. }
  destruct (in_unit_cases y Hv Hu) as [[s ->]|[->|(my & ey & -> & Hmy & Hey)]].
  - destruct s; vm_compute; repeat split; reflexivity.
  - vm_compute. repeat split; reflexivity.
  - pose proof (mul_07_spec my ey Hmy Hey) as Hmul. cbv zeta in Hmul.
    unfold F64.add, F64.mul.
    destruct Hmul as [-> | (mR & eR & -> & HeR & Hval)].
    + vm_compute. repeat split; reflexivity.
    + destruct (add_02_spec mR eR (ey - 53) ltac:(lia) ltac:(lia) Hval)
        as (m2 & e2 & -> & He2 & Hlo & Hhi).
      apply Hfin; assumption.
Qed.

(** X10: for a creativity y that is a binary64 number of \[0,1\], the
    temperature [get_temperature] computes, 0.2 + y * 0.7 with each
    operation rounded, is not below the float 0.2 and not above the float
    0.9, as its description says: the two roundings never carry it out of
    that range. The bundle built for such a creativity therefore passes
    the constraint that [PromptComponents] puts on the temperature. *)
Theorem temperature_range (agent_role : str) (x y : float) (query : str) :
  valid_binary y = true -> XYPadPosition.in_unit y = true ->
  exists c,
    PromptEngine.build_prompt_components agent_role x y query = Ok c
    /\ PromptEngine.temperature c = PromptEngine.get_temperature y
    /\ (F64.dec 2 1 <=? PromptEngine.temperature c)%f64 = true
    /\ (PromptEngine.temperature c <=? F64.dec 9 1)%f64 = true
    /\ PromptComponents.validate c = Ok c.
Proof.
  intros Hv Hu. eexists. split; [apply build_prompt_components_eq|].
  destruct (temperature_bounds y Hv Hu) as (H1 & H2 & Ht).
  cbn [PromptEngine.temperature].
  split; [reflexivity|]. split; [exact H1|]. split; [exact H2|].
  unfold PromptComponents.validate. cbn [PromptEngine.temperature]. by rewrite Ht.
Qed.

(** The middle of the pad: a creativity of 0.5. *)
Lemma temperature_range_witness :
  exists c,
    PromptEngine.build_prompt_components (u "writer") (F64.dec 5 1) (F64.dec 5 1)
      (u "Write about AI trends") = Ok c
    /\ (F64.dec 2 1 <=? PromptEngine.temperature c)%f64 = true
    /\ (PromptEngine.temperature c <=? F64.dec 9 1)%f64 = true.
Proof.
  destruct (temperature_range (u "writer") (F64.dec 5 1) (F64.dec 5 1)
              (u "Write about AI trends") eq_refl eq_refl) as (c & Hc & _ & H1 & H2 & _).
  exists c. split; [exact Hc|]. split; [exact H1|exact H2].
Defined.

End TemperatureRange.

(* ===================================================================== *)
(** * The two POST routes *)
(* ===================================================================== *)

Section Requests.
Import Main.

Lemma role_round_trip (s : str) (role : AgentRole.t) :
  AgentRole.of_str s = Some role -> AgentRole.to_str role = s.
Proof.
  unfold AgentRole.of_str. repeat case_decide; intros [= <-]; by subst.
Qed.

Lemma role_of_str_known (s : str) :
  s ∈ [u "analyst"; u "writer"; u "researcher"] -> is_Some (AgentRole.of_str s).
Proof.
  intros H.
  repeat (apply elem_of_cons in H as [->|H]; [vm_compute; eauto|]).
  by apply elem_of_nil in H.
Qed.

Lemma role_of_str_unknown (s : str) :
  s ∉ [u "analyst"; u "writer"; u "researcher"] -> AgentRole.of_str s = None.
Proof.
  intros H. apply not_elem_of_cons in H as [H1 H].
  apply not_elem_of_cons in H as [H2 H]. apply not_elem_of_cons in H as [H3 _].
  unfold AgentRole.of_str. repeat case_decide; congruence.
Qed.

Lemma base_prompt_of_role (role : AgentRole.t) :
  PromptEngine.BASE_PROMPTS !! AgentRole.to_str role
  = Some (dict_get PromptEngine.BASE_PROMPTS (AgentRole.to_str role) PromptEngine.ANALYST_PROMPT).
Proof. destruct role; vm_compute; reflexivity. Qed.

(** The components of a creativity of the unit interval pass the
    constraint on the temperature. *)
Lemma components_valid (agent_role : str) (x y : float) (query : str) :
  valid_binary y = true -> XYPadPosition.in_unit y = true ->
  exists c,
    PromptEngine.build_prompt_components agent_role x y query = Ok c
    /\ PromptComponents.validate c = Ok c
    /\ PromptEngine.temperature c = PromptEngine.get_temperature y
    /\ PromptEngine.user_query c = query
    /\ PromptEngine.base_prompt c
       = dict_get PromptEngine.BASE_PROMPTS agent_role PromptEngine.ANALYST_PROMPT.
Proof.
  intros Hv Hu. eexists. split; [apply build_prompt_components_eq|].
  destruct (temperature_bounds y Hv Hu) as (_ & _ & Ht).
  unfold PromptComponents.validate. cbn [PromptEngine.temperature]. rewrite Ht.
  repeat split; reflexivity.
Qed.

(** What [validate] makes of a body that meets the constraints. *)
Lemma validate_accepts (body : raw_request) :
  forallb is_scalar (raw_query body) = true ->
  (1 <= Z.of_nat (length (raw_query body)) <= 2000)%Z ->
  XYPadPosition.in_unit (raw_x body) = true ->
  XYPadPosition.in_unit (raw_y body) = true ->
  (forall s, raw_agent_role body = Some s -> s ∈ [u "analyst"; u "writer"; u "researcher"]) ->
  exists role,
    AgentExecutionRequest.validate body
    = Ok (AgentExecutionRequest.mk (raw_query body)
            (XYPadPosition.mk (raw_x body) (raw_y body)) role)
    /\ AgentRole.to_str role = default (u "analyst") (raw_agent_role body).
Proof.
  intros Hsc Hq Hx Hy Hrole. unfold AgentExecutionRequest.validate.
  assert (AgentExecutionRequest.query_ok (raw_query body) = true) as ->.
  { unfold AgentExecutionRequest.query_ok. cbv zeta. rewrite Hsc.
    apply andb_true_intro. split; [reflexivity|].
    apply andb_true_intro. split; apply Z.leb_le; lia. }
  cbn [negb]. unfold XYPadPosition.validate. rewrite Hx, Hy. cbn [andb rbind].
  destruct (raw_agent_role body) as [s|] eqn:Er.
  - destruct (role_of_str_known s (Hrole s eq_refl)) as [role Hs]. rewrite Hs.
    exists role. split; [reflexivity|]. cbn [default]. exact (role_round_trip _ _ Hs).
  - exists AgentRole.analyst. split; reflexivity.
Qed.

Lemma execute_agent_returns
    (uuid4 : N) (now : datetime) (request : AgentExecutionRequest.t) (w : world)
    (c : PromptEngine.components) :
  PromptEngine.build_prompt_components
    (AgentRole.to_str (AgentExecutionRequest.agent_role request))
    (XYPadPosition.x (AgentExecutionRequest.xy_position request))
    (XYPadPosition.y (AgentExecutionRequest.xy_position request))
    (AgentExecutionRequest.query request) = Ok c ->
  PromptComponents.validate c = Ok c ->
  let id := u "exec_" ++ take 12 (uuid_hex uuid4) in
  execute_agent uuid4 now request w
  = (Returns (mk_response id c (u "/api/v1/agent/stream/" ++ id)),
     mk_world (<[id := mk_execution request c (u "pending") now None None]> (executions w))
       (storage w))
  /\ preview_prompt request = Returns c.
Proof.
  intros Hc Hv id. unfold execute_agent, preview_prompt. rewrite Hc. cbn [rbind]. rewrite Hv.
  split; reflexivity.
Qed.

(** X11: a request body that meets the constraints of the request model,
    a query of 1 to 2000 code points, none of them a lone surrogate, a
    position in \[0,1\] on both axes (binary64 numbers, as a JSON body
    gives them) and a role that is absent or one of the three personas,
    is served by both routes and never answered 500: the preview returns the prompt bundle, and the
    execution returns the same bundle, an identifier and the stream
    address built from it, and stores one record for it, in status
    pending, created at the time of the call, over an untouched storage.
    The bundle echoes the query, its base text is the one of the
    requested persona (the fallback of the engine is never taken through
    the routes), and its temperature lies between 0.2 and 0.9. *)
Theorem valid_request_is_served
    (body : raw_request) (uuid4 : N) (now : datetime) (w : world) :
  forallb is_scalar (raw_query body) = true ->
  (1 <= Z.of_nat (length (raw_query body)) <= 2000)%Z ->
  XYPadPosition.in_unit (raw_x body) = true ->
  XYPadPosition.in_unit (raw_y body) = true ->
  valid_binary (raw_y body) = true ->
  (forall s, raw_agent_role body = Some s -> s ∈ [u "analyst"; u "writer"; u "researcher"]) ->
  exists role c,
    let request :=
      AgentExecutionRequest.mk (raw_query body) (XYPadPosition.mk (raw_x body) (raw_y body))
        role in
    let id := u "exec_" ++ take 12 (uuid_hex uuid4) in
    AgentRole.to_str role = default (u "analyst") (raw_agent_role body)
    /\ post_preview body w = (Returns c, w)
    /\ post_execute uuid4 now body w
       = (Returns (mk_response id c (u "/api/v1/agent/stream/" ++ id)),
          mk_world (<[id := mk_execution request c (u "pending") now None None]> (executions w))
            (storage w))
    /\ PromptEngine.user_query c = raw_query body
    /\ PromptEngine.BASE_PROMPTS !! AgentRole.to_str role = Some (PromptEngine.base_prompt c)
    /\ (F64.dec 2 1 <=? PromptEngine.temperature c)%f64 = true
    /\ (PromptEngine.temperature c <=? F64.dec 9 1)%f64 = true.
Proof.
  intros Hs Hq Hx Hy Hv Hrole.
  destruct (validate_accepts body Hs Hq Hx Hy Hrole) as (role & Hval & Hto).
  destruct (components_valid (AgentRole.to_str role) (raw_x body) (raw_y body) (raw_query body)
              Hv Hy) as (c & Hc & Hcv & Ht & Huq & Hb).
  exists role, c. cbv zeta.
  destruct (execute_agent_returns uuid4 now
              (AgentExecutionRequest.mk (raw_query body)
                 (XYPadPosition.mk (raw_x body) (raw_y body)) role) w c Hc Hcv) as [Hex Hpv].
  split; [exact Hto|].
  split; [unfold post_preview; by rewrite Hval, Hpv|].
  split; [unfold post_execute; by rewrite Hval, Hex|].
  split; [exact Huq|].
  split; [rewrite Hb; apply base_prompt_of_role|].
  rewrite Ht. destruct (temperature_bounds _ Hv Hy) as (H1 & H2 & _). by split.
Qed.

(** The body of the scenario, with the role left out. *)
Lemma valid_request_is_served_witness :
  let body := mk_raw (u "Analyze Q4 risk") (F64.dec 1 1) (F64.dec 1 1) None in
  exists c r w',
    post_preview body (mk_world ∅ ∅) = (Returns c, mk_world ∅ ∅)
    /\ post_execute Scenario.uuid Scenario.now body (mk_world ∅ ∅) = (Returns r, w')
    /\ resp_prompt_components r = c
    /\ PromptEngine.BASE_PROMPTS !! u "analyst" = Some (PromptEngine.base_prompt c).
Proof.
  intros body.
  assert (1 <= Z.of_nat (length (raw_query body)) <= 2000)%Z as Hq by (vm_compute; split; discriminate).
  assert (forall s, raw_agent_role body = Some s ->
                    s ∈ [u "analyst"; u "writer"; u "researcher"]) as Hrole by discriminate.
  destruct (valid_request_is_served body Scenario.uuid Scenario.now (mk_world ∅ ∅)
              eq_refl Hq eq_refl eq_refl eq_refl Hrole)
    as (role & c & Hto & Hpv & Hex & _ & Hbase & _).
  cbv zeta in Hex. exists c. eexists _, _.
  split; [exact Hpv|]. split; [exact Hex|]. split; [reflexivity|].
  rewrite <- Hbase. f_equal. exact (eq_sym Hto).
Defined.

(** X12: a request body whose query is empty, longer than 2000 code
    points or holds a lone surrogate, or whose role is given and is none
    of analyst, writer and researcher, fails validation whatever its
    position and is never served: both routes answer before their handler
    runs, no execution record is created and the state of the process is
    as before. The answer is 422 when the position is made of finite
    numbers and neither the query nor the role holds a lone surrogate;
    otherwise the 422 answer cannot be rendered and the answer is 500, as
    it always is for a query with a lone surrogate. *)
Theorem malformed_request_rejected
    (body : raw_request) (uuid4 : N) (now : datetime) (w : world) :
  raw_query body = []
  \/ (2000 < length (raw_query body))%nat
  \/ forallb is_scalar (raw_query body) = false
  \/ (exists s, raw_agent_role body = Some s
                /\ s ∉ [u "analyst"; u "writer"; u "researcher"]) ->
  let rendered :=
    forallb is_scalar (raw_query body)
    && F64.is_finite (raw_x body) && F64.is_finite (raw_y body)
    && from_option (forallb is_scalar) true (raw_agent_role body) in
  post_preview body w = (if rendered then Unprocessable else ServerError, w)
  /\ post_execute uuid4 now body w = (if rendered then Unprocessable else ServerError, w)
  /\ (forallb is_scalar (raw_query body) = false -> rendered = false).
Proof.
  intros H rendered.
  assert (exists e, AgentExecutionRequest.validate body = Raise e) as [e He].
  { unfold AgentExecutionRequest.validate, AgentExecutionRequest.query_ok. cbv zeta.
    destruct H as [H|[H|[H|(s & Hs & Hn)]]].
    - rewrite H. cbn. eauto.
    - assert ((Z.of_nat (length (raw_query body)) <=? 2000)%Z = false) as ->
        by (apply Z.leb_gt; lia).
      rewrite !andb_false_r. cbn [negb]. eauto.
    - rewrite H. cbn [andb negb]. eauto.
    - destruct (negb _); [eauto|].
      destruct (XYPadPosition.validate _ _) as [pos|e]; cbn [rbind]; [|eauto].
      rewrite Hs, (role_of_str_unknown s Hn). eauto. }
  unfold post_preview, post_execute. rewrite He, !validation_response_rendered.
  fold rendered. split; [reflexivity|]. split; [reflexivity|].
  intros Hq. subst rendered. by rewrite Hq.
Qed.

(** An empty query from the middle of the pad is answered 422, and 500
    when its density is NaN. *)
Lemma malformed_request_rejected_witness :
  let body := mk_raw [] (F64.dec 5 1) (F64.dec 5 1) (Some (u "analyst")) in
  let body_nan := mk_raw [] S754_nan (F64.dec 5 1) (Some (u "analyst")) in
  let w := Scenario.world_of Scenario.pending in
  (post_preview body w = (Unprocessable, w)
   /\ post_execute 3 Scenario.now body w = (Unprocessable, w))
  /\ (post_preview body_nan w = (ServerError, w)
      /\ post_execute 3 Scenario.now body_nan w = (ServerError, w)).
Proof.
  intros body body_nan w. split.
  - destruct (malformed_request_rejected body 3 Scenario.now w (or_introl eq_refl))
      as (Hp & He & _).
    split; [exact Hp|exact He].
  - destruct (malformed_request_rejected body_nan 3 Scenario.now w (or_introl eq_refl))
      as (Hp & He & _).
    split; [exact Hp|exact He].
Defined.

End Requests.

(* ===================================================================== *)
(** * More on the streaming endpoint *)
(* ===================================================================== *)

Section Streams.
Import Main.

(** X14: every stream request for a known identifier is answered by a
    stream of the same shape, whatever the backend, the file system and
    the status of the record do: token events, none with an empty
    content, followed by exactly one terminal event, [complete] or
    [error], after which nothing is sent, and no exception leaves the
    generator. With [complete] the record ends in status completed and
    holds the identifier the event carries; with [error] it ends in
    status error and holds the message the event carries. *)
Theorem stream_ends_with_one_terminal_event
    (id : str) (env : stream_env) (w : world) (ex : execution) :
  executions w !! id = Some ex ->
  exists fragments final w',
    serve_stream id env w = Streamed ((SSE.token <$> fragments) ++ [final]) w' None
    /\ Forall (fun t => t <> []) fragments
    /\ ((exists artifact_id usage,
           final = SSE.complete artifact_id usage
           /\ executions w' !! id
              = Some (mk_execution (request ex) (prompt_components ex) (u "completed")
                        (created_at ex) (Some artifact_id) (error ex)))
        \/ (exists msg,
              final = SSE.error msg
              /\ executions w' !! id
                 = Some (mk_execution (request ex) (prompt_components ex) (u "error")
                           (created_at ex) (artifact_id ex) (Some msg)))).
Proof.
  intros Hex.
  destruct (build_full_prompt_eq
              (AgentRole.to_str (AgentExecutionRequest.agent_role (request ex)))
              (XYPadPosition.x (AgentExecutionRequest.xy_position (request ex)))
              (XYPadPosition.y (AgentExecutionRequest.xy_position (request ex)))
              (AgentExecutionRequest.query (request ex))) as (c & _ & Hfp).
  rewrite (serve_stream_cases id env w ex _ Hex Hfp). cbv zeta.
  set (run := GeminiClient.stream_generate _ _ _ _).
  assert (Forall (fun t => t <> []) (GeminiClient.yielded run)) as Hne
    by (subst run; unfold GeminiClient.stream_generate; apply yielded_nonempty).
  exists (GeminiClient.yielded run).
  assert (forall e dir,
            exists final w',
              Streamed ((SSE.token <$> GeminiClient.yielded run) ++ [SSE.error (exc_str e)])
                (mk_world
                   (<[id := mk_execution (request ex) (prompt_components ex) (u "error")
                              (created_at ex) (artifact_id ex) (Some (exc_str e))]>
                      (executions w)) dir) None
              = Streamed ((SSE.token <$> GeminiClient.yielded run) ++ [final]) w' None
              /\ Forall (fun t => t <> []) (GeminiClient.yielded run)
              /\ ((exists artifact_id usage,
                     final = SSE.complete artifact_id usage
                     /\ executions w' !! id
                        = Some (mk_execution (request ex) (prompt_components ex) (u "completed")
                                  (created_at ex) (Some artifact_id) (error ex)))
                  \/ (exists msg,
                        final = SSE.error msg
                        /\ executions w' !! id
                           = Some (mk_execution (request ex) (prompt_components ex) (u "error")
                                     (created_at ex) (artifact_id ex) (Some msg))))) as Hfail.
  { intros e dir. eexists _, _. split; [reflexivity|]. split; [exact Hne|].
    right. eexists. split; [reflexivity|]. cbn [executions]. apply lookup_insert_eq. }
  destruct (GeminiClient.raised run) as [e|]; [apply Hfail|].
  destruct (ArtifactManager.save_artifact _ _ _ _ _ _ _) as [[artifact|e] dir]; [|apply Hfail].
  destruct (TokenTracker.get_usage_summary _ _) as [usage|e]; [|apply Hfail].
  destruct (TokenUsage.validate usage) as [token_usage|e]; [|apply Hfail].
  eexists _, _. split; [reflexivity|]. split; [exact Hne|].
  left. eexists _, _. split; [reflexivity|]. cbn [executions]. apply lookup_insert_eq.
Qed.

(** X15: a stream request changes one record and at most one artifact.
    The record of the streamed identifier keeps its request, its prompt
    components and its creation time; no record is added or removed and
    every other record is as before; every artifact but the one whose
    identifier this run draws reads back, or fails to, exactly as
    before. *)
Theorem stream_touches_one_record
    (id : str) (env : stream_env) (w : world) (ex : execution) :
  executions w !! id = Some ex ->
  exists evs w' ex',
    serve_stream id env w = Streamed evs w' None
    /\ executions w' = <[id := ex']> (executions w)
    /\ request ex' = request ex
    /\ prompt_components ex' = prompt_components ex
    /\ created_at ex' = created_at ex
    /\ (forall other, other <> id -> executions w' !! other = executions w !! other)
    /\ (forall other, other <> ArtifactManager.artifact_id_of (uuid4 env) ->
          get_artifact other w' = get_artifact other w).
Proof.
  intros Hex.
  destruct (build_full_prompt_eq
              (AgentRole.to_str (AgentExecutionRequest.agent_role (request ex)))
              (XYPadPosition.x (AgentExecutionRequest.xy_position (request ex)))
              (XYPadPosition.y (AgentExecutionRequest.xy_position (request ex)))
              (AgentExecutionRequest.query (request ex))) as (c & _ & Hfp).
  rewrite (serve_stream_cases id env w ex _ Hex Hfp). cbv zeta.
  set (run := GeminiClient.stream_generate _ _ _ _).
  assert (forall evs ex' dir,
            request ex' = request ex -> prompt_components ex' = prompt_components ex ->
            created_at ex' = created_at ex ->
            (forall other, other <> ArtifactManager.artifact_id_of (uuid4 env) ->
               ArtifactManager.get_artifact other dir
               = ArtifactManager.get_artifact other (storage w)) ->
            exists evs0 w' ex0,
              Streamed evs (mk_world (<[id := ex']> (executions w)) dir) None
              = Streamed evs0 w' None
              /\ executions w' = <[id := ex0]> (executions w)
              /\ request ex0 = request ex
              /\ prompt_components ex0 = prompt_components ex
              /\ created_at ex0 = created_at ex
              /\ (forall other, other <> id -> executions w' !! other = executions w !! other)
              /\ (forall other, other <> ArtifactManager.artifact_id_of (uuid4 env) ->
                    get_artifact other w' = get_artifact other w)) as Hall.
  { intros evs ex' dir H1 H2 H3 H4. exists evs, (mk_world (<[id := ex']> (executions w)) dir), ex'.
    split; [reflexivity|]. split; [reflexivity|]. split; [exact H1|]. split; [exact H2|].
    split; [exact H3|]. split; [|exact H4].
    intros other Hother. cbn [executions]. by rewrite lookup_insert_ne. }
  destruct (GeminiClient.raised run) as [e|]; [by apply Hall|].
  destruct (ArtifactManager.save_artifact _ _ _ _ _ _ _) as [[artifact|e] dir] eqn:Hsave.
  2:{ apply Hall; try reflexivity. intros other Hother.
      exact (save_artifact_frame _ _ _ _ _ _ _ _ _ _ Hsave Hother). }
  assert (forall other, other <> ArtifactManager.artifact_id_of (uuid4 env) ->
            ArtifactManager.get_artifact other dir
            = ArtifactManager.get_artifact other (storage w)) as Hframe
    by (intros other Hother; exact (save_artifact_frame _ _ _ _ _ _ _ _ _ _ Hsave Hother)).
  destruct (TokenTracker.get_usage_summary _ _) as [usage|e]; [|by apply Hall].
  destruct (TokenUsage.validate usage) as [token_usage|e]; by apply Hall.
Qed.

(** X16: how the backend cuts its answer into fragments shows in the
    token events only. Two runs on the same record that end without an
    exception and whose fragments concatenate to the same text, with the
    same draws for [save_artifact], end with the same terminal event and
    leave the same state: the same artifact, the same usage figures, the
    same record. *)
Theorem fragmentation_is_invisible
    (id : str) (env1 env2 : stream_env) (w : world) (ex : execution) (fp : str) :
  executions w !! id = Some ex ->
  let req := request ex in
  PromptEngine.build_full_prompt
    (AgentRole.to_str (AgentExecutionRequest.agent_role req))
    (XYPadPosition.x (AgentExecutionRequest.xy_position req))
    (XYPadPosition.y (AgentExecutionRequest.xy_position req))
    (AgentExecutionRequest.query req) = Ok fp ->
  uuid4 env2 = uuid4 env1 -> utcnow env2 = utcnow env1 -> faults env2 = faults env1 ->
  let temperature := PromptEngine.temperature (prompt_components ex) in
  let run1 := GeminiClient.stream_generate (model env1) fp temperature (max_output_tokens env1) in
  let run2 := GeminiClient.stream_generate (model env2) fp temperature (max_output_tokens env2) in
  GeminiClient.raised run1 = None -> GeminiClient.raised run2 = None ->
  concat (GeminiClient.yielded run1) = concat (GeminiClient.yielded run2) ->
  exists final w',
    serve_stream id env1 w
    = Streamed ((SSE.token <$> GeminiClient.yielded run1) ++ [final]) w' None
    /\ serve_stream id env2 w
       = Streamed ((SSE.token <$> GeminiClient.yielded run2) ++ [final]) w' None.
Proof.
  intros Hex req Hfp Hu Hn Hf temperature run1 run2 H1 H2 Hcat. subst req temperature.
  rewrite (serve_stream_cases id env1 w ex fp Hex Hfp).
  rewrite (serve_stream_cases id env2 w ex fp Hex Hfp). cbv zeta.
  fold run1. fold run2. rewrite H1, H2, Hu, Hn, Hf, Hcat.
  destruct (ArtifactManager.save_artifact _ _ _ _ _ _ _) as [[artifact|e] dir];
    [|eexists _, _; split; reflexivity].
  destruct (TokenTracker.get_usage_summary _ _) as [usage|e];
    [|eexists _, _; split; reflexivity].
  destruct (TokenUsage.validate usage) as [token_usage|e]; eexists _, _; split; reflexivity.
Qed.

(** X17: what a [complete] event promises can be fetched. When a
    stream for a known identifier ends with a [complete] event, the events
    before it are the token events of the fragments, and the artifact
    route answers the identifier of the event with the artifact: its
    content is the concatenation of the fragments, its type markdown, its
    agent role the persona of the request, and the completion tokens of
    the event are a quarter of the length of that content, rounded down.
    An identifier with no metadata file is answered 404. *)
Theorem completed_stream_artifact_is_served
    (id : str) (env : stream_env) (w w' : world) (ex : execution)
    (evs : list SSE.event) (artifact_id : str) (usage : TokenUsage.t) :
  executions w !! id = Some ex ->
  serve_stream id env w = Streamed (evs ++ [SSE.complete artifact_id usage]) w' None ->
  exists fragments artifact,
    evs = SSE.token <$> fragments
    /\ get_artifact_route artifact_id w' = Returns artifact
    /\ ArtifactMetadata.artifact_id artifact = artifact_id
    /\ ArtifactMetadata.content artifact = concat fragments
    /\ ArtifactMetadata.file_type artifact = u "markdown"
    /\ ArtifactMetadata.agent_role artifact
       = AgentRole.to_str (AgentExecutionRequest.agent_role (request ex))
    /\ usage.(TokenUsage.completion_tokens) = (Z.of_nat (length (concat fragments)) / 4)%Z
    /\ (forall other,
          storage w' !! (other ++ u "_meta.json") = None ->
          get_artifact_route other w' = HTTPException 404 (u "Artifact not found")).
Proof.
  intros Hex H.
  destruct (build_full_prompt_eq
              (AgentRole.to_str (AgentExecutionRequest.agent_role (request ex)))
              (XYPadPosition.x (AgentExecutionRequest.xy_position (request ex)))
              (XYPadPosition.y (AgentExecutionRequest.xy_position (request ex)))
              (AgentExecutionRequest.query (request ex))) as (c & _ & Hfp).
  rewrite (serve_stream_cases id env w ex _ Hex Hfp) in H. cbv zeta in H.
  set (run := GeminiClient.stream_generate _ _ _ _) in H.
  assert (forall e dir,
            Streamed ((SSE.token <$> GeminiClient.yielded run) ++ [SSE.error (exc_str e)])
              (mk_world
                 (<[id := mk_execution (request ex) (prompt_components ex) (u "error")
                            (created_at ex) (Main.artifact_id ex) (Some (exc_str e))]>
                    (executions w)) dir) None
            <> Streamed (evs ++ [SSE.complete artifact_id usage]) w' None) as Hno.
  { intros e dir [= E _]. apply app_inj_tail in E as [_ E]. discriminate E. }
  destruct (GeminiClient.raised run) as [e|]; [by apply Hno in H|].
  destruct (ArtifactManager.save_artifact _ _ _ _ _ _ _) as [[artifact|e] dir] eqn:Hsave;
    [|by apply Hno in H].
  destruct (TokenTracker.get_usage_summary _ _) as [summary|e] eqn:Hsum; [|by apply Hno in H].
  destruct (TokenUsage.validate summary) as [token_usage|e] eqn:Hval; [|by apply Hno in H].
  injection H as E <-. apply app_inj_tail in E as [<- [= <- <-]].
  destruct (save_artifact_returns _ _ _ _ _ _ _ _ _ Hsave) as (Hm & Hdir & _).
  exists (GeminiClient.yielded run), artifact.
  split; [reflexivity|].
  split.
  { unfold get_artifact_route, get_artifact. cbn [storage]. rewrite Hdir.
    assert (ArtifactMetadata.artifact_id artifact
            = ArtifactManager.artifact_id_of (uuid4 env)) as -> by (by rewrite Hm).
    by rewrite get_artifact_after_write. }
  split; [reflexivity|]. split; [by rewrite Hm|]. split; [by rewrite Hm|]. split; [by rewrite Hm|].
  split.
  { unfold TokenTracker.get_usage_summary in Hsum.
    destruct (TokenTracker.calculate_cost _ _) as [cost|e]; [|discriminate Hsum].
    cbn [rbind] in Hsum. injection Hsum as <-.
    unfold TokenUsage.validate in Hval.
    destruct (_ && _) in Hval; [|discriminate Hval]. injection Hval as <-. reflexivity. }
  intros other Hnone. unfold get_artifact_route, get_artifact, ArtifactManager.get_artifact.
  by rewrite Hnone.
Qed.

(** X13: what is previewed is what is sent. When [execute_agent]
    returns, the bundle in its answer is the one [preview_prompt] returns
    for the same request; the record is stored under the identifier of
    the answer, in status pending, and the stream address ends with that
    identifier. A stream of that execution calls the model with the
    system prompt of that bundle followed by the query between the
    [USER QUERY:] and [RESPONSE:] markers, and with the temperature of
    that bundle: the token events are the fragments of that call. *)
Theorem streamed_prompt_is_the_previewed_one
    (uuid4 : N) (now : datetime) (request : AgentExecutionRequest.t) (w w1 : world)
    (r : AgentExecutionResponse) (env : stream_env) :
  execute_agent uuid4 now request w = (Returns r, w1) ->
  let c := resp_prompt_components r in
  let fp :=
    PromptEngine.final_system_prompt c
    ++ lines [ []; []; u "---"; u "USER QUERY:"; AgentExecutionRequest.query request; [];
               u "---"; u "RESPONSE:"; [] ] in
  let run :=
    GeminiClient.stream_generate (model env) fp (PromptEngine.temperature c)
      (max_output_tokens env) in
  preview_prompt request = Returns c
  /\ stream_url r = u "/api/v1/agent/stream/" ++ resp_execution_id r
  /\ executions w1 !! resp_execution_id r
     = Some (mk_execution request c (u "pending") now None None)
  /\ storage w1 = storage w
  /\ exists final w2,
       serve_stream (resp_execution_id r) env w1
       = Streamed ((SSE.token <$> GeminiClient.yielded run) ++ [final]) w2 None.
Proof.
  intros H c fp run. subst c fp run.
  destruct (build_full_prompt_eq
              (AgentRole.to_str (AgentExecutionRequest.agent_role request))
              (XYPadPosition.x (AgentExecutionRequest.xy_position request))
              (XYPadPosition.y (AgentExecutionRequest.xy_position request))
              (AgentExecutionRequest.query request)) as (c & Hc & Hfp).
  assert (PromptComponents.validate c = Ok c) as Hv.
  { unfold execute_agent in H. rewrite Hc in H.
    unfold PromptComponents.validate in *.
    destruct (XYPadPosition.in_unit _); [reflexivity|discriminate H]. }
  destruct (execute_agent_returns uuid4 now request w c Hc Hv) as [Hex0 Hpv].
  cbv zeta in Hex0. rewrite Hex0 in H.
  set (id := u "exec_" ++ take 12 (uuid_hex uuid4)) in *.
  assert (r = mk_response id c (u "/api/v1/agent/stream/" ++ id)) as -> by congruence.
  assert (w1 = mk_world
                 (<[id := mk_execution request c (u "pending") now None None]> (executions w))
                 (storage w)) as -> by congruence.
  clear H Hex0.
  cbn [resp_prompt_components resp_execution_id stream_url executions storage].
  split; [exact Hpv|].
  split; [reflexivity|].
  split; [apply lookup_insert_eq|]. split; [reflexivity|].
  set (ex := mk_execution request c (u "pending") now None None).
  set (w1 := mk_world (<[id := ex]> (executions w)) (storage w)).
  assert (executions w1 !! id = Some ex) as Hex by apply lookup_insert_eq.
  rewrite (serve_stream_cases id env w1 ex _ Hex Hfp). cbv zeta.
  cbn [prompt_components ex].
  destruct (GeminiClient.raised _) as [e|]; [eexists _, _; reflexivity|].
  destruct (ArtifactManager.save_artifact _ _ _ _ _ _ _) as [[artifact|e] dir];
    [|eexists _, _; reflexivity].
  destruct (TokenTracker.get_usage_summary _ _) as [usage|e]; [|eexists _, _; reflexivity].
  destruct (TokenUsage.validate usage) as [token_usage|e]; eexists _, _; reflexivity.
Qed.

(** ** The scenario, once more *)

(** The stream of the scenario whose backend yields two fragments. *)
Lemma scenario_hello_stream :
  exists token_usage w',
    serve_stream Scenario.execution_id (Scenario.env_of Scenario.hello_world)
      (Scenario.world_of Scenario.pending)
    = Streamed ([SSE.token (u "Hello"); SSE.token (u " world")]
                ++ [SSE.complete (ArtifactManager.artifact_id_of Scenario.uuid) token_usage])
        w' None.
Proof.
  pose proof (scenario_lookup Scenario.pending) as Hex.
  destruct scenario_full_prompt as (fp & Hfp & Hlen).
  destruct (token_usage_valid fp (u "Hello world") Hlen ltac:(vm_compute; discriminate))
    as (usage & Husage & Hvalid).
  pose proof (save_artifact_ok Scenario.uuid Scenario.now (u "Hello world") (u "analyst")
                (u "markdown") ∅ markdown_file_type eq_refl eq_refl) as Hsave.
  cbv zeta in Hsave.
  eexists _, _.
  rewrite (serve_stream_cases _ (Scenario.env_of Scenario.hello_world) _ _ fp Hex Hfp). cbv zeta.
  change (GeminiClient.raised _) with (@None exn).
  change (concat (GeminiClient.yielded _)) with (u "Hello world").
  change (ArtifactManager.save_artifact _ _ _ _ _ _ _)
    with (ArtifactManager.save_artifact Scenario.uuid Scenario.now ArtifactManager.no_faults
            (u "Hello world") (u "analyst") (u "markdown") ∅).
  rewrite Hsave, Husage, Hvalid. reflexivity.
Qed.

Lemma stream_ends_with_one_terminal_event_witness :
  exists fragments final w',
    serve_stream Scenario.execution_id (Scenario.env_of Scenario.breaks_after_one)
      (Scenario.world_of Scenario.pending)
    = Streamed ((SSE.token <$> fragments) ++ [final]) w' None
    /\ Forall (fun t => t <> []) fragments.
Proof.
  destruct (stream_ends_with_one_terminal_event Scenario.execution_id
              (Scenario.env_of Scenario.breaks_after_one) (Scenario.world_of Scenario.pending)
              Scenario.pending (scenario_lookup Scenario.pending))
    as (fragments & final & w' & Hs & Hne & _).
  exists fragments, final, w'. split; [exact Hs|exact Hne].
Defined.

Lemma stream_touches_one_record_witness :
  exists evs w',
    serve_stream Scenario.execution_id (Scenario.env_of Scenario.hello_world)
      (Scenario.world_of Scenario.pending)
    = Streamed evs w' None
    /\ executions w' !! u "exec_ffffffffffff" = None.
Proof.
  destruct (stream_touches_one_record Scenario.execution_id
              (Scenario.env_of Scenario.hello_world) (Scenario.world_of Scenario.pending)
              Scenario.pending (scenario_lookup Scenario.pending))
    as (evs & w' & ex' & Hs & _ & _ & _ & _ & Hother & _).
  exists evs, w'. split; [exact Hs|].
  rewrite Hother.
  - apply lookup_singleton_ne. intros E. vm_compute in E. discriminate E.
  - intros E. vm_compute in E. discriminate E.
Defined.

(** The same answer in one fragment and in two. *)
Lemma fragmentation_is_invisible_witness :
  let whole : GeminiClient.backend := fun _ _ _ => [GeminiClient.Chunk (u "Hello world")] in
  exists final w',
    serve_stream Scenario.execution_id (Scenario.env_of Scenario.hello_world)
      (Scenario.world_of Scenario.pending)
    = Streamed ([SSE.token (u "Hello"); SSE.token (u " world")] ++ [final]) w' None
    /\ serve_stream Scenario.execution_id (Scenario.env_of whole)
         (Scenario.world_of Scenario.pending)
       = Streamed ([SSE.token (u "Hello world")] ++ [final]) w' None.
Proof.
  intros whole.
  destruct scenario_full_prompt as (fp & Hfp & _).
  exact (fragmentation_is_invisible Scenario.execution_id
           (Scenario.env_of Scenario.hello_world) (Scenario.env_of whole)
           (Scenario.world_of Scenario.pending) Scenario.pending fp
           (scenario_lookup Scenario.pending) Hfp eq_refl eq_refl eq_refl
           eq_refl eq_refl eq_refl).
Defined.

Lemma completed_stream_artifact_is_served_witness :
  exists token_usage w' artifact,
    serve_stream Scenario.execution_id (Scenario.env_of Scenario.hello_world)
      (Scenario.world_of Scenario.pending)
    = Streamed ([SSE.token (u "Hello"); SSE.token (u " world")]
                ++ [SSE.complete (ArtifactManager.artifact_id_of Scenario.uuid) token_usage])
        w' None
    /\ get_artifact_route (ArtifactManager.artifact_id_of Scenario.uuid) w' = Returns artifact
    /\ ArtifactMetadata.content artifact = u "Hello world".
Proof.
  destruct scenario_hello_stream as (token_usage & w' & Hs).
  destruct (completed_stream_artifact_is_served Scenario.execution_id
              (Scenario.env_of Scenario.hello_world) (Scenario.world_of Scenario.pending) w'
              Scenario.pending _ _ token_usage (scenario_lookup Scenario.pending) Hs)
    as (fragments & artifact & Hevs & Hroute & _ & Hcontent & _).
  exists token_usage, w', artifact. split; [exact Hs|]. split; [exact Hroute|].
  rewrite Hcontent.
  assert (fragments = [u "Hello"; u " world"]) as ->.
  { destruct fragments as [|f1 [|f2 [|f3 fs]]]; try discriminate Hevs.
    cbn in Hevs. congruence. }
  reflexivity.
Defined.

Lemma streamed_prompt_is_the_previewed_one_witness :
  exists r w1 final w2,
    execute_agent Scenario.uuid Scenario.now Scenario.request (mk_world ∅ ∅) = (Returns r, w1)
    /\ preview_prompt Scenario.request = Returns (resp_prompt_components r)
    /\ serve_stream (resp_execution_id r) (Scenario.env_of Scenario.hello_world) w1
       = Streamed ([SSE.token (u "Hello"); SSE.token (u " world")] ++ [final]) w2 None.
Proof.
  destruct (components_valid (u "analyst") (F64.dec 1 1) (F64.dec 1 1) (u "Analyze Q4 risk")
              eq_refl eq_refl) as (c & Hc & Hv & _).
  destruct (execute_agent_returns Scenario.uuid Scenario.now Scenario.request (mk_world ∅ ∅)
              c Hc Hv) as [Hex _].
  cbv zeta in Hex.
  destruct (streamed_prompt_is_the_previewed_one _ _ _ _ _ _
              (Scenario.env_of Scenario.hello_world) Hex)
    as (Hpv & _ & _ & _ & final & w2 & Hs).
  eexists _, _, final, w2. split; [exact Hex|]. split; [exact Hpv|exact Hs].
Defined.

End Streams.

(* ===================================================================== *)
(** * The length of the prompt *)
(* ===================================================================== *)

Section PromptLength.
Import PromptEngine.

Lemma base_prompt_cases (agent_role : str) :
  dict_get BASE_PROMPTS agent_role ANALYST_PROMPT
  ∈ [ANALYST_PROMPT; dict_get BASE_PROMPTS (u "writer") ANALYST_PROMPT;
     dict_get BASE_PROMPTS (u "researcher") ANALYST_PROMPT].
Proof.
  destruct (decide (agent_role = u "analyst")) as [->|N1]; [vm_compute; set_solver|].
  destruct (decide (agent_role = u "writer")) as [->|N2]; [set_solver|].
  destruct (decide (agent_role = u "researcher")) as [->|N3]; [set_solver|].
  rewrite dict_get_unknown_role; [set_solver|].
  intros H. repeat (apply elem_of_cons in H as [H|H]; [congruence|]).
  by apply elem_of_nil in H.
Qed.

Lemma length_base_prompt (agent_role : str) :
  86 <= length (dict_get BASE_PROMPTS agent_role ANALYST_PROMPT) <= 99.
Proof.
  pose proof (base_prompt_cases agent_role) as H.
  repeat (apply elem_of_cons in H as [->|H]; [vm_compute; lia|]).
  by apply elem_of_nil in H.
Qed.

Lemma length_density (x : float) : 254 <= length (get_density_instruction x) <= 287.
Proof.
  unfold get_density_instruction.
  destruct (x <? F64.dec 3 1)%f64; [vm_compute; lia|].
  destruct (x <? F64.dec 7 1)%f64; vm_compute; lia.
Qed.

Lemma length_creativity (y : float) : 319 <= length (get_creativity_instruction y) <= 375.
Proof.
  unfold get_creativity_instruction.
  destruct (y <? F64.dec 3 1)%f64; [vm_compute; lia|].
  destruct (y <? F64.dec 7 1)%f64; vm_compute; lia.
Qed.

(** X18: the size of what is sent. The system prompt has between 839
    and 941 code points, whatever the role, an unknown one included, and
    the position; the full prompt adds the query and 34 code points of
    markers around it. For a query of at most 2000 code points, the limit
    of the request model, the estimate of the prompt tokens is therefore
    between 218 and 743. *)
Theorem full_prompt_length (agent_role : str) (x y : float) (query : str) :
  exists c full_prompt,
    build_prompt_components agent_role x y query = Ok c
    /\ build_full_prompt agent_role x y query = Ok full_prompt
    /\ 839 <= length (final_system_prompt c) <= 941
    /\ length full_prompt = length (final_system_prompt c) + 34 + length query
    /\ (length query <= 2000 ->
        (218 <= TokenTracker.estimate_tokens full_prompt <= 743)%Z).
Proof.
  eexists _, _. split; [apply build_prompt_components_eq|].
  split; [unfold build_full_prompt; rewrite build_prompt_components_eq; reflexivity|].
  cbn [final_system_prompt].
  pose proof (length_base_prompt agent_role) as Hb.
  pose proof (length_density x) as Hd.
  pose proof (length_creativity y) as Hy.
  assert (length CONSTRAINTS = 174) as Hk by reflexivity.
  assert (length nl = 1) as Hnl by reflexivity.
  set (b := dict_get BASE_PROMPTS agent_role ANALYST_PROMPT) in *.
  set (cr := get_creativity_instruction y) in *.
  set (de := get_density_instruction x) in *.
  assert (length (lines [ []; []; u "---"; u "USER QUERY:"; query; []; u "---"; u "RESPONSE:"; [] ])
          = 34 + length query) as Hs.
  { cbn [lines]. rewrite !length_app. cbn [length]. rewrite Hnl.
    change (length (u "---")) with 3. change (length (u "USER QUERY:")) with 11.
    change (length (u "RESPONSE:")) with 9. lia. }
  clearbody b cr de.
  split; [rewrite !length_app, Hk, Hnl; lia|].
  split; [rewrite length_app, Hs; lia|].
  intros Hq. unfold TokenTracker.estimate_tokens.
  rewrite length_app, Hs, !length_app, Hk, Hnl.
  split.
  - apply Z.div_le_lower_bound; [lia|]. clear - Hb Hd Hy. lia.
  - apply Z.lt_succ_r. apply Z.div_lt_upper_bound; [lia|]. clear - Hb Hd Hy Hq. lia.
Qed.

End PromptLength.
